(** * fpga_config: passive-serial FPGA configuration over GPIO

    A shallow embedding of [src/main.cpp].  The program's globals live in a
    record [state]; every function of the source is a computation in a small
    state-and-fault monad [M].  Accesses through the mapped register page are
    stores and loads on a list of 32-bit words, and every store, console
    message, allocation and unmapping is appended to a chronological
    [trace].  The asynchronous termination signal is delivered by the
    environment at a fixed tick of a step counter, where it runs
    [_sigint_handler]. *)

From Stdlib Require Import ZArith List Lia Bool Strings.Byte.
From stdpp Require Import base list.
Import ListNotations.

Local Open Scope Z_scope.

(** ** Constants of main.cpp *)

Definition NUM_CONSECUTIVE_GPIO_WRITES : nat := 5.
Definition FPGA2_NCE_GPIO_PIN   : Z := 2.
Definition DCLK_GPIO_PIN        : Z := 3.
Definition DATA0_GPIO_PIN       : Z := 16.
Definition NCONFIG_GPIO_PIN     : Z := 17.
Definition BOARD_REV_GPIO_PIN_1 : Z := 20.
Definition BOARD_REV_GPIO_PIN_2 : Z := 21.
Definition PAGE_SIZE            : Z := 4096.
Definition GPIO_SET_OFFSET      : Z := 0x1C.
Definition GPIO_CLR_OFFSET      : Z := 0x28.
Definition GPIO_RD_OFFSET       : Z := 0x34.
Definition GPIO_PULL_BASE_OFFSET : Z := 0xE4.

(** [sizeof(uint32_t)] *)
Definition SIZEOF_U32 : Z := 4.

(** Number of 32-bit registers in the mapped page. *)
Definition PAGE_WORDS : Z := PAGE_SIZE / SIZEOF_U32.

(** The build-time switch [MELBINST_PI_HAT]: 0 has two FPGAs, 1 has one. *)
Inductive pi_hat := HAT0 | HAT1.

(** ** 32-bit arithmetic *)

Definition u32 (x : Z) : Z := x mod 2 ^ 32.

(** [a << s] truncated to 32 bits *)
Definition shl32 (a s : Z) : Z := u32 (Z.shiftl a s).

(** [~a] on 32 bits *)
Definition not32 (a : Z) : Z := u32 (Z.lnot a).

(** ** Observable events *)

Inductive board_rev := RevA | RevB | RevC | RevD.

(** One constructor per console line of the source. *)
Inductive message :=
| MsgAppInfo                       (* banner and version, _print_app_info *)
| MsgGpioSetup                     (* "GPIO open and setup" *)
| MsgGpioError                     (* "GPIO open/setup error" *)
| MsgBoardRev (r : board_rev)      (* "Detected Board Rev X" *)
| MsgNoFile (fpga : nat)           (* "Could not open the FPGAn binary file" *)
| MsgNoMemory (fpga : nat)         (* "Could not allocate memory ..." *)
| MsgFileSize (fpga : nat) (n : Z) (* "FPGAn binary file size: n bytes" *)
| MsgConfigured (fpga : nat)       (* "FPGAn configured, <elapsed>ms" *)
| MsgGpioClosed                    (* "GPIO port closed" *)
| MsgCompleted.                    (* "FPGA Config completed" *)

Inductive event :=
| EvStore (reg : Z) (val : Z)      (* 32-bit store to word [reg] of the page *)
| EvMsg (m : message)
| EvSleep                          (* sleep_for(1ms) *)
| EvMmap
| EvMunmap
| EvNew (n : Z)                    (* new uint8_t[n] *)
| EvDelete.                        (* delete [] binary_data *)

(** ** Environment *)

Record world := {
  mem_dev_ok : bool;                 (* ::open("/dev/mem") succeeds *)
  mmap_ok    : bool;                 (* ::mmap does not return MAP_FAILED *)
  fpga1_file : option (list byte);   (* None: the file cannot be opened *)
  fpga2_file : option (list byte);
  new_ok     : Z -> bool;            (* operator new[] finds the memory *)
  gpio_regs  : list Z;               (* register contents when the run starts *)
  sigint_at  : option nat            (* tick at which SIGINT/SIGTERM arrives *)
}.

(** ** Program state: the globals of main.cpp, the register page, and the
       step counter and trace that observe the run *)

Record state := {
  exit_flag        : bool;
  gpio_port        : option Z;       (* None is nullptr; Some i is word i *)
  gpio_set_reg     : option Z;
  gpio_clr_reg     : option Z;
  gpio_rd_reg      : option Z;
  binary_data      : option (list byte);
  binary_data_size : Z;
  page             : list Z;         (* the GPIO register page *)
  clock            : nat;
  trace            : list event
}.

Definition with_exit_flag (b : bool) (st : state) : state :=
  {| exit_flag := b; gpio_port := gpio_port st;
     gpio_set_reg := gpio_set_reg st; gpio_clr_reg := gpio_clr_reg st;
     gpio_rd_reg := gpio_rd_reg st; binary_data := binary_data st;
     binary_data_size := binary_data_size st; page := page st;
     clock := clock st; trace := trace st |}.

Definition with_gpio_port (p : option Z) (st : state) : state :=
  {| exit_flag := exit_flag st; gpio_port := p;
     gpio_set_reg := gpio_set_reg st; gpio_clr_reg := gpio_clr_reg st;
     gpio_rd_reg := gpio_rd_reg st; binary_data := binary_data st;
     binary_data_size := binary_data_size st; page := page st;
     clock := clock st; trace := trace st |}.

Definition with_gpio_regs (s c r : option Z) (st : state) : state :=
  {| exit_flag := exit_flag st; gpio_port := gpio_port st;
     gpio_set_reg := s; gpio_clr_reg := c; gpio_rd_reg := r;
     binary_data := binary_data st;
     binary_data_size := binary_data_size st; page := page st;
     clock := clock st; trace := trace st |}.

Definition with_binary_data (d : option (list byte)) (st : state) : state :=
  {| exit_flag := exit_flag st; gpio_port := gpio_port st;
     gpio_set_reg := gpio_set_reg st; gpio_clr_reg := gpio_clr_reg st;
     gpio_rd_reg := gpio_rd_reg st; binary_data := d;
     binary_data_size := binary_data_size st; page := page st;
     clock := clock st; trace := trace st |}.

Definition with_binary_data_size (n : Z) (st : state) : state :=
  {| exit_flag := exit_flag st; gpio_port := gpio_port st;
     gpio_set_reg := gpio_set_reg st; gpio_clr_reg := gpio_clr_reg st;
     gpio_rd_reg := gpio_rd_reg st; binary_data := binary_data st;
     binary_data_size := n; page := page st;
     clock := clock st; trace := trace st |}.

Definition with_page (p : list Z) (st : state) : state :=
  {| exit_flag := exit_flag st; gpio_port := gpio_port st;
     gpio_set_reg := gpio_set_reg st; gpio_clr_reg := gpio_clr_reg st;
     gpio_rd_reg := gpio_rd_reg st; binary_data := binary_data st;
     binary_data_size := binary_data_size st; page := p;
     clock := clock st; trace := trace st |}.

Definition with_clock (c : nat) (st : state) : state :=
  {| exit_flag := exit_flag st; gpio_port := gpio_port st;
     gpio_set_reg := gpio_set_reg st; gpio_clr_reg := gpio_clr_reg st;
     gpio_rd_reg := gpio_rd_reg st; binary_data := binary_data st;
     binary_data_size := binary_data_size st; page := page st;
     clock := c; trace := trace st |}.

Definition with_trace (t : list event) (st : state) : state :=
  {| exit_flag := exit_flag st; gpio_port := gpio_port st;
     gpio_set_reg := gpio_set_reg st; gpio_clr_reg := gpio_clr_reg st;
     gpio_rd_reg := gpio_rd_reg st; binary_data := binary_data st;
     binary_data_size := binary_data_size st; page := page st;
     clock := clock st; trace := t |}.

(** ** The monad: state threading with faults

    A fault is what the C++ run does not survive: a dereference of a null
    pointer, an access outside the mapped page or the image buffer, a shift
    by a negative count, an uncaught std::bad_alloc. *)

Inductive fault := NullDeref | OutOfPage | OutOfBuffer | BadShift | BadAlloc.

Inductive outcome (A : Type) :=
| Ok (a : A) (st : state)
| Fault (f : fault) (st : state).
Arguments Ok {A} a st.
Arguments Fault {A} f st.

Definition M (A : Type) : Type := state -> outcome A.

Definition ret {A} (a : A) : M A := fun st => Ok a st.

Definition bind {A B} (m : M A) (k : A -> M B) : M B :=
  fun st => match m st with
            | Ok a st' => k a st'
            | Fault f st' => Fault f st'
            end.

Definition raise {A} (f : fault) : M A := fun st => Fault f st.

Definition gets {A} (proj : state -> A) : M A := fun st => Ok (proj st) st.

Definition modify (f : state -> state) : M unit := fun st => Ok tt (f st).

Notation "x <- m ;; k" := (bind m (fun x => k))
  (at level 100, m at level 99, k at level 200, right associativity).
Notation "m ;;; k" := (bind m (fun _ => k))
  (at level 100, k at level 200, right associativity).

(** [for (i = 0; i < n; i++) body(i)], counting from [lo]. *)
Fixpoint for_loop (n : nat) (lo : Z) (body : Z -> M unit) : M unit :=
  match n with
  | O => ret tt
  | S n' => body lo ;;; for_loop n' (lo + 1) body
  end.

(** ** The program *)

Section Program.

Variable W : world.
Variable hat : pi_hat.

(** *** Signal delivery *)

(** [exit_notifier.notify_one()] has no waiter anywhere in the program; the
    handler's only effect is the flag. *)
Definition _sigint_handler (st : state) : state := with_exit_flag true st.

(** Every primitive step advances the step counter; the signal, when the
    counter reaches its arrival tick, runs the handler between two steps. *)
Definition tick (st : state) : state :=
  let st' := with_clock (S (clock st)) st in
  match sigint_at W with
  | Some t => if Nat.eqb t (clock st') then _sigint_handler st' else st'
  | None => st'
  end.

Definition emit (e : event) : M unit :=
  fun st => Ok tt (tick (with_trace (trace st ++ [e]) st)).

Definition MSG (m : message) : M unit := emit (EvMsg m).

(** Reading the global [exit_flag] in a loop condition, as the source
    writes it: one read per evaluation of the condition.  The flag is a
    plain [bool], neither volatile nor atomic, and the loops of
    [_transfer_data] make no call, so a compiled program need not repeat the
    read inside a loop.  No statement below relies on a change of the flag
    during a loop being seen by a later check of that loop. *)
Definition poll_exit_flag : M bool :=
  fun st => Ok (exit_flag st) (tick st).

(** *** Register page access *)

(** Pointer arithmetic on [uint32_t *]: offsets count words. *)
Definition ptr_add (p : option Z) (k : Z) : option Z :=
  match p with
  | Some i => Some (i + k)
  | None => None
  end.

Definition load (p : option Z) : M Z :=
  fun st =>
    match p with
    | None => Fault NullDeref st
    | Some i =>
        if 0 <=? i then
          match page st !! Z.to_nat i with
          | Some v => Ok v (tick st)
          | None => Fault OutOfPage st
          end
        else Fault OutOfPage st
    end.

Definition store (p : option Z) (v : Z) : M unit :=
  fun st =>
    match p with
    | None => Fault NullDeref st
    | Some i =>
        if (0 <=? i) && (Z.to_nat i <? length (page st))%nat then
          Ok tt (tick (with_page (<[Z.to_nat i := v]> (page st))
                         (with_trace (trace st ++ [EvStore i v]) st)))
        else Fault OutOfPage st
    end.

(** [*p |= m] and [*p &= m]: a load followed by a store.  [gpio_port] is
    not volatile: the source fixes the register contents these assignments
    leave, not the number of stores nor their order among the volatile
    stores of the macros. *)
Definition or_assign (p : option Z) (m : Z) : M unit :=
  old <- load p ;; store p (Z.lor old m).

Definition and_assign (p : option Z) (m : Z) : M unit :=
  old <- load p ;; store p (Z.land old m).

(** *** The macros *)

Definition RD_GPIO_PIN (pin : Z) : M Z :=
  p <- gets gpio_rd_reg ;;
  v <- load p ;;
  ret (Z.land (Z.shiftr v pin) 0x01).

Definition SET_GPIO_PIN (pin : Z) : M unit :=
  p <- gets gpio_set_reg ;; store p (shl32 1 pin).

Definition CLR_GPIO_PIN (pin : Z) : M unit :=
  p <- gets gpio_clr_reg ;; store p (shl32 1 pin).

Definition SET_DCLK_PIN : M unit :=
  for_loop NUM_CONSECUTIVE_GPIO_WRITES 0 (fun _ => SET_GPIO_PIN DCLK_GPIO_PIN).

Definition CLR_DCLK_PIN : M unit :=
  for_loop NUM_CONSECUTIVE_GPIO_WRITES 0 (fun _ => CLR_GPIO_PIN DCLK_GPIO_PIN).

(** *** _mmap_bcm_register_base

    The mapped page is addressed from word 0. *)
Definition _mmap_bcm_register_base : M (option Z) :=
  if mem_dev_ok W then
    if mmap_ok W then emit EvMmap ;;; ret (Some 0)
    else ret None
  else ret None.

(** *** _init_gpio_pin *)

(** Word index of the function-select register of [pin], [pin / 10]. *)
Definition fsel_reg_offset (pin : Z) : Z := Z.quot pin 10.

(** Bit position of the function-select field of [pin], [(pin % 10) * 3]. *)
Definition fsel_bits_offset (pin : Z) : Z := Z.rem pin 10 * 3.

Definition pull_reg_offset (pin : Z) : Z :=
  u32 (Z.quot GPIO_PULL_BASE_OFFSET SIZEOF_U32 + Z.quot pin 16 * 4).

Definition pull_bits_offset (pin : Z) : Z := u32 (Z.rem pin 16 * 2).

(** A negative [pin] shifts by a negative count in the source; the model
    faults there. *)
Definition _init_gpio_pin (pin : Z) (output : bool) : M unit :=
  if pin <? 0 then raise BadShift else
  port <- gets gpio_port ;;
  if output then
    or_assign (ptr_add port (fsel_reg_offset pin))
              (shl32 1 (fsel_bits_offset pin))
  else
    and_assign (ptr_add port (fsel_reg_offset pin))
               (not32 (shl32 7 (fsel_bits_offset pin))) ;;;
    and_assign (ptr_add port (pull_reg_offset pin))
               (not32 (shl32 3 (pull_bits_offset pin))) ;;;
    or_assign (ptr_add port (pull_reg_offset pin))
              (shl32 1 (pull_bits_offset pin)).

(** *** _open_and_setup_gpio *)

Definition _open_and_setup_gpio : M unit :=
  p <- _mmap_bcm_register_base ;;
  modify (with_gpio_port p) ;;;
  match p with
  | Some _ =>
      modify (fun st =>
        with_gpio_regs
          (ptr_add (gpio_port st) (Z.quot GPIO_SET_OFFSET SIZEOF_U32))
          (ptr_add (gpio_port st) (Z.quot GPIO_CLR_OFFSET SIZEOF_U32))
          (ptr_add (gpio_port st) (Z.quot GPIO_RD_OFFSET SIZEOF_U32)) st) ;;;
      _init_gpio_pin NCONFIG_GPIO_PIN true ;;;
      match hat with
      | HAT0 => _init_gpio_pin FPGA2_NCE_GPIO_PIN true
      | HAT1 => ret tt
      end ;;;
      _init_gpio_pin DCLK_GPIO_PIN true ;;;
      _init_gpio_pin BOARD_REV_GPIO_PIN_1 false ;;;
      _init_gpio_pin BOARD_REV_GPIO_PIN_2 false ;;;
      match hat with
      | HAT0 => SET_GPIO_PIN FPGA2_NCE_GPIO_PIN
      | HAT1 => ret tt
      end ;;;
      CLR_GPIO_PIN DCLK_GPIO_PIN ;;;
      CLR_GPIO_PIN DATA0_GPIO_PIN ;;;
      CLR_GPIO_PIN NCONFIG_GPIO_PIN ;;;
      emit EvSleep ;;;
      MSG MsgGpioSetup
  | None => MSG MsgGpioError
  end.

(** *** _transfer_data *)

(** [*data++] with [data = binary_data + idx]. *)
Definition read_byte (idx : nat) : M byte :=
  fun st =>
    match binary_data st with
    | None => Fault NullDeref st
    | Some buf =>
        match buf !! idx with
        | Some b => Ok b st
        | None => Fault OutOfBuffer st
        end
    end.

(** The body of the inner [for]: one data bit and one DCLK pulse. *)
Definition send_bit (b : byte) (i : Z) : M unit :=
  let bit := Z.land (Z.shiftr (Z.of_N (Byte.to_N b)) i) 0x01 in
  (if bit =? 0
   then CLR_GPIO_PIN DATA0_GPIO_PIN
   else SET_GPIO_PIN DATA0_GPIO_PIN) ;;;
  SET_DCLK_PIN ;;;
  CLR_DCLK_PIN.

(** The first [while]: [remaining] is [binary_data + binary_data_size - data]
    and [idx] is [data - binary_data]. *)
Fixpoint stream_loop (remaining : nat) (idx : nat) : M unit :=
  flag <- poll_exit_flag ;;
  if flag then ret tt else
  match remaining with
  | O => ret tt
  | S n =>
      b <- read_byte idx ;;
      for_loop 8 0 (send_bit b) ;;;
      stream_loop n (S idx)
  end.

(** The second [while]: [!exit_flag && dclk_count--]. *)
Fixpoint tail_loop (dclk_count : nat) : M unit :=
  flag <- poll_exit_flag ;;
  if flag then ret tt else
  match dclk_count with
  | O => ret tt
  | S n => SET_DCLK_PIN ;;; CLR_DCLK_PIN ;;; tail_loop n
  end.

Definition _transfer_data : M unit :=
  size <- gets binary_data_size ;;
  stream_loop (Z.to_nat size) 0 ;;;
  tail_loop 10.

(** *** _config_fpga1 and _config_fpga2 *)

(** [new uint8_t[n]]: a fresh buffer, or std::bad_alloc, which nothing
    catches. *)
Definition new_array (n : Z) : M (option (list byte)) :=
  fun st =>
    if new_ok W n
    then Ok (Some (repeat x00 (Z.to_nat n)))
            (tick (with_trace (trace st ++ [EvNew n]) st))
    else Fault BadAlloc st.

Definition _config_fpga1 : M unit :=
  match fpga1_file W with
  | None => MSG (MsgNoFile 1)
  | Some contents =>
      let file_size := Z.of_nat (length contents) in
      buf <- new_array file_size ;;
      modify (with_binary_data buf) ;;;
      match buf with
      | None => MSG (MsgNoMemory 1)
      | Some _ =>
          modify (with_binary_data_size (u32 file_size)) ;;;
          size <- gets binary_data_size ;;
          MSG (MsgFileSize 1 size) ;;;
          modify (with_binary_data (Some contents)) ;;;
          SET_GPIO_PIN NCONFIG_GPIO_PIN ;;;
          emit EvSleep ;;;
          _transfer_data ;;;
          MSG (MsgConfigured 1)
      end
  end.

Definition _config_fpga2 : M unit :=
  match fpga2_file W with
  | None => MSG (MsgNoFile 2)
  | Some contents =>
      let file_size := Z.of_nat (length contents) in
      buf <- new_array file_size ;;
      modify (with_binary_data buf) ;;;
      match buf with
      | None => MSG (MsgNoMemory 2)
      | Some _ =>
          modify (with_binary_data_size (u32 file_size)) ;;;
          size <- gets binary_data_size ;;
          MSG (MsgFileSize 2 size) ;;;
          modify (with_binary_data (Some contents)) ;;;
          CLR_GPIO_PIN FPGA2_NCE_GPIO_PIN ;;;
          emit EvSleep ;;;
          _transfer_data ;;;
          MSG (MsgConfigured 2)
      end
  end.

(** *** _close_gpio *)

Definition _close_gpio : M unit :=
  port <- gets gpio_port ;;
  match port with
  | Some _ =>
      CLR_GPIO_PIN DCLK_GPIO_PIN ;;;
      CLR_GPIO_PIN DATA0_GPIO_PIN ;;;
      emit EvMunmap ;;;
      modify (with_gpio_port None) ;;;
      MSG MsgGpioClosed
  | None => ret tt
  end.

(** *** _print_app_info and _print_board_rev_info *)

Definition _print_app_info : M unit := MSG MsgAppInfo.

(** [RD_GPIO_PIN(pin1) + (RD_GPIO_PIN(pin2) << 1)] as a [uint]. *)
Definition rev_code (pin1 pin2 : Z) : Z := u32 (pin1 + Z.shiftl pin2 1).

(** The [switch (rev)]: the label printed for a code, if any. *)
Definition rev_label (rev : Z) : option board_rev :=
  match rev with
  | 0 => Some RevD
  | 1 => Some RevB
  | 2 => Some RevC
  | 3 => Some RevA
  | _ => None
  end.

Definition _print_board_rev_info : M unit :=
  pin1 <- RD_GPIO_PIN BOARD_REV_GPIO_PIN_1 ;;
  pin2 <- RD_GPIO_PIN BOARD_REV_GPIO_PIN_2 ;;
  match rev_label (rev_code pin1 pin2) with
  | Some r => MSG (MsgBoardRev r)
  | None => ret tt
  end.

(** *** main *)

(** The globals are zero-initialised; a signal at tick 0 has already run
    the handler when the first statement executes. *)
Definition boot : state :=
  {| exit_flag := match sigint_at W with Some O => true | _ => false end;
     gpio_port := None;
     gpio_set_reg := None; gpio_clr_reg := None; gpio_rd_reg := None;
     binary_data := None; binary_data_size := 0;
     page := gpio_regs W; clock := 0; trace := [] |}.

(** [if (binary_data) delete [] binary_data;] *)
Definition free_binary_data : M unit :=
  d <- gets binary_data ;;
  match d with
  | Some _ => emit EvDelete
  | None => ret tt
  end.

Definition main_body : M Z :=
  _print_app_info ;;;
  _open_and_setup_gpio ;;;
  _print_board_rev_info ;;;
  port <- gets gpio_port ;;
  match port with
  | Some _ =>
      _config_fpga1 ;;;
      match hat with
      | HAT0 =>
          free_binary_data ;;;
          modify (with_binary_data None) ;;;
          _config_fpga2
      | HAT1 => ret tt
      end
  | None => ret tt
  end ;;;
  free_binary_data ;;;
  _close_gpio ;;;
  MSG MsgCompleted ;;;
  ret 0.

(** How the process ends: [return code] from main, or a crash. *)
Inductive result :=
| Exited (code : Z) (tr : list event)
| Crashed (f : fault) (tr : list event).

Definition main : result :=
  match main_body boot with
  | Ok code st => Exited code (trace st)
  | Fault f st => Crashed f (trace st)
  end.

End Program.

(** ** Vocabulary for what a run shows on the pins *)

(** Word indices of the pin-set, pin-clear and pin-read registers. *)
Definition GPSET : Z := Z.quot GPIO_SET_OFFSET SIZEOF_U32.
Definition GPCLR : Z := Z.quot GPIO_CLR_OFFSET SIZEOF_U32.
Definition GPLEV : Z := Z.quot GPIO_RD_OFFSET SIZEOF_U32.

(** DCLK driven high, then low: each the five-fold store of the macros. *)
Definition clock_high : list event :=
  repeat (EvStore GPSET (shl32 1 DCLK_GPIO_PIN)) NUM_CONSECUTIVE_GPIO_WRITES.

Definition clock_low : list event :=
  repeat (EvStore GPCLR (shl32 1 DCLK_GPIO_PIN)) NUM_CONSECUTIVE_GPIO_WRITES.

Definition clock_pulse : list event := clock_high ++ clock_low.

(** DATA0 driven to the value [b]. *)
Definition data_write (b : bool) : event :=
  EvStore (if b then GPSET else GPCLR) (shl32 1 DATA0_GPIO_PIN).

(** One data-bit/clock-pulse pair. *)
Definition bit_cell (b : bool) : list event := data_write b :: clock_pulse.

Definition cells (bits : list bool) : list event := flat_map bit_cell bits.

(** The bits of a byte, bit 0 first. *)
Definition byte_bits (b : byte) : list bool :=
  map (Z.testbit (Z.of_N (Byte.to_N b))) [0; 1; 2; 3; 4; 5; 6; 7].

Definition image_bits (image : list byte) : list bool :=
  flat_map byte_bits image.

Definition tail_pulses (n : nat) : list event := concat (repeat clock_pulse n).

(** The data-line values a trace drives, in order. *)
Definition data_line (tr : list event) : list bool :=
  flat_map (fun e =>
    match e with
    | EvStore reg val =>
        if val =? shl32 1 DATA0_GPIO_PIN then
          if reg =? GPSET then [true]
          else if reg =? GPCLR then [false] else []
        else []
    | _ => []
    end) tr.

(** Allocation and release events of a trace. *)
Definition heap_events (tr : list event) : list event :=
  List.filter (fun e => match e with EvNew _ | EvDelete => true | _ => false end) tr.

(** The function-select field of [pin] inside a register value. *)
Definition fsel_field (w : Z) (pin : Z) : Z :=
  Z.land (Z.shiftr w (fsel_bits_offset pin)) 7.

(** The pull-control field of [pin] inside a register value. *)
Definition pull_field (w : Z) (pin : Z) : Z :=
  Z.land (Z.shiftr w (pull_bits_offset pin)) 3.

Definition FSEL_INPUT  : Z := 0.
Definition FSEL_OUTPUT : Z := 1.
Definition PULL_NONE   : Z := 0.
Definition PULL_UP     : Z := 1.

(** The revision table of the specification, by strap levels. *)
Definition strap_rev (pin1 pin2 : bool) : board_rev :=
  match pin1, pin2 with
  | false, false => RevD
  | true,  false => RevB
  | false, true  => RevC
  | true,  true  => RevA
  end.

(** ** Invariants of a run *)

(** The state [_open_and_setup_gpio] leaves on success. *)
Definition gpio_ready (st : state) : Prop :=
  gpio_port st = Some 0 /\
  gpio_set_reg st = Some GPSET /\
  gpio_clr_reg st = Some GPCLR /\
  gpio_rd_reg st = Some GPLEV /\
  length (page st) = Z.to_nat PAGE_WORDS.

(** Whether the signal has arrived by step [c]. *)
Definition flag_at (W : world) (c : nat) : bool :=
  match sigint_at W with
  | Some t => (t <=? c)%nat
  | None => false
  end.

(** [exit_flag] is set exactly when the signal has arrived. *)
Definition sync (W : world) (st : state) : Prop :=
  exit_flag st = flag_at W (clock st).

(** What a step of the program leaves alone. *)
Definition frame (st st' : state) : Prop :=
  gpio_port st' = gpio_port st /\
  gpio_set_reg st' = gpio_set_reg st /\
  gpio_clr_reg st' = gpio_clr_reg st /\
  gpio_rd_reg st' = gpio_rd_reg st /\
  binary_data st' = binary_data st /\
  binary_data_size st' = binary_data_size st /\
  length (page st') = length (page st).

(** [m] run from [st] ends in [st'], having emitted [es] in [n] steps. *)
Definition runs (W : world) (m : M unit) (st : state)
    (es : list event) (n : nat) (st' : state) : Prop :=
  m st = Ok tt st' /\
  trace st' = trace st ++ es /\
  clock st' = (clock st + n)%nat /\
  frame st st' /\
  (sync W st -> sync W st').

(** The loop indices [lo], [lo + 1], ... of a [for_loop]. *)
Fixpoint zrange (lo : Z) (n : nat) : list Z :=
  match n with
  | O => []
  | S n' => lo :: zrange (lo + 1) n'
  end.

(** A state ready for a transfer, used in the examples below. *)
Definition ready_state (image : list byte) : state :=
  {| exit_flag := false;
     gpio_port := Some 0;
     gpio_set_reg := Some GPSET; gpio_clr_reg := Some GPCLR;
     gpio_rd_reg := Some GPLEV;
     binary_data := Some image;
     binary_data_size := Z.of_nat (length image);
     page := repeat 0 (Z.to_nat PAGE_WORDS); clock := 0; trace := [] |}.

Definition demo_world (f1 f2 : option (list byte)) (sig : option nat)
    : world :=
  {| mem_dev_ok := true; mmap_ok := true;
     fpga1_file := f1; fpga2_file := f2;
     new_ok := fun _ => true;
     gpio_regs := repeat 0 (Z.to_nat PAGE_WORDS);
     sigint_at := sig |}.

(** [m], whenever it returns, has [e] as the last event of the trace. *)
Definition ends_with (e : event) (m : M unit) : Prop :=
  forall st st', m st = Ok tt st' -> exists pre, trace st' = pre ++ [e].

(** A state in which the signal has already been handled. *)
Definition flagged_state (image : list byte) : state :=
  with_exit_flag true (ready_state image).

(** A zero page on which the function-select field of [pin] holds
    [field]; field 100 is alternate function 0, which pins 2 and 3 carry
    while the I2C bus is enabled. *)
Definition fsel_state (pin field : Z) : state :=
  with_page (<[Z.to_nat (fsel_reg_offset pin)
               := Z.shiftl field (fsel_bits_offset pin)]>
               (repeat 0 (Z.to_nat PAGE_WORDS)))
            (ready_state []).

(** The function-select field of [pin] after [_init_gpio_pin(pin, true)]
    on a page where it was [field]. *)
Definition fsel_after_output (pin field : Z) : option Z :=
  match _init_gpio_pin (demo_world None None None) pin true
          (fsel_state pin field) with
  | Ok _ st' =>
      match page st' !! Z.to_nat (fsel_reg_offset pin) with
      | Some w => Some (fsel_field w pin)
      | None => None
      end
  | Fault _ _ => None
  end.

(** [m] can only return [v]. *)
Definition yields {A} (v : A) (m : M A) : Prop :=
  forall st a st', m st = Ok a st' -> a = v.

(** From any state with the GPIO set up, [m] returns, keeps the GPIO set up
    and the image in place, and neither allocates nor frees. *)
Definition quiet (W : world) (m : M unit) : Prop :=
  forall st, gpio_ready st ->
  exists st' es k, runs W m st es k st' /\ heap_events es = [].

(** What [_close_gpio] and the end of [main] add to the trace. *)
Definition closing_events : list event :=
  [EvStore GPCLR (shl32 1 DCLK_GPIO_PIN);
   EvStore GPCLR (shl32 1 DATA0_GPIO_PIN);
   EvMunmap; EvMsg MsgGpioClosed; EvMsg MsgCompleted].

(** [m] keeps the state property [I] whenever it returns. *)
Definition keeps (I : state -> Prop) {A} (m : M A) : Prop :=
  forall st a st', I st -> m st = Ok a st' -> I st'.

(** What [_config_fpga1] or [_config_fpga2] emits on a complete run: the
    load, the assertion [select] of the target, the settle delay, the image,
    the tail and the report. *)
Definition config_events (fpga : nat) (select : event) (image : list byte)
    : list event :=
  [EvNew (Z.of_nat (length image));
   EvMsg (MsgFileSize fpga (Z.of_nat (length image)));
   select; EvSleep]
  ++ cells (image_bits image) ++ tail_pulses 10
  ++ [EvMsg (MsgConfigured fpga)].

(** The pin levels [_open_and_setup_gpio] drives at the end of the setup. *)
Definition initial_levels (hat : pi_hat) : list event :=
  match hat with
  | HAT0 => [EvStore GPSET (shl32 1 FPGA2_NCE_GPIO_PIN)]
  | HAT1 => []
  end ++
  [EvStore GPCLR (shl32 1 DCLK_GPIO_PIN);
   EvStore GPCLR (shl32 1 DATA0_GPIO_PIN);
   EvStore GPCLR (shl32 1 NCONFIG_GPIO_PIN);
   EvSleep; EvMsg MsgGpioSetup].

(** Word index of the pull-control register at [GPIO_PULL_BASE_OFFSET],
    which holds the 2-bit pull fields of pins 0 to 15. *)
Definition PULL_REG0 : Z := Z.quot GPIO_PULL_BASE_OFFSET SIZEOF_U32.

(** The stores of a trace that go to the pin-set or the pin-clear register,
    in order: the volatile stores of the macros. *)
Definition level_stores (tr : list event) : list event :=
  List.filter (fun e => match e with
                        | EvStore reg _ => (reg =? GPSET) || (reg =? GPCLR)
                        | _ => false
                        end) tr.

(** * Proofs *)

Section Steps.

Variable W : world.

Lemma tick_clock st : clock (tick W st) = S (clock st).
Proof.
  unfold tick. destruct (sigint_at W) as [t|]; [|reflexivity].
  destruct (Nat.eqb t _); reflexivity.
Qed.

Lemma tick_trace st : trace (tick W st) = trace st.
Proof.
  unfold tick. destruct (sigint_at W) as [t|]; [|reflexivity].
  destruct (Nat.eqb t _); reflexivity.
Qed.

Lemma tick_page st : page (tick W st) = page st.
Proof.
  unfold tick. destruct (sigint_at W) as [t|]; [|reflexivity].
  destruct (Nat.eqb t _); reflexivity.
Qed.

Lemma tick_frame st : frame st (tick W st).
Proof.
  unfold frame, tick. destruct (sigint_at W) as [t|];
    [destruct (Nat.eqb t _)|]; cbn; repeat split; reflexivity.
Qed.

Lemma tick_flag_true st : exit_flag st = true -> exit_flag (tick W st) = true.
Proof.
  intros H. unfold tick. destruct (sigint_at W) as [t|]; [|exact H].
  destruct (Nat.eqb t _); [reflexivity | exact H].
Qed.

Lemma tick_sync st : sync W st -> sync W (tick W st).
Proof.
  unfold sync, flag_at, tick. intros H.
  destruct (sigint_at W) as [t|]; [|exact H].
  cbn -[Nat.leb Nat.eqb].
  destruct (Nat.eqb_spec t (S (clock st))) as [E|E]; cbn -[Nat.leb].
  - symmetry. apply Nat.leb_le. lia.
  - rewrite H. destruct (Nat.leb_spec t (clock st)), (Nat.leb_spec t (S (clock st)));
      try reflexivity; lia.
Qed.

Lemma flag_at_mono c c' :
  (c' <= c)%nat -> flag_at W c = false -> flag_at W c' = false.
Proof.
  unfold flag_at. destruct (sigint_at W) as [t|]; [|reflexivity].
  intros Hle H. apply Nat.leb_gt in H. apply Nat.leb_gt. lia.
Qed.

Lemma frame_refl st : frame st st.
Proof. unfold frame. repeat split; reflexivity. Qed.

Lemma frame_trans a b c : frame a b -> frame b c -> frame a c.
Proof.
  unfold frame. intros (?&?&?&?&?&?&?) (?&?&?&?&?&?&?).
  repeat split; congruence.
Qed.

Lemma frame_ready st st' : frame st st' -> gpio_ready st -> gpio_ready st'.
Proof.
  unfold frame, gpio_ready. intros (?&?&?&?&?&?&?) (?&?&?&?&?).
  repeat split; congruence.
Qed.

Lemma runs_bind m k st es n st' es' n' st'' :
  runs W m st es n st' ->
  runs W k st' es' n' st'' ->
  runs W (m ;;; k) st (es ++ es') (n + n') st''.
Proof.
  intros (Hm & Ht & Hc & Hf & Hs) (Hk & Ht' & Hc' & Hf' & Hs').
  unfold runs, bind. rewrite Hm. split; [|split; [|split; [|split]]].
  - exact Hk.
  - rewrite Ht', Ht. now rewrite <- app_assoc.
  - lia.
  - eapply frame_trans; eassumption.
  - auto.
Qed.

Lemma runs_ret st : runs W (ret tt) st [] 0 st.
Proof.
  unfold runs, ret. split; [|split; [|split; [|split]]].
  - reflexivity.
  - now rewrite app_nil_r.
  - lia.
  - apply frame_refl.
  - auto.
Qed.

Lemma runs_emit e st :
  exists st', runs W (emit W e) st [e] 1 st'.
Proof.
  eexists. unfold runs, emit. split; [reflexivity|].
  rewrite tick_trace, tick_clock. cbn. split; [|split; [|split]].
  - reflexivity.
  - lia.
  - eapply frame_trans; [|apply tick_frame]. unfold frame; cbn. repeat split.
  - intros H. apply tick_sync. exact H.
Qed.

Lemma runs_store i v st :
  0 <= i -> (Z.to_nat i < length (page st))%nat ->
  exists st', runs W (store W (Some i) v) st [EvStore i v] 1 st' /\
              page st' = <[Z.to_nat i := v]> (page st) /\
              exit_flag st' = exit_flag (tick W st).
Proof.
  intros Hi Hlt.
  assert (E : (0 <=? i) && (Z.to_nat i <? length (page st))%nat = true).
  { apply andb_true_intro. split; [apply Z.leb_le | apply Nat.ltb_lt]; assumption. }
  eexists. unfold runs, store. rewrite E.
  split; [|split]; [split; [|split; [|split; [|split]]]| |].
  - reflexivity.
  - now rewrite tick_trace.
  - rewrite tick_clock. cbn. lia.
  - eapply frame_trans; [|apply tick_frame].
    unfold frame; cbn. rewrite length_insert. repeat split.
  - intros H. apply tick_sync. exact H.
  - now rewrite tick_page.
  - unfold tick. destruct (sigint_at W) as [t|]; [|reflexivity].
    cbn. destruct (Nat.eqb t _); reflexivity.
Qed.

Lemma runs_SET pin st :
  gpio_ready st ->
  exists st', runs W (SET_GPIO_PIN W pin) st [EvStore GPSET (shl32 1 pin)] 1 st'.
Proof.
  intros (_ & Hs & _ & _ & Hl).
  destruct (runs_store GPSET (shl32 1 pin) st) as (st' & H & _).
  - discriminate.
  - rewrite Hl. apply Nat.ltb_lt. reflexivity.
  - exists st'. unfold SET_GPIO_PIN, runs, bind, gets. rewrite Hs. exact H.
Qed.

Lemma runs_CLR pin st :
  gpio_ready st ->
  exists st', runs W (CLR_GPIO_PIN W pin) st [EvStore GPCLR (shl32 1 pin)] 1 st'.
Proof.
  intros (_ & _ & Hc & _ & Hl).
  destruct (runs_store GPCLR (shl32 1 pin) st) as (st' & H & _).
  - discriminate.
  - rewrite Hl. apply Nat.ltb_lt. reflexivity.
  - exists st'. unfold CLR_GPIO_PIN, runs, bind, gets. rewrite Hc. exact H.
Qed.

Lemma runs_ready m st es n st' :
  runs W m st es n st' -> gpio_ready st -> gpio_ready st'.
Proof. intros (_ & _ & _ & Hf & _). now apply frame_ready. Qed.

(** A loop whose body always runs, emitting [es i] in [k] steps. *)
Lemma runs_for_loop (body : Z -> M unit) (es : Z -> list event) (k : nat) :
  (forall i st, gpio_ready st -> exists st', runs W (body i) st (es i) k st') ->
  forall n lo st, gpio_ready st ->
  exists st', runs W (for_loop n lo body) st (flat_map es (zrange lo n)) (n * k) st'.
Proof.
  intros Hbody. induction n as [|n IH]; intros lo st Hr.
  - exists st. apply runs_ret.
  - destruct (Hbody lo st Hr) as (st1 & H1).
    destruct (IH (lo + 1) st1 (runs_ready _ _ _ _ _ H1 Hr)) as (st2 & H2).
    exists st2. cbn [for_loop zrange flat_map].
    replace (S n * k)%nat with (k + n * k)%nat by lia.
    eapply runs_bind; eassumption.
Qed.

Lemma runs_SET_DCLK st :
  gpio_ready st -> exists st', runs W (SET_DCLK_PIN W) st clock_high 5 st'.
Proof.
  intros Hr. unfold SET_DCLK_PIN.
  apply (runs_for_loop _ (fun _ => [EvStore GPSET (shl32 1 DCLK_GPIO_PIN)]) 1
           (fun _ => runs_SET DCLK_GPIO_PIN) NUM_CONSECUTIVE_GPIO_WRITES 0 st Hr).
Qed.

Lemma runs_CLR_DCLK st :
  gpio_ready st -> exists st', runs W (CLR_DCLK_PIN W) st clock_low 5 st'.
Proof.
  intros Hr. unfold CLR_DCLK_PIN.
  apply (runs_for_loop _ (fun _ => [EvStore GPCLR (shl32 1 DCLK_GPIO_PIN)]) 1
           (fun _ => runs_CLR DCLK_GPIO_PIN) NUM_CONSECUTIVE_GPIO_WRITES 0 st Hr).
Qed.

Lemma runs_pulse st :
  gpio_ready st ->
  exists st', runs W (SET_DCLK_PIN W ;;; CLR_DCLK_PIN W) st clock_pulse 10 st'.
Proof.
  intros Hr.
  destruct (runs_SET_DCLK st Hr) as (st1 & H1).
  destruct (runs_CLR_DCLK st1 (runs_ready _ _ _ _ _ H1 Hr)) as (st2 & H2).
  exists st2. apply (runs_bind _ _ _ _ _ _ _ _ _ H1 H2).
Qed.

(** [(x >> i) & 1] is bit [i] of [x]. *)
Lemma shift_and_one x i : Z.land (Z.shiftr x i) 1 = Z.b2z (Z.testbit x i).
Proof.
  change 1 with (Z.ones 1) at 1. rewrite Z.land_ones by lia.
  change (2 ^ 1) with 2. rewrite <- Z.bit0_mod.
  rewrite Z.shiftr_spec by lia. reflexivity.
Qed.

Lemma runs_send_bit b i st :
  gpio_ready st ->
  exists st', runs W (send_bit W b i) st
                (bit_cell (Z.testbit (Z.of_N (Byte.to_N b)) i)) 11 st'.
Proof.
  intros Hr. unfold send_bit. rewrite shift_and_one.
  assert (Hd : exists st1,
    runs W (if Z.b2z (Z.testbit (Z.of_N (Byte.to_N b)) i) =? 0
            then CLR_GPIO_PIN W DATA0_GPIO_PIN
            else SET_GPIO_PIN W DATA0_GPIO_PIN) st
         [data_write (Z.testbit (Z.of_N (Byte.to_N b)) i)] 1 st1).
  { destruct (Z.testbit _ i); cbn [Z.b2z Z.eqb data_write];
      [apply runs_SET | apply runs_CLR]; exact Hr. }
  destruct Hd as (st1 & H1).
  destruct (runs_pulse st1 (runs_ready _ _ _ _ _ H1 Hr)) as (st2 & H2).
  exists st2. apply (runs_bind _ _ _ _ _ _ _ _ _ H1 H2).
Qed.

Lemma runs_send_byte b st :
  gpio_ready st ->
  exists st', runs W (for_loop 8 0 (send_bit W b)) st (cells (byte_bits b)) 88 st'.
Proof.
  intros Hr.
  apply (runs_for_loop _ (fun i => bit_cell (Z.testbit (Z.of_N (Byte.to_N b)) i))
           11 (runs_send_bit b) 8 0 st Hr).
Qed.

Lemma flag_at_mono_true c c' :
  (c <= c')%nat -> flag_at W c = true -> flag_at W c' = true.
Proof.
  unfold flag_at. destruct (sigint_at W) as [t|]; [|discriminate].
  intros Hle H. apply Nat.leb_le in H. apply Nat.leb_le. lia.
Qed.

(** A computation that first lets one step pass and then continues. *)
Lemma runs_after_tick (m m' : M unit) st es n st' :
  m st = m' (tick W st) ->
  runs W m' (tick W st) es n st' ->
  runs W m st es (S n) st'.
Proof.
  intros E (Hm & Ht & Hc & Hf & Hs).
  unfold runs. rewrite E. split; [|split; [|split; [|split]]].
  - exact Hm.
  - now rewrite Ht, tick_trace.
  - rewrite Hc, tick_clock. lia.
  - eapply frame_trans; [apply tick_frame | exact Hf].
  - intros H. apply Hs, tick_sync, H.
Qed.

Lemma runs_tick (m : M unit) st :
  m st = Ok tt (tick W st) -> runs W m st [] 1 (tick W st).
Proof.
  intros E. apply (runs_after_tick m (ret tt) st [] 0 _ E). apply runs_ret.
Qed.

Lemma stream_loop_flagged n idx st :
  exit_flag st = true -> stream_loop W n idx st = Ok tt (tick W st).
Proof.
  intros H. destruct n; cbn [stream_loop]; unfold bind, poll_exit_flag;
    rewrite H; reflexivity.
Qed.

Lemma tail_loop_flagged n st :
  exit_flag st = true -> tail_loop W n st = Ok tt (tick W st).
Proof.
  intros H. destruct n; cbn [tail_loop]; unfold bind, poll_exit_flag;
    rewrite H; reflexivity.
Qed.

Lemma cells_app xs ys : cells (xs ++ ys) = cells xs ++ cells ys.
Proof. unfold cells. apply flat_map_app. Qed.

Lemma cells_image_cons b image :
  cells (image_bits (b :: image)) = cells (byte_bits b) ++ cells (image_bits image).
Proof. unfold image_bits. cbn [flat_map]. apply cells_app. Qed.

(** One turn of the streaming loop on a clear flag: byte [b] goes out. *)
Lemma stream_loop_turn_gen n b r pre st :
  gpio_ready st -> exit_flag st = false ->
  binary_data st = Some (pre ++ b :: r) ->
  exists st1,
    runs W (for_loop 8 0 (send_bit W b)) (tick W st) (cells (byte_bits b)) 88 st1 /\
    stream_loop W (S n) (length pre) st =
      (for_loop 8 0 (send_bit W b) ;;;
       stream_loop W n (length (pre ++ [b]))) (tick W st).
Proof.
  intros Hr Hflag Hd.
  destruct (runs_send_byte b (tick W st) (frame_ready _ _ (tick_frame st) Hr))
    as (st1 & H1).
  exists st1. split; [exact H1|].
  cbn [stream_loop]. unfold bind at 1. unfold poll_exit_flag. rewrite Hflag.
  unfold bind at 1. unfold read_byte.
  destruct (tick_frame st) as (_ & _ & _ & _ & Hbd & _).
  rewrite Hbd, Hd, list_lookup_middle by reflexivity.
  rewrite length_app. cbn [length]. rewrite Nat.add_1_r. reflexivity.
Qed.

Lemma stream_loop_turn b r pre st :
  gpio_ready st -> exit_flag st = false ->
  binary_data st = Some (pre ++ b :: r) ->
  exists st1,
    runs W (for_loop 8 0 (send_bit W b)) (tick W st) (cells (byte_bits b)) 88 st1 /\
    stream_loop W (S (length r)) (length pre) st =
      (for_loop 8 0 (send_bit W b) ;;;
       stream_loop W (length r) (length (pre ++ [b]))) (tick W st).
Proof. apply stream_loop_turn_gen. Qed.

(** The streaming loop when the flag stays clear at every byte's check. *)
Lemma stream_loop_clear rest : forall pre st,
  gpio_ready st -> sync W st ->
  binary_data st = Some (pre ++ rest) ->
  (rest <> [] -> flag_at W (clock st + 89 * (length rest - 1)) = false) ->
  exists st',
    runs W (stream_loop W (length rest) (length pre)) st
      (cells (image_bits rest)) (89 * length rest + 1) st'.
Proof.
  induction rest as [|b r IH]; intros pre st Hr Hs Hd Hclear.
  - exists (tick W st). apply runs_tick.
    cbn [length stream_loop]. unfold bind, poll_exit_flag.
    destruct (exit_flag st); reflexivity.
  - cbn [length] in Hclear |- *.
    assert (Hc : flag_at W (clock st + 89 * length r) = false).
    { replace (length r) with (S (length r) - 1)%nat at 1 by lia.
      apply Hclear. discriminate. }
    assert (Hflag : exit_flag st = false).
    { rewrite Hs. eapply flag_at_mono; [|exact Hc]; lia. }
    destruct (stream_loop_turn b r pre st Hr Hflag Hd) as (st1 & H1 & E).
    destruct (IH (pre ++ [b]) st1) as (st2 & H2).
    + apply (runs_ready _ _ _ _ _ H1), (frame_ready _ _ (tick_frame st) Hr).
    + destruct H1 as (_ & _ & _ & _ & Hs1). apply Hs1, tick_sync, Hs.
    + destruct H1 as (_ & _ & _ & (_ & _ & _ & _ & Hbd & _) & _).
      destruct (tick_frame st) as (_ & _ & _ & _ & Hbd' & _).
      rewrite Hbd, Hbd', Hd, <- app_assoc. reflexivity.
    + intros Hne. destruct H1 as (_ & _ & Hc1 & _).
      rewrite Hc1, tick_clock.
      eapply flag_at_mono; [|exact Hc]; destruct r; [congruence | cbn [length]; lia].
    + exists st2. rewrite cells_image_cons.
      replace (89 * S (length r) + 1)%nat with (S (88 + (89 * length r + 1))) by lia.
      apply (runs_after_tick _ _ _ _ _ _ E).
      eapply runs_bind; eassumption.
Qed.

(** The tail loop when the flag stays clear at each of its [n] checks. *)
Lemma tail_loop_clear n : forall st,
  gpio_ready st -> sync W st ->
  (n <> O -> flag_at W (clock st + 11 * (n - 1)) = false) ->
  exists st', runs W (tail_loop W n) st (tail_pulses n) (11 * n + 1) st'.
Proof.
  induction n as [|n IH]; intros st Hr Hs Hclear.
  - exists (tick W st). apply runs_tick.
    cbn [tail_loop]. unfold bind, poll_exit_flag.
    destruct (exit_flag st); reflexivity.
  - assert (Hc : flag_at W (clock st + 11 * n) = false).
    { replace n with (S n - 1)%nat at 1 by lia. apply Hclear. discriminate. }
    assert (Hflag : exit_flag st = false).
    { rewrite Hs. eapply flag_at_mono; [|exact Hc]; lia. }
    pose proof (frame_ready _ _ (tick_frame st) Hr) as Hr0.
    destruct (runs_SET_DCLK (tick W st) Hr0) as (st1 & H1).
    pose proof (runs_ready _ _ _ _ _ H1 Hr0) as Hr1.
    destruct (runs_CLR_DCLK st1 Hr1) as (st2 & H2).
    pose proof (runs_ready _ _ _ _ _ H2 Hr1) as Hr2.
    destruct (IH st2 Hr2) as (st3 & H3).
    + destruct H2 as (_ & _ & _ & _ & Hs2), H1 as (_ & _ & _ & _ & Hs1).
      apply Hs2, Hs1, tick_sync, Hs.
    + intros Hne. destruct H2 as (_ & _ & Hc2 & _), H1 as (_ & _ & Hc1 & _).
      rewrite Hc2, Hc1, tick_clock.
      eapply flag_at_mono; [|exact Hc]; lia.
    + exists st3.
      replace (tail_pulses (S n)) with (clock_high ++ clock_low ++ tail_pulses n)
        by (unfold tail_pulses, clock_pulse; cbn [repeat concat];
            now rewrite <- app_assoc).
      replace (11 * S n + 1)%nat with (S (5 + (5 + (11 * n + 1)))) by lia.
      apply (runs_after_tick _
               (SET_DCLK_PIN W ;;; CLR_DCLK_PIN W ;;; tail_loop W n)).
      * cbn [tail_loop]. unfold bind at 1. unfold poll_exit_flag.
        rewrite Hflag. reflexivity.
      * eapply runs_bind; [exact H1|]. eapply runs_bind; eassumption.
Qed.

End Steps.

(** ** The transfer engine *)

Lemma image_bits_length image :
  length (image_bits image) = (8 * length image)%nat.
Proof.
  induction image as [|b image IH]; [reflexivity|].
  unfold image_bits in *. cbn [flat_map]. rewrite length_app, IH.
  cbn [byte_bits map length]. lia.
Qed.

(** A transfer during which the signal does not arrive before the last
    check of the flag: every byte goes out, then the ten tail pulses. *)
Lemma transfer_data_clear (W : world) (st : state) (image : list byte) :
  gpio_ready st -> sync W st ->
  binary_data st = Some image ->
  binary_data_size st = Z.of_nat (length image) ->
  flag_at W (clock st + 89 * length image + 100) = false ->
  exists st',
    runs W (_transfer_data W) st
      (cells (image_bits image) ++ tail_pulses 10)
      (89 * length image + 112) st'.
Proof.
  intros Hr Hs Hd Hsz Hclear.
  destruct (stream_loop_clear W image [] st Hr Hs Hd) as (st1 & H1).
  { intros _. eapply flag_at_mono; [|exact Hclear]. lia. }
  pose proof (runs_ready _ _ _ _ _ _ H1 Hr) as Hr1.
  assert (Hs1 : sync W st1) by (destruct H1 as (_ & _ & _ & _ & X); auto).
  assert (Hc1 : clock st1 = (clock st + (89 * length image + 1))%nat)
    by (destruct H1 as (_ & _ & X & _); exact X).
  destruct (tail_loop_clear W 10 st1 Hr1 Hs1) as (st2 & H2).
  { intros _. rewrite Hc1. eapply flag_at_mono; [|exact Hclear]. lia. }
  exists st2.
  replace (89 * length image + 112)%nat
    with ((89 * length image + 1) + (11 * 10 + 1))%nat by lia.
  pose proof (runs_bind W _ _ _ _ _ _ _ _ _ H1 H2) as (Hm & Hrest).
  split; [|exact Hrest].
  unfold _transfer_data, bind at 1, gets. rewrite Hsz, Nat2Z.id. exact Hm.
Qed.

(** C1.  For every non-empty bitstream image and every run in which the
    cancellation flag is not set while [_transfer_data] runs, the engine
    emits one data-bit/clock-pulse pair per bit of the image,
    [8 * length image] of them, followed by exactly ten tail clock pulses,
    and returns.  A byte takes 89 steps (one check of the flag and eight
    cells of eleven stores), a tail pulse eleven, so the transfer takes
    [89 * length image + 112] steps. *)
Theorem transfer_data_emits_image_then_tail
    (W : world) (st : state) (image : list byte) :
  gpio_ready st -> sync W st ->
  binary_data st = Some image ->
  binary_data_size st = Z.of_nat (length image) ->
  image <> [] ->
  flag_at W (clock st + 89 * length image + 112) = false ->
  exists st',
    _transfer_data W st = Ok tt st' /\
    trace st' = trace st ++ cells (image_bits image) ++ tail_pulses 10 /\
    length (image_bits image) = (8 * length image)%nat /\
    tail_pulses 10 = concat (repeat clock_pulse 10) /\
    exit_flag st' = false.
Proof.
  intros Hr Hs Hd Hsz _ Hclear.
  destruct (transfer_data_clear W st image Hr Hs Hd Hsz) as (st' & H).
  { eapply flag_at_mono; [|exact Hclear]. lia. }
  exists st'. destruct H as (Hm & Ht & Hc & _ & Hs').
  repeat split; try assumption.
  - apply image_bits_length.
  - rewrite (Hs' Hs), Hc, Nat.add_assoc. exact Hclear.
Qed.

(** The end-to-end scenario of the specification: the image 01 00 FF. *)
Lemma transfer_data_emits_image_then_tail_witness :
  exists st',
    _transfer_data (demo_world None None None) (ready_state [x01; x00; xff])
      = Ok tt st' /\
    trace st' = trace (ready_state [x01; x00; xff])
                  ++ cells (image_bits [x01; x00; xff]) ++ tail_pulses 10 /\
    length (image_bits [x01; x00; xff]) = (8 * length [x01; x00; xff])%nat /\
    tail_pulses 10 = concat (repeat clock_pulse 10) /\
    exit_flag st' = false.
Proof.
  apply (transfer_data_emits_image_then_tail
           (demo_world None None None) (ready_state [x01; x00; xff])
           [x01; x00; xff]).
  - repeat split; reflexivity.
  - reflexivity.
  - reflexivity.
  - reflexivity.
  - discriminate.
  - reflexivity.
Defined.

Lemma data_line_app xs ys : data_line (xs ++ ys) = data_line xs ++ data_line ys.
Proof. unfold data_line. apply flat_map_app. Qed.

Lemma data_line_cells bits : data_line (cells bits) = bits.
Proof.
  induction bits as [|b bits IH]; [reflexivity|].
  change (cells (b :: bits)) with (bit_cell b ++ cells bits).
  rewrite data_line_app, IH. destruct b; reflexivity.
Qed.

(** C2.  From any state with the GPIO set up, the inner loop sends the eight
    bits of a byte in the order bit 0, bit 1, ..., bit 7, and for each bit
    first writes DATA0 to the bit's value, then drives DCLK high, then drives
    DCLK low.  Over a whole transfer the data line therefore carries the
    bits of each byte of the image least-significant first; for the single
    byte 0b10110010 the first value on the data line is 0 and the last
    is 1. *)
Theorem send_byte_lsb_first (W : world) (st : state) (b : byte) :
  gpio_ready st ->
  (exists st',
     for_loop 8 0 (send_bit W b) st = Ok tt st' /\
     trace st' = trace st ++
       flat_map (fun i => [data_write (Z.testbit (Z.of_N (Byte.to_N b)) i)]
                            ++ clock_high ++ clock_low)
                [0; 1; 2; 3; 4; 5; 6; 7]) /\
  (forall image,
     sync W st ->
     binary_data st = Some image ->
     binary_data_size st = Z.of_nat (length image) ->
     flag_at W (clock st + 89 * length image + 100) = false ->
     exists st' es,
       _transfer_data W st = Ok tt st' /\
       trace st' = trace st ++ es /\
       data_line es =
         flat_map (fun x => map (Z.testbit (Z.of_N (Byte.to_N x)))
                                [0; 1; 2; 3; 4; 5; 6; 7]) image) /\
  map (Z.testbit (Z.of_N (Byte.to_N xb2))) [0; 1; 2; 3; 4; 5; 6; 7]
    = [false; true; false; false; true; true; false; true].
Proof.
  intros Hr. split; [|split].
  - destruct (runs_send_byte W b st Hr) as (st' & Hm & Ht & _).
    exists st'. split; [exact Hm|]. rewrite Ht. reflexivity.
  - intros image Hs Hd Hsz Hclear.
    destruct (transfer_data_clear W st image Hr Hs Hd Hsz Hclear)
      as (st' & Hm & Ht & _).
    exists st', (cells (image_bits image) ++ tail_pulses 10).
    repeat split; try assumption.
    rewrite data_line_app, data_line_cells, app_nil_r. reflexivity.
  - reflexivity.
Qed.

Lemma send_byte_lsb_first_witness :
  exists st' es,
    _transfer_data (demo_world None None None) (ready_state [xb2]) = Ok tt st' /\
    trace st' = trace (ready_state [xb2]) ++ es /\
    data_line es = [false; true; false; false; true; true; false; true].
Proof.
  destruct (send_byte_lsb_first (demo_world None None None)
              (ready_state [xb2]) xb2) as (_ & H & _).
  - repeat split; reflexivity.
  - apply (H [xb2]); reflexivity.
Defined.

(** ** Register arithmetic *)

Lemma testbit_u32 x i : 0 <= i -> Z.testbit (u32 x) i = Z.testbit x i && (i <? 32).
Proof.
  intros Hi. unfold u32. destruct (Z.ltb_spec i 32).
  - rewrite Z.mod_pow2_bits_low by lia. now rewrite andb_true_r.
  - rewrite Z.mod_pow2_bits_high by lia. now rewrite andb_false_r.
Qed.

Lemma testbit_not32 a i :
  0 <= i -> Z.testbit (not32 a) i = negb (Z.testbit a i) && (i <? 32).
Proof.
  intros Hi. unfold not32. rewrite testbit_u32 by lia.
  now rewrite Z.lnot_spec by lia.
Qed.

(** The mask [k] ones wide at bit [s], as the source builds it. *)
Lemma testbit_mask k s i :
  0 <= k -> 0 <= s -> 0 <= i ->
  Z.testbit (shl32 (Z.ones k) s) i = (s <=? i) && (i <? s + k) && (i <? 32).
Proof.
  intros Hk Hs Hi. unfold shl32. rewrite testbit_u32, Z.shiftl_spec by lia.
  destruct (Z.leb_spec s i).
  - rewrite Z.testbit_ones_nonneg by lia.
    destruct (Z.ltb_spec (i - s) k), (Z.ltb_spec i (s + k)); try lia; reflexivity.
  - rewrite Z.testbit_neg_r by lia. reflexivity.
Qed.

Ltac bitwise :=
  apply Z.bits_inj'; intros n Hn;
  repeat (rewrite ?Z.land_spec, ?Z.lor_spec, ?Z.shiftr_spec,
            ?testbit_not32, ?testbit_mask, ?Z.testbit_ones_nonneg,
            ?Z.bits_0 by lia);
  repeat match goal with
         | |- context [?a <=? ?b] => destruct (Z.leb_spec a b)
         | |- context [?a <? ?b] => destruct (Z.ltb_spec a b)
         end;
  cbn [andb orb negb];
  rewrite ?andb_true_r, ?andb_false_r, ?orb_false_r, ?orb_true_r;
  try reflexivity; try lia.

(** Clearing the [k]-bit field at [s] leaves it zero ... *)
Lemma cleared_field w k s :
  0 <= k -> 0 <= s -> s + k <= 32 ->
  Z.land (Z.shiftr (Z.land w (not32 (shl32 (Z.ones k) s))) s) (Z.ones k) = 0.
Proof. intros. bitwise. Qed.

(** ... and leaves every field that does not overlap it as it was. *)
Lemma cleared_other_field w k s k' s' :
  0 <= k -> 0 <= s -> 0 <= k' -> 0 <= s' -> s' + k' <= 32 ->
  s' + k' <= s \/ s + k <= s' ->
  Z.land (Z.shiftr (Z.land w (not32 (shl32 (Z.ones k) s))) s') (Z.ones k')
  = Z.land (Z.shiftr w s') (Z.ones k').
Proof. intros. bitwise. Qed.

(** Or-ing in bit [s] sets bit 0 of the field at [s] and keeps its others. *)
Lemma set_bit_field w k s :
  0 < k -> 0 <= s -> s < 32 ->
  Z.land (Z.shiftr (Z.lor w (shl32 (Z.ones 1) s)) s) (Z.ones k)
  = Z.lor (Z.land (Z.shiftr w s) (Z.ones k)) 1.
Proof.
  intros. change 1 with (Z.ones 1) at 2. bitwise.
Qed.

Lemma set_bit_other_field w s k' s' :
  0 <= s -> 0 <= k' -> 0 <= s' ->
  s' + k' <= s \/ s + 1 <= s' ->
  Z.land (Z.shiftr (Z.lor w (shl32 (Z.ones 1) s)) s') (Z.ones k')
  = Z.land (Z.shiftr w s') (Z.ones k').
Proof. intros. bitwise. Qed.

Section Registers.

Variable W : world.

Lemma load_ok i v st :
  0 <= i -> page st !! Z.to_nat i = Some v ->
  load W (Some i) st = Ok v (tick W st).
Proof.
  intros Hi Hv. unfold load.
  destruct (Z.leb_spec 0 i); [|lia]. now rewrite Hv.
Qed.

Lemma runs_or_assign i m v st :
  0 <= i -> page st !! Z.to_nat i = Some v ->
  exists st',
    runs W (or_assign W (Some i) m) st [EvStore i (Z.lor v m)] 2 st' /\
    page st' = <[Z.to_nat i := Z.lor v m]> (page st).
Proof.
  intros Hi Hv.
  destruct (runs_store W i (Z.lor v m) (tick W st) Hi) as (st' & H & Hp & _).
  { rewrite tick_page. eapply lookup_lt_Some, Hv. }
  exists st'. split; [|now rewrite Hp, tick_page].
  apply (runs_after_tick W _ (store W (Some i) (Z.lor v m)) _ _ _ _); [|exact H].
  unfold or_assign, bind. now rewrite (load_ok i v st Hi Hv).
Qed.

Lemma runs_and_assign i m v st :
  0 <= i -> page st !! Z.to_nat i = Some v ->
  exists st',
    runs W (and_assign W (Some i) m) st [EvStore i (Z.land v m)] 2 st' /\
    page st' = <[Z.to_nat i := Z.land v m]> (page st).
Proof.
  intros Hi Hv.
  destruct (runs_store W i (Z.land v m) (tick W st) Hi) as (st' & H & Hp & _).
  { rewrite tick_page. eapply lookup_lt_Some, Hv. }
  exists st'. split; [|now rewrite Hp, tick_page].
  apply (runs_after_tick W _ (store W (Some i) (Z.land v m)) _ _ _ _); [|exact H].
  unfold and_assign, bind. now rewrite (load_ok i v st Hi Hv).
Qed.

(** [_init_gpio_pin(pin, true)]: one or-assignment to the pin's
    function-select register. *)
Lemma init_gpio_pin_output pin v st :
  0 <= pin -> gpio_port st = Some 0 ->
  page st !! Z.to_nat (fsel_reg_offset pin) = Some v ->
  exists st',
    runs W (_init_gpio_pin W pin true) st
      [EvStore (fsel_reg_offset pin) (Z.lor v (shl32 1 (fsel_bits_offset pin)))]
      2 st' /\
    page st' = <[Z.to_nat (fsel_reg_offset pin) :=
                   Z.lor v (shl32 1 (fsel_bits_offset pin))]> (page st).
Proof.
  intros Hpin Hport Hv.
  assert (Hq : 0 <= fsel_reg_offset pin)
    by (unfold fsel_reg_offset; apply Z.quot_pos; lia).
  destruct (runs_or_assign (fsel_reg_offset pin)
              (shl32 1 (fsel_bits_offset pin)) v st Hq Hv) as (st' & H & Hp).
  exists st'. split; [|exact Hp].
  unfold _init_gpio_pin. destruct (Z.ltb_spec pin 0); [lia|].
  unfold runs, bind at 1, gets. rewrite Hport. exact H.
Qed.

(** [_init_gpio_pin(pin, false)]: the function-select field is cleared,
    then the pull field is cleared, then its low bit is set. *)
Lemma init_gpio_pin_input pin v p st :
  0 <= pin -> gpio_port st = Some 0 ->
  fsel_reg_offset pin <> pull_reg_offset pin ->
  page st !! Z.to_nat (fsel_reg_offset pin) = Some v ->
  page st !! Z.to_nat (pull_reg_offset pin) = Some p ->
  let v1 := Z.land v (not32 (shl32 7 (fsel_bits_offset pin))) in
  let p1 := Z.land p (not32 (shl32 3 (pull_bits_offset pin))) in
  let p2 := Z.lor p1 (shl32 1 (pull_bits_offset pin)) in
  exists st',
    runs W (_init_gpio_pin W pin false) st
      [EvStore (fsel_reg_offset pin) v1;
       EvStore (pull_reg_offset pin) p1;
       EvStore (pull_reg_offset pin) p2] 6 st' /\
    page st' !! Z.to_nat (fsel_reg_offset pin) = Some v1 /\
    page st' !! Z.to_nat (pull_reg_offset pin) = Some p2.
Proof.
  intros Hpin Hport Hne Hv Hp v1 p1 p2.
  assert (Hq : 0 <= fsel_reg_offset pin)
    by (unfold fsel_reg_offset; apply Z.quot_pos; lia).
  assert (Hu : 0 <= pull_reg_offset pin)
    by (unfold pull_reg_offset, u32; apply Z.mod_pos_bound; lia).
  assert (Hnat : Z.to_nat (fsel_reg_offset pin) <> Z.to_nat (pull_reg_offset pin))
    by lia.
  destruct (runs_and_assign (fsel_reg_offset pin)
              (not32 (shl32 7 (fsel_bits_offset pin))) v st Hq Hv)
    as (st1 & H1 & Hp1).
  assert (Hl1 : page st1 !! Z.to_nat (pull_reg_offset pin) = Some p).
  { rewrite Hp1, list_lookup_insert_ne by exact Hnat. exact Hp. }
  destruct (runs_and_assign (pull_reg_offset pin)
              (not32 (shl32 3 (pull_bits_offset pin))) p st1 Hu Hl1)
    as (st2 & H2 & Hp2).
  assert (Hl2 : page st2 !! Z.to_nat (pull_reg_offset pin) = Some p1).
  { rewrite Hp2. apply list_lookup_insert_eq. eapply lookup_lt_Some, Hl1. }
  destruct (runs_or_assign (pull_reg_offset pin)
              (shl32 1 (pull_bits_offset pin)) p1 st2 Hu Hl2)
    as (st3 & H3 & Hp3).
  exists st3. split; [|split].
  - pose proof (runs_bind W _ _ _ _ _ _ _ _ _ H2 H3) as H23.
    pose proof (runs_bind W _ _ _ _ _ _ _ _ _ H1 H23) as (Hm & Hrest).
    split; [|exact Hrest].
    unfold _init_gpio_pin. destruct (Z.ltb_spec pin 0); [lia|].
    unfold bind at 1. unfold gets. rewrite Hport. exact Hm.
  - rewrite Hp3, Hp2, Hp1.
    rewrite !list_lookup_insert_ne by exact (not_eq_sym Hnat).
    rewrite list_lookup_insert_eq; [reflexivity|]. eapply lookup_lt_Some, Hv.
  - rewrite Hp3. apply list_lookup_insert_eq. eapply lookup_lt_Some, Hl2.
Qed.

End Registers.

(** ** The pin controller *)

Lemma fsel_bits_offset_range pin :
  0 <= pin -> 0 <= fsel_bits_offset pin <= 27 /\
              fsel_bits_offset pin = 3 * (pin mod 10).
Proof.
  intros H. unfold fsel_bits_offset. rewrite Z.rem_mod_nonneg by lia.
  pose proof (Z.mod_pos_bound pin 10). lia.
Qed.

Lemma pull_bits_offset_range pin :
  0 <= pin -> 0 <= pull_bits_offset pin <= 30 /\
              pull_bits_offset pin = 2 * (pin mod 16).
Proof.
  intros H. unfold pull_bits_offset, u32. rewrite Z.rem_mod_nonneg by lia.
  pose proof (Z.mod_pos_bound pin 16).
  rewrite Z.mod_small by lia. lia.
Qed.

Lemma fsel_pull_regs_differ pin :
  0 <= pin < 2 ^ 31 -> fsel_reg_offset pin <> pull_reg_offset pin.
Proof.
  intros H. unfold fsel_reg_offset, pull_reg_offset, u32.
  unfold GPIO_PULL_BASE_OFFSET, SIZEOF_U32.
  rewrite !Z.quot_div_nonneg by lia.
  change (2 ^ 31) with 2147483648 in H.
  change (2 ^ 32) with 4294967296.
  change (228 / 4) with 57.
  pose proof (Z.div_mod pin 10 ltac:(lia)).
  pose proof (Z.mod_pos_bound pin 10 ltac:(lia)).
  pose proof (Z.div_mod pin 16 ltac:(lia)).
  pose proof (Z.mod_pos_bound pin 16 ltac:(lia)).
  rewrite Z.mod_small; lia.
Qed.

Lemma pin_words_in_page pin :
  0 <= pin <= 57 ->
  0 <= fsel_reg_offset pin <= 5 /\ 57 <= pull_reg_offset pin <= 69.
Proof.
  intros H. unfold fsel_reg_offset, pull_reg_offset, u32.
  unfold GPIO_PULL_BASE_OFFSET, SIZEOF_U32.
  rewrite !Z.quot_div_nonneg by lia.
  change (2 ^ 32) with 4294967296. change (228 / 4) with 57.
  pose proof (Z.div_mod pin 10 ltac:(lia)).
  pose proof (Z.mod_pos_bound pin 10 ltac:(lia)).
  pose proof (Z.div_mod pin 16 ltac:(lia)).
  pose proof (Z.mod_pos_bound pin 16 ltac:(lia)).
  rewrite Z.mod_small; lia.
Qed.

(** For pins 0 to 15 the source addresses the register at
    [GPIO_PULL_BASE_OFFSET]. *)
Lemma pull_reg_offset_low pin :
  0 <= pin < 16 -> pull_reg_offset pin = PULL_REG0.
Proof.
  intros H. unfold pull_reg_offset, PULL_REG0.
  rewrite (Z.quot_small pin 16) by lia. reflexivity.
Qed.

(** C7, as the code has it by design.  For every GPIO pin (0 to 57) of a
    mapped window, [_init_gpio_pin(pin, false)] returns with the pin's 3-bit
    function-select field at the input code and the field of every other pin
    of that register as it was.  For pins 0 to 15 it leaves the pin's 2-bit
    field of the pull-control register at [GPIO_PULL_BASE_OFFSET] at pull-up,
    not back at neutral, and the pull fields of the other pins of that
    register as they were.  Nothing is said here of the pull field of pins
    16 and above. *)
Theorem init_gpio_pin_input_pull_up (W : world) (st : state) (pin : Z) :
  0 <= pin <= 57 ->
  gpio_port st = Some 0 ->
  length (page st) = Z.to_nat PAGE_WORDS ->
  exists st' v v1,
    _init_gpio_pin W pin false st = Ok tt st' /\
    page st !! Z.to_nat (fsel_reg_offset pin) = Some v /\
    page st' !! Z.to_nat (fsel_reg_offset pin) = Some v1 /\
    fsel_field v1 pin = FSEL_INPUT /\
    (forall q, 0 <= q -> Z.rem q 10 <> Z.rem pin 10 ->
               fsel_field v1 q = fsel_field v q) /\
    (pin < 16 ->
     exists p p2,
       page st !! Z.to_nat PULL_REG0 = Some p /\
       page st' !! Z.to_nat PULL_REG0 = Some p2 /\
       pull_field p2 pin = PULL_UP /\
       PULL_UP <> PULL_NONE /\
       forall q, 0 <= q < 16 -> q <> pin -> pull_field p2 q = pull_field p q).
Proof.
  intros Hpin Hport Hlen.
  destruct (pin_words_in_page pin Hpin) as (Hf & Hp).
  destruct (lookup_lt_is_Some_2 (page st) (Z.to_nat (fsel_reg_offset pin)))
    as (v & Hv).
  { rewrite Hlen. change (Z.to_nat PAGE_WORDS) with 1024%nat. lia. }
  destruct (lookup_lt_is_Some_2 (page st) (Z.to_nat (pull_reg_offset pin)))
    as (p & Hpv).
  { rewrite Hlen. change (Z.to_nat PAGE_WORDS) with 1024%nat. lia. }
  destruct (init_gpio_pin_input W pin v p st) as (st' & (Hm & _) & Hv1 & Hp2);
    try assumption; try lia.
  destruct (fsel_bits_offset_range pin) as (Hs & Hs'); [lia|].
  destruct (pull_bits_offset_range pin) as (Hb & Hb'); [lia|].
  exists st', v, (Z.land v (not32 (shl32 7 (fsel_bits_offset pin)))).
  split; [exact Hm|]. split; [exact Hv|]. split; [exact Hv1|].
  split; [|split].
  - unfold fsel_field, FSEL_INPUT. apply (cleared_field v 3); lia.
  - intros q Hq Hne. unfold fsel_field.
    destruct (fsel_bits_offset_range q Hq) as (Hq1 & Hq2).
    apply (cleared_other_field v 3 _ 3); try lia.
    rewrite !Z.rem_mod_nonneg in Hne by lia. lia.
  - intros Hlow. rewrite <- (pull_reg_offset_low pin) by lia.
    exists p, (Z.lor (Z.land p (not32 (shl32 3 (pull_bits_offset pin))))
                     (shl32 1 (pull_bits_offset pin))).
    split; [exact Hpv|]. split; [exact Hp2|]. split; [|split].
    + unfold pull_field, PULL_UP.
      rewrite (set_bit_field _ 2) by lia.
      now rewrite (cleared_field p 2) by lia.
    + discriminate.
    + intros q Hq Hne. unfold pull_field.
      destruct (pull_bits_offset_range q) as (Hq1 & Hq2); [lia|].
      rewrite Z.mod_small in Hq2, Hb' by lia.
      rewrite (set_bit_other_field _ _ 2) by lia.
      apply (cleared_other_field p 2 _ 2); lia.
Qed.

(** Pin 5 on a page of zeros. *)
Lemma init_gpio_pin_input_pull_up_witness :
  exists st' v v1,
    _init_gpio_pin (demo_world None None None) 5 false (ready_state [])
      = Ok tt st' /\
    page (ready_state []) !! Z.to_nat (fsel_reg_offset 5) = Some v /\
    page st' !! Z.to_nat (fsel_reg_offset 5) = Some v1 /\
    fsel_field v1 5 = FSEL_INPUT /\
    (forall q, 0 <= q -> Z.rem q 10 <> Z.rem 5 10 ->
               fsel_field v1 q = fsel_field v q) /\
    (5 < 16 ->
     exists p p2,
       page (ready_state []) !! Z.to_nat PULL_REG0 = Some p /\
       page st' !! Z.to_nat PULL_REG0 = Some p2 /\
       pull_field p2 5 = PULL_UP /\
       PULL_UP <> PULL_NONE /\
       forall q, 0 <= q < 16 -> q <> 5 -> pull_field p2 q = pull_field p q).
Proof.
  apply (init_gpio_pin_input_pull_up (demo_world None None None)
           (ready_state []) 5).
  - lia.
  - reflexivity.
  - reflexivity.
Defined.

(** C7 as stated fails: after [_init_gpio_pin(5, false)] the pull field of
    pin 5, in the register at [GPIO_PULL_BASE_OFFSET], reads pull-up, not
    neutral. *)
Lemma init_gpio_pin_input_leaves_pull_up :
  exists st' p2,
    _init_gpio_pin (demo_world None None None) 5 false (ready_state [])
      = Ok tt st' /\
    page st' !! Z.to_nat PULL_REG0 = Some p2 /\
    pull_field p2 5 = PULL_UP /\
    pull_field p2 5 <> PULL_NONE.
Proof.
  eexists. exists 1024. split; [vm_compute; reflexivity|].
  split; [vm_compute; reflexivity|].
  split; [vm_compute; reflexivity|]. vm_compute. discriminate.
Qed.

(** What [_init_gpio_pin(pin, true)] does to the function-select register:
    bit 0 of the pin's field is set, the field's other two bits and the
    fields of the other pins stay as they were. *)
Lemma init_gpio_pin_output_fields (W : world) (st : state) (pin v : Z) :
  0 <= pin ->
  gpio_port st = Some 0 ->
  page st !! Z.to_nat (fsel_reg_offset pin) = Some v ->
  exists st' v1,
    _init_gpio_pin W pin true st = Ok tt st' /\
    page st' !! Z.to_nat (fsel_reg_offset pin) = Some v1 /\
    fsel_field v1 pin = Z.lor (fsel_field v pin) 1 /\
    (forall q, 0 <= q -> Z.rem q 10 <> Z.rem pin 10 ->
               fsel_field v1 q = fsel_field v q).
Proof.
  intros Hpin Hport Hv.
  destruct (init_gpio_pin_output W pin v st Hpin Hport Hv)
    as (st' & (Hm & _) & Hp).
  destruct (fsel_bits_offset_range pin Hpin) as (Hs & Hs').
  exists st', (Z.lor v (shl32 1 (fsel_bits_offset pin))).
  split; [exact Hm|]. split; [|split].
  - rewrite Hp. apply list_lookup_insert_eq. eapply lookup_lt_Some, Hv.
  - unfold fsel_field. apply (set_bit_field v 3); lia.
  - intros q Hq Hne. unfold fsel_field.
    destruct (fsel_bits_offset_range q Hq) as (Hq1 & Hq2).
    apply (set_bit_other_field v _ 3); try lia.
    rewrite !Z.rem_mod_nonneg in Hne by lia. lia.
Qed.

(** C8 on the code.  [_init_gpio_pin(3, true)] only or-s bit 0 into the
    function-select field: from the prior fields 000..111 it leaves
    001, 001, 011, 011, 101, 101, 111, 111.  The field ends at the output
    code 001 only when it was 000 or 001 before. *)
Theorem init_gpio_pin_output_keeps_prior_bits :
  map (fsel_after_output DCLK_GPIO_PIN) [0; 1; 2; 3; 4; 5; 6; 7]
    = [Some 1; Some 1; Some 3; Some 3; Some 5; Some 5; Some 7; Some 7] /\
  fsel_after_output DCLK_GPIO_PIN 4 <> Some FSEL_OUTPUT.
Proof. split; [vm_compute; reflexivity | vm_compute; discriminate]. Qed.

(** ** The board revision detector *)

Lemma RD_GPIO_PIN_ok (W : world) (st : state) (i pin lev : Z) :
  gpio_rd_reg st = Some i -> 0 <= i ->
  page st !! Z.to_nat i = Some lev ->
  RD_GPIO_PIN W pin st = Ok (Z.b2z (Z.testbit lev pin)) (tick W st).
Proof.
  intros Hrd Hi Hlev. unfold RD_GPIO_PIN, bind, gets, ret.
  rewrite Hrd, (load_ok W i lev st Hi Hlev).
  now rewrite shift_and_one.
Qed.

(** C6.  The detector forms the code [pin1 | (pin2 << 1)] from the two strap
    reads (the source adds, which on single bits is the same) and prints
    Rev D for code 0, Rev B for 1, Rev C for 2 and Rev A for 3, for every
    level of the two strap pins. *)
Theorem board_rev_table (W : world) (st : state) (lev : Z) :
  gpio_rd_reg st = Some GPLEV ->
  page st !! Z.to_nat GPLEV = Some lev ->
  let pin1 := Z.testbit lev BOARD_REV_GPIO_PIN_1 in
  let pin2 := Z.testbit lev BOARD_REV_GPIO_PIN_2 in
  rev_code (Z.b2z pin1) (Z.b2z pin2)
    = Z.lor (Z.b2z pin1) (Z.shiftl (Z.b2z pin2) 1) /\
  rev_label (rev_code (Z.b2z pin1) (Z.b2z pin2)) = Some (strap_rev pin1 pin2) /\
  (rev_label 0 = Some RevD /\ rev_label 1 = Some RevB /\
   rev_label 2 = Some RevC /\ rev_label 3 = Some RevA) /\
  exists st',
    _print_board_rev_info W st = Ok tt st' /\
    trace st' = trace st ++ [EvMsg (MsgBoardRev (strap_rev pin1 pin2))].
Proof.
  intros Hrd Hlev pin1 pin2.
  assert (Hcode : rev_label (rev_code (Z.b2z pin1) (Z.b2z pin2))
                  = Some (strap_rev pin1 pin2))
    by (destruct pin1, pin2; reflexivity).
  split; [destruct pin1, pin2; reflexivity|].
  split; [exact Hcode|]. split; [repeat split|].
  eexists. unfold _print_board_rev_info.
  unfold bind at 1.
  rewrite (RD_GPIO_PIN_ok W st GPLEV _ lev Hrd) by (try discriminate; exact Hlev).
  unfold bind at 1.
  destruct (tick_frame W st) as (_ & _ & _ & Hrd' & _).
  rewrite (RD_GPIO_PIN_ok W (tick W st) GPLEV _ lev)
    by (try discriminate; try (rewrite tick_page; exact Hlev); congruence).
  fold pin1 pin2. rewrite Hcode.
  unfold MSG, emit. split; [reflexivity|].
  rewrite tick_trace. cbn. now rewrite !tick_trace.
Qed.

(** Strap 1 high and strap 2 low: Rev B. *)
Lemma board_rev_table_witness :
  exists st',
    _print_board_rev_info (demo_world None None None)
      (with_page (<[Z.to_nat GPLEV := 2 ^ 20]> (repeat 0 (Z.to_nat PAGE_WORDS)))
                 (ready_state [])) = Ok tt st' /\
    trace st' = [EvMsg (MsgBoardRev RevB)].
Proof.
  destruct (board_rev_table (demo_world None None None)
              (with_page (<[Z.to_nat GPLEV := 2 ^ 20]>
                            (repeat 0 (Z.to_nat PAGE_WORDS)))
                         (ready_state [])) (2 ^ 20))
    as (_ & _ & _ & H).
  - reflexivity.
  - reflexivity.
  - exact H.
Defined.

(** ** The orchestrator *)

Lemma tick_gpio_rd_reg (W : world) (st : state) :
  gpio_rd_reg (tick W st) = gpio_rd_reg st.
Proof. now destruct (tick_frame W st) as (_ & _ & _ & H & _). Qed.

Lemma open_and_setup_gpio_unmapped (W : world) (hat : pi_hat) (st : state) :
  mem_dev_ok W = false \/ mmap_ok W = false ->
  _open_and_setup_gpio W hat st = MSG W MsgGpioError (with_gpio_port None st).
Proof.
  intros H. unfold _open_and_setup_gpio, _mmap_bcm_register_base.
  destruct H as [H|H]; rewrite H; [|destruct (mem_dev_ok W)]; reflexivity.
Qed.

Lemma print_board_rev_info_null (W : world) (st : state) :
  gpio_rd_reg st = None -> _print_board_rev_info W st = Fault NullDeref st.
Proof.
  intros H. unfold _print_board_rev_info, RD_GPIO_PIN, bind, gets, load.
  now rewrite H.
Qed.

(** C5 on the code.  When the register window cannot be opened or mapped,
    [main] reports the error and then calls [_print_board_rev_info], which
    reads through [gpio_rd_reg]; that pointer was never assigned, so the
    read is a null dereference and [main] does not return. *)
Theorem main_reads_straps_through_null (W : world) (hat : pi_hat) :
  mem_dev_ok W = false \/ mmap_ok W = false ->
  main W hat = Crashed NullDeref [EvMsg MsgAppInfo; EvMsg MsgGpioError].
Proof.
  intros H. unfold main, main_body, _print_app_info.
  unfold bind at 1. unfold MSG at 1, emit at 1.
  unfold bind at 1. rewrite (open_and_setup_gpio_unmapped W hat _ H).
  unfold MSG at 1, emit at 1.
  unfold bind at 1. rewrite print_board_rev_info_null.
  - rewrite tick_trace. cbn. rewrite tick_trace. reflexivity.
  - repeat (rewrite tick_gpio_rd_reg;
            cbn [gpio_rd_reg with_trace with_gpio_port]).
    reflexivity.
Qed.

(** /dev/mem cannot be opened, as for a run without privileges. *)
Lemma main_reads_straps_through_null_witness :
  main {| mem_dev_ok := false; mmap_ok := true;
          fpga1_file := Some [x01]; fpga2_file := Some [x01];
          new_ok := fun _ => true;
          gpio_regs := repeat 0 (Z.to_nat PAGE_WORDS);
          sigint_at := None |} HAT0
  = Crashed NullDeref [EvMsg MsgAppInfo; EvMsg MsgGpioError].
Proof.
  apply main_reads_straps_through_null. left. reflexivity.
Defined.

(** ** Runs under an arbitrary signal *)

Lemma heap_events_app xs ys :
  heap_events (xs ++ ys) = heap_events xs ++ heap_events ys.
Proof. unfold heap_events. apply List.filter_app. Qed.

Lemma heap_events_cells bits : heap_events (cells bits) = [].
Proof.
  induction bits as [|b bits IH]; [reflexivity|].
  change (cells (b :: bits)) with (bit_cell b ++ cells bits).
  rewrite heap_events_app, IH. destruct b; reflexivity.
Qed.

Lemma heap_events_tail n : heap_events (tail_pulses n) = [].
Proof.
  induction n as [|n IH]; [reflexivity|].
  change (tail_pulses (S n)) with (clock_pulse ++ tail_pulses n).
  now rewrite heap_events_app, IH.
Qed.

Section Totality.

Variable W : world.

(** Whatever the signal does, the streaming loop returns, having emitted
    only stores. *)
Lemma stream_loop_total n : forall rest pre st,
  gpio_ready st ->
  binary_data st = Some (pre ++ rest) ->
  (n <= length rest)%nat ->
  exists st' es k,
    runs W (stream_loop W n (length pre)) st es k st' /\ heap_events es = [].
Proof.
  induction n as [|n IH]; intros rest pre st Hr Hd Hn.
  - exists (tick W st), [], 1%nat. split; [|reflexivity].
    apply runs_tick. cbn [stream_loop]. unfold bind, poll_exit_flag.
    destruct (exit_flag st); reflexivity.
  - destruct (exit_flag st) eqn:Hflag.
    + exists (tick W st), [], 1%nat. split; [|reflexivity].
      apply runs_tick, stream_loop_flagged, Hflag.
    + destruct rest as [|b r]; [cbn in Hn; lia|].
      destruct (stream_loop_turn_gen W n b r pre st Hr Hflag Hd) as (st1 & H1 & E).
      destruct (IH r (pre ++ [b]) st1) as (st2 & es & k & H2 & Hh).
      * apply (runs_ready _ _ _ _ _ _ H1), (frame_ready _ _ (tick_frame W st) Hr).
      * destruct H1 as (_ & _ & _ & (_ & _ & _ & _ & Hbd & _) & _).
        destruct (tick_frame W st) as (_ & _ & _ & _ & Hbd' & _).
        rewrite Hbd, Hbd', Hd, <- app_assoc. reflexivity.
      * cbn in Hn. lia.
      * exists st2, (cells (byte_bits b) ++ es), (S (88 + k)). split.
        -- apply (runs_after_tick W _ _ _ _ _ _ E).
           eapply runs_bind; eassumption.
        -- now rewrite heap_events_app, heap_events_cells, Hh.
Qed.

Lemma tail_loop_total n : forall st,
  gpio_ready st ->
  exists st' es k,
    runs W (tail_loop W n) st es k st' /\ heap_events es = [].
Proof.
  induction n as [|n IH]; intros st Hr.
  - exists (tick W st), [], 1%nat. split; [|reflexivity].
    apply runs_tick. cbn [tail_loop]. unfold bind, poll_exit_flag.
    destruct (exit_flag st); reflexivity.
  - destruct (exit_flag st) eqn:Hflag.
    + exists (tick W st), [], 1%nat. split; [|reflexivity].
      apply runs_tick, tail_loop_flagged, Hflag.
    + pose proof (frame_ready _ _ (tick_frame W st) Hr) as Hr0.
      destruct (runs_SET_DCLK W (tick W st) Hr0) as (st1 & H1).
      pose proof (runs_ready _ _ _ _ _ _ H1 Hr0) as Hr1.
      destruct (runs_CLR_DCLK W st1 Hr1) as (st2 & H2).
      pose proof (runs_ready _ _ _ _ _ _ H2 Hr1) as Hr2.
      destruct (IH st2 Hr2) as (st3 & es & k & H3 & Hh).
      exists st3, (clock_high ++ clock_low ++ es), (S (5 + (5 + k))). split.
      * apply (runs_after_tick W _
                 (SET_DCLK_PIN W ;;; CLR_DCLK_PIN W ;;; tail_loop W n)).
        -- cbn [tail_loop]. unfold bind at 1. unfold poll_exit_flag.
           rewrite Hflag. reflexivity.
        -- eapply runs_bind; [exact H1|]. eapply runs_bind; eassumption.
      * rewrite !heap_events_app, Hh. reflexivity.
Qed.

(** [_transfer_data] always returns when the GPIO is set up and the size
    does not exceed the buffer. *)
Lemma transfer_data_total st image :
  gpio_ready st ->
  binary_data st = Some image ->
  0 <= binary_data_size st <= Z.of_nat (length image) ->
  exists st' es k,
    runs W (_transfer_data W) st es k st' /\ heap_events es = [].
Proof.
  intros Hr Hd Hsz.
  destruct (stream_loop_total (Z.to_nat (binary_data_size st)) image [] st Hr Hd)
    as (st1 & es1 & k1 & H1 & Hh1); [lia|].
  destruct (tail_loop_total 10 st1 (runs_ready _ _ _ _ _ _ H1 Hr))
    as (st2 & es2 & k2 & H2 & Hh2).
  exists st2, (es1 ++ es2), (k1 + k2)%nat. split.
  - pose proof (runs_bind W _ _ _ _ _ _ _ _ _ H1 H2) as (Hm & Hrest).
    split; [|exact Hrest].
    unfold _transfer_data, bind at 1, gets. exact Hm.
  - now rewrite heap_events_app, Hh1, Hh2.
Qed.

End Totality.

Section Orchestration.

Variable W : world.

Lemma tick_gpio_port st : gpio_port (tick W st) = gpio_port st.
Proof. now destruct (tick_frame W st) as (H & _). Qed.

Lemma tick_gpio_set_reg st : gpio_set_reg (tick W st) = gpio_set_reg st.
Proof. now destruct (tick_frame W st) as (_ & H & _). Qed.

Lemma tick_gpio_clr_reg st : gpio_clr_reg (tick W st) = gpio_clr_reg st.
Proof. now destruct (tick_frame W st) as (_ & _ & H & _). Qed.

Lemma tick_binary_data st : binary_data (tick W st) = binary_data st.
Proof. now destruct (tick_frame W st) as (_ & _ & _ & _ & H & _). Qed.

Lemma tick_binary_data_size st :
  binary_data_size (tick W st) = binary_data_size st.
Proof. now destruct (tick_frame W st) as (_ & _ & _ & _ & _ & H & _). Qed.

Ltac state_simpl :=
  repeat (progress
    (rewrite ?tick_trace, ?tick_clock, ?tick_page, ?tick_gpio_port,
       ?tick_gpio_set_reg, ?tick_gpio_clr_reg, ?tick_gpio_rd_reg,
       ?tick_binary_data, ?tick_binary_data_size;
     cbn [exit_flag gpio_port gpio_set_reg gpio_clr_reg gpio_rd_reg
          binary_data binary_data_size page clock trace
          with_exit_flag with_gpio_port with_gpio_regs with_binary_data
          with_binary_data_size with_page with_clock with_trace])).

(** [_config_fpga1] up to the call of [_transfer_data], when the image
    file opens and the buffer is allocated. *)
Lemma config_fpga1_loaded st contents :
  fpga1_file W = Some contents ->
  new_ok W (Z.of_nat (length contents)) = true ->
  gpio_ready st ->
  exists st0,
    _config_fpga1 W st = (_transfer_data W ;;; MSG W (MsgConfigured 1)) st0 /\
    gpio_ready st0 /\
    (sync W st -> sync W st0) /\
    binary_data st0 = Some contents /\
    binary_data_size st0 = u32 (Z.of_nat (length contents)) /\
    trace st0 = trace st ++
      [EvNew (Z.of_nat (length contents));
       EvMsg (MsgFileSize 1 (u32 (Z.of_nat (length contents))));
       EvStore GPSET (shl32 1 NCONFIG_GPIO_PIN); EvSleep] /\
    clock st0 = (clock st + 4)%nat.
Proof.
  intros Hfile Hnew Hr.
  unfold _config_fpga1. rewrite Hfile.
  unfold bind at 1. unfold new_array. rewrite Hnew.
  unfold bind at 1. unfold modify at 1.
  unfold bind at 1. unfold modify at 1.
  unfold bind at 1. unfold gets at 1.
  unfold bind at 1. unfold MSG at 1, emit at 1.
  unfold bind at 1. unfold modify at 1.
  match goal with
  | |- context [bind (SET_GPIO_PIN W _) _ ?s] => set (se := s)
  end.
  assert (Hre : gpio_ready se).
  { destruct Hr as (H1 & H2 & H3 & H4 & H5).
    unfold gpio_ready, se. state_simpl. repeat split; assumption. }
  destruct (runs_SET W NCONFIG_GPIO_PIN se Hre) as (sf & Hm & Ht & Hc & Hf & Hs).
  unfold bind at 1. rewrite Hm.
  unfold bind at 1. unfold emit at 1.
  eexists. split; [reflexivity|].
  pose proof (frame_ready _ _ Hf Hre) as Hrf.
  destruct Hf as (_ & _ & _ & _ & Hbd & Hsz & _).
  split; [|split; [|split; [|split; [|split]]]].
  - destruct Hrf as (H1 & H2 & H3 & H4 & H5).
    unfold gpio_ready. state_simpl. repeat split; assumption.
  - intros Hsync. apply tick_sync. change (sync W sf). apply Hs.
    unfold se.
    match goal with
    | |- sync W (with_binary_data _ (tick W ?x)) =>
        change (sync W (tick W x))
    end.
    apply tick_sync.
    match goal with
    | |- sync W (with_trace _ (with_binary_data_size _
                   (with_binary_data _ (tick W ?x)))) =>
        change (sync W (tick W x))
    end.
    apply tick_sync. exact Hsync.
  - state_simpl. rewrite Hbd. reflexivity.
  - state_simpl. rewrite Hsz. unfold se. state_simpl. reflexivity.
  - state_simpl. rewrite Ht. unfold se. state_simpl.
    rewrite <- !app_assoc. reflexivity.
  - state_simpl. rewrite Hc. unfold se. state_simpl. lia.
Qed.
Lemma u32_size_le n : 0 <= u32 (Z.of_nat n) <= Z.of_nat n.
Proof.
  unfold u32. split.
  - apply Z.mod_pos_bound. reflexivity.
  - apply Z.mod_le; lia.
Qed.

(** [_config_fpga1] returns under any signal, with one allocation when the
    file opens and none otherwise. *)
Lemma config_fpga1_returns st :
  gpio_ready st ->
  (forall c, fpga1_file W = Some c -> new_ok W (Z.of_nat (length c)) = true) ->
  exists st' es,
    _config_fpga1 W st = Ok tt st' /\
    trace st' = trace st ++ es /\
    heap_events es = match fpga1_file W with
                     | Some c => [EvNew (Z.of_nat (length c))]
                     | None => []
                     end /\
    gpio_ready st' /\
    binary_data st' = match fpga1_file W with
                      | Some c => Some c
                      | None => binary_data st
                      end.
Proof.
  intros Hr Hnew. destruct (fpga1_file W) as [c|] eqn:Hfile.
  - destruct (config_fpga1_loaded st c Hfile (Hnew c eq_refl) Hr)
      as (st0 & E & Hr0 & _ & Hd0 & Hsz0 & Ht0 & _).
    destruct (transfer_data_total W st0 c Hr0 Hd0) as (st1 & es & k & H1 & Hh).
    { rewrite Hsz0. apply u32_size_le. }
    destruct (runs_emit W (EvMsg (MsgConfigured 1)) st1) as (st2 & H2).
    pose proof (runs_bind W _ _ _ _ _ _ _ _ _ H1 H2) as (Hm & Ht & _ & Hf & _).
    exists st2. eexists. split; [rewrite E; exact Hm|].
    split; [rewrite Ht, Ht0, <- app_assoc; reflexivity|].
    split; [|split].
    + rewrite !heap_events_app, Hh. reflexivity.
    + apply (frame_ready _ _ Hf Hr0).
    + destruct Hf as (_ & _ & _ & _ & Hbd & _). now rewrite Hbd.
  - destruct (runs_emit W (EvMsg (MsgNoFile 1)) st) as (st1 & Hm & Ht & _ & Hf & _).
    exists st1, [EvMsg (MsgNoFile 1)].
    unfold _config_fpga1. rewrite Hfile.
    split; [exact Hm|]. split; [exact Ht|]. split; [reflexivity|].
    split; [apply (frame_ready _ _ Hf Hr)|].
    now destruct Hf as (_ & _ & _ & _ & Hbd & _).
Qed.

Lemma ends_with_emit e : ends_with e (emit W e).
Proof.
  intros st st' H. unfold emit in H. injection H as <-.
  exists (trace st). now rewrite tick_trace.
Qed.

Lemma ends_with_bind {A} e (m : M A) (k : A -> M unit) :
  (forall a, ends_with e (k a)) -> ends_with e (bind m k).
Proof.
  intros Hk st st' H. unfold bind in H.
  destruct (m st) as [a st1|f st1]; [|discriminate].
  exact (Hk a st1 st' H).
Qed.

(** When the image file opens, whatever the transfer did, the last thing
    [_config_fpga1] does before it returns is print the "configured" line. *)
Lemma config_fpga1_ends_configured c :
  fpga1_file W = Some c -> ends_with (EvMsg (MsgConfigured 1)) (_config_fpga1 W).
Proof.
  intros Hfile st st' H. unfold _config_fpga1 in H. rewrite Hfile in H.
  unfold bind at 1 in H. unfold new_array in H.
  destruct (new_ok W (Z.of_nat (length c))); [|discriminate].
  revert H. generalize (tick W (with_trace (trace st ++ [EvNew (Z.of_nat (length c))]) st)).
  intros s H. revert s st' H.
  repeat (apply ends_with_bind; intros ?).
  apply ends_with_emit.
Qed.

Lemma config_fpga2_ends_configured c :
  fpga2_file W = Some c -> ends_with (EvMsg (MsgConfigured 2)) (_config_fpga2 W).
Proof.
  intros Hfile st st' H. unfold _config_fpga2 in H. rewrite Hfile in H.
  unfold bind at 1 in H. unfold new_array in H.
  destruct (new_ok W (Z.of_nat (length c))); [|discriminate].
  revert H. generalize (tick W (with_trace (trace st ++ [EvNew (Z.of_nat (length c))]) st)).
  intros s H. revert s st' H.
  repeat (apply ends_with_bind; intros ?).
  apply ends_with_emit.
Qed.

End Orchestration.

(** ** Abort and the "configured" line *)

(** C4, as the code has it.  Once the flag is observed set, at a check of
    the streaming loop or of the tail loop, the rest of [_transfer_data]
    stores nothing: trace and register page stay as they are, and it
    returns.  [_config_fpga1] and [_config_fpga2] print their "configured"
    line after every transfer that returns, aborted or not. *)
Theorem abort_stores_nothing_more (W : world) (st : state) :
  exit_flag st = true ->
  (forall n idx m, exists st',
     (stream_loop W n idx ;;; tail_loop W m) st = Ok tt st' /\
     trace st' = trace st /\ page st' = page st) /\
  (forall m, exists st',
     tail_loop W m st = Ok tt st' /\
     trace st' = trace st /\ page st' = page st) /\
  (forall c, fpga1_file W = Some c ->
     ends_with (EvMsg (MsgConfigured 1)) (_config_fpga1 W)) /\
  (forall c, fpga2_file W = Some c ->
     ends_with (EvMsg (MsgConfigured 2)) (_config_fpga2 W)).
Proof.
  intros Hflag. split; [|split; [|split]].
  - intros n idx m. exists (tick W (tick W st)).
    unfold bind. rewrite (stream_loop_flagged W n idx st Hflag).
    rewrite (tail_loop_flagged W m (tick W st) (tick_flag_true W st Hflag)).
    now rewrite !tick_trace, !tick_page.
  - intros m. exists (tick W st).
    rewrite (tail_loop_flagged W m st Hflag).
    now rewrite tick_trace, tick_page.
  - apply config_fpga1_ends_configured.
  - apply config_fpga2_ends_configured.
Qed.

Lemma abort_stores_nothing_more_witness :
  exists st',
    (stream_loop (demo_world (Some [xb2]) None (Some 0%nat)) 1 0 ;;;
     tail_loop (demo_world (Some [xb2]) None (Some 0%nat)) 10)
      (flagged_state [xb2]) = Ok tt st' /\
    trace st' = trace (flagged_state [xb2]) /\
    page st' = page (flagged_state [xb2]).
Proof.
  destruct (abort_stores_nothing_more
              (demo_world (Some [xb2]) None (Some 0%nat)) (flagged_state [xb2]))
    as (H & _).
  - reflexivity.
  - apply (H 1%nat 0%nat 10%nat).
Defined.

(** C4 as stated fails: with the flag set before the transfer starts, not
    one bit cell or tail pulse is emitted, and the "FPGA1 configured" line
    is printed all the same. *)
Lemma aborted_transfer_reported_configured :
  exit_flag (flagged_state []) = true /\
  exists st',
    _config_fpga1 (demo_world (Some [xb2]) None (Some 0%nat)) (flagged_state [])
      = Ok tt st' /\
    trace st' = [EvNew 1; EvMsg (MsgFileSize 1 1);
                 EvStore GPSET (shl32 1 NCONFIG_GPIO_PIN); EvSleep;
                 EvMsg (MsgConfigured 1)] /\
    In (EvMsg (MsgConfigured 1)) (trace st').
Proof.
  split; [reflexivity|]. eexists. split; [vm_compute; reflexivity|].
  split; [vm_compute; reflexivity|]. vm_compute. tauto.
Qed.

(** C10.  When the image file is empty and the signal does not arrive while
    [_config_fpga1] runs, the engine emits no data-bit/clock-pulse pair,
    then the ten tail pulses, and [_config_fpga1] prints the "configured"
    line. *)
Theorem empty_image_tail_and_report (W : world) (st : state) :
  fpga1_file W = Some [] ->
  new_ok W 0 = true ->
  gpio_ready st -> sync W st ->
  flag_at W (clock st + 117) = false ->
  exists st',
    _config_fpga1 W st = Ok tt st' /\
    trace st' = trace st ++
      [EvNew 0; EvMsg (MsgFileSize 1 0);
       EvStore GPSET (shl32 1 NCONFIG_GPIO_PIN); EvSleep]
      ++ cells (image_bits []) ++ tail_pulses 10
      ++ [EvMsg (MsgConfigured 1)] /\
    cells (image_bits []) = [] /\
    data_line (cells (image_bits []) ++ tail_pulses 10) = [].
Proof.
  intros Hfile Hnew Hr Hs Hclear.
  destruct (config_fpga1_loaded W st [] Hfile Hnew Hr)
    as (st0 & E & Hr0 & Hs0 & Hd0 & Hsz0 & Ht0 & Hc0).
  destruct (transfer_data_clear W st0 [] Hr0 (Hs0 Hs) Hd0 Hsz0) as (st1 & H1).
  { rewrite Hc0. eapply flag_at_mono; [|exact Hclear]. cbn [length]. lia. }
  destruct (runs_emit W (EvMsg (MsgConfigured 1)) st1) as (st2 & H2).
  pose proof (runs_bind W _ _ _ _ _ _ _ _ _ H1 H2) as (Hm & Ht & _).
  exists st2. split; [rewrite E; exact Hm|].
  split; [|split; reflexivity].
  rewrite Ht, Ht0. rewrite <- !app_assoc. reflexivity.
Qed.

Lemma empty_image_tail_and_report_witness :
  exists st',
    _config_fpga1 (demo_world (Some []) None None) (ready_state []) = Ok tt st' /\
    trace st' = trace (ready_state []) ++
      [EvNew 0; EvMsg (MsgFileSize 1 0);
       EvStore GPSET (shl32 1 NCONFIG_GPIO_PIN); EvSleep]
      ++ cells (image_bits []) ++ tail_pulses 10
      ++ [EvMsg (MsgConfigured 1)] /\
    cells (image_bits []) = [] /\
    data_line (cells (image_bits []) ++ tail_pulses 10) = [].
Proof.
  apply (empty_image_tail_and_report (demo_world (Some []) None None)
           (ready_state [])).
  - reflexivity.
  - reflexivity.
  - repeat split; reflexivity.
  - reflexivity.
  - reflexivity.
Defined.

(** ** The whole run *)

Section Main.

Variable W : world.

Lemma yields_ret {A} (v : A) : yields v (ret v).
Proof. intros st a st' H. unfold ret in H. now injection H as <-. Qed.

Lemma yields_bind {A B} (v : B) (m : M A) (k : A -> M B) :
  (forall a, yields v (k a)) -> yields v (bind m k).
Proof.
  intros Hk st b st' H. unfold bind in H.
  destruct (m st) as [a st1|f st1]; [|discriminate].
  exact (Hk a st1 b st' H).
Qed.

Lemma main_body_yields_zero hat : yields 0 (main_body W hat).
Proof.
  unfold main_body.
  repeat (apply yields_bind; intros ?). apply yields_ret.
Qed.

Lemma quiet_bind m k : quiet W m -> quiet W k -> quiet W (m ;;; k).
Proof.
  intros Hm Hk st Hr.
  destruct (Hm st Hr) as (st1 & es1 & k1 & H1 & Hh1).
  destruct (Hk st1 (runs_ready _ _ _ _ _ _ H1 Hr)) as (st2 & es2 & k2 & H2 & Hh2).
  exists st2, (es1 ++ es2), (k1 + k2)%nat. split.
  - eapply runs_bind; eassumption.
  - now rewrite heap_events_app, Hh1, Hh2.
Qed.

Lemma quiet_ret : quiet W (ret tt).
Proof. intros st _. exists st, [], 0%nat. split; [apply runs_ret | reflexivity]. Qed.

Lemma quiet_SET pin : quiet W (SET_GPIO_PIN W pin).
Proof.
  intros st Hr. destruct (runs_SET W pin st Hr) as (st' & H).
  exists st'. do 2 eexists. split; [exact H | reflexivity].
Qed.

Lemma quiet_CLR pin : quiet W (CLR_GPIO_PIN W pin).
Proof.
  intros st Hr. destruct (runs_CLR W pin st Hr) as (st' & H).
  exists st'. do 2 eexists. split; [exact H | reflexivity].
Qed.

Lemma quiet_emit e : heap_events [e] = [] -> quiet W (emit W e).
Proof.
  intros He st _. destruct (runs_emit W e st) as (st' & H).
  exists st'. do 2 eexists. split; [exact H | exact He].
Qed.

Lemma pin_regs_in_page pin :
  0 <= pin <= 57 ->
  0 <= fsel_reg_offset pin <= 5 /\ 57 <= pull_reg_offset pin <= 69.
Proof.
  intros H. unfold fsel_reg_offset, pull_reg_offset, u32.
  unfold GPIO_PULL_BASE_OFFSET, SIZEOF_U32.
  rewrite !Z.quot_div_nonneg by lia.
  change (2 ^ 32) with 4294967296. change (228 / 4) with 57.
  pose proof (Z.div_mod pin 10 ltac:(lia)).
  pose proof (Z.mod_pos_bound pin 10 ltac:(lia)).
  pose proof (Z.div_mod pin 16 ltac:(lia)).
  pose proof (Z.mod_pos_bound pin 16 ltac:(lia)).
  rewrite Z.mod_small; lia.
Qed.

Lemma quiet_init_gpio_pin pin output :
  0 <= pin <= 57 -> quiet W (_init_gpio_pin W pin output).
Proof.
  intros Hpin st (Hport & _ & _ & _ & Hlen).
  destruct (pin_regs_in_page pin Hpin) as (Hf & Hp).
  destruct (lookup_lt_is_Some_2 (page st) (Z.to_nat (fsel_reg_offset pin)))
    as (v & Hv).
  { rewrite Hlen. change (Z.to_nat PAGE_WORDS) with 1024%nat. lia. }
  destruct (lookup_lt_is_Some_2 (page st) (Z.to_nat (pull_reg_offset pin)))
    as (p & Hpv).
  { rewrite Hlen. change (Z.to_nat PAGE_WORDS) with 1024%nat. lia. }
  destruct output.
  - destruct (init_gpio_pin_output W pin v st) as (st' & H & _);
      try assumption; try lia.
    exists st'. do 2 eexists. split; [exact H | reflexivity].
  - destruct (init_gpio_pin_input W pin v p st) as (st' & H & _);
      try assumption; try lia.
    exists st'. do 2 eexists. split; [exact H | reflexivity].
Qed.

(** [_open_and_setup_gpio] when the page is mapped. *)
Lemma open_and_setup_gpio_ok hat st :
  mem_dev_ok W = true -> mmap_ok W = true ->
  length (page st) = Z.to_nat PAGE_WORDS ->
  exists st' es,
    _open_and_setup_gpio W hat st = Ok tt st' /\
    trace st' = trace st ++ es /\
    heap_events es = [] /\
    gpio_ready st' /\
    binary_data st' = binary_data st.
Proof.
  intros Hdev Hmap Hlen.
  unfold _open_and_setup_gpio, _mmap_bcm_register_base. rewrite Hdev, Hmap.
  unfold bind at 1. unfold bind at 1. unfold emit at 1. unfold ret at 1.
  unfold bind at 1. unfold modify at 1.
  unfold bind at 1. unfold modify at 1.
  match goal with
  | |- context [bind (_init_gpio_pin W _ _) _ ?s] => set (s0 := s)
  end.
  assert (Hr0 : gpio_ready s0).
  { unfold gpio_ready, s0. cbn [gpio_port gpio_set_reg gpio_clr_reg gpio_rd_reg
      page with_gpio_regs with_gpio_port ptr_add].
    rewrite tick_page. cbn [page with_trace]. repeat split. exact Hlen. }
  assert (Hq : quiet W
    (_init_gpio_pin W NCONFIG_GPIO_PIN true;;;
     match hat with
     | HAT0 => _init_gpio_pin W FPGA2_NCE_GPIO_PIN true
     | HAT1 => ret tt
     end;;;
     _init_gpio_pin W DCLK_GPIO_PIN true;;;
     _init_gpio_pin W BOARD_REV_GPIO_PIN_1 false;;;
     _init_gpio_pin W BOARD_REV_GPIO_PIN_2 false;;;
     match hat with
     | HAT0 => SET_GPIO_PIN W FPGA2_NCE_GPIO_PIN
     | HAT1 => ret tt
     end;;;
     CLR_GPIO_PIN W DCLK_GPIO_PIN;;;
     CLR_GPIO_PIN W DATA0_GPIO_PIN;;;
     CLR_GPIO_PIN W NCONFIG_GPIO_PIN;;; emit W EvSleep;;; MSG W MsgGpioSetup)).
  { repeat (apply quiet_bind);
      try (apply quiet_init_gpio_pin; cbv; split; discriminate);
      try apply quiet_CLR; try (apply quiet_emit; reflexivity);
      destruct hat; try apply quiet_ret; try apply quiet_SET;
      apply quiet_init_gpio_pin; cbv; split; discriminate. }
  destruct (Hq s0 Hr0) as (st' & es & k & (Hm & Ht & _ & Hf & _) & Hh).
  exists st', (EvMmap :: es). split; [exact Hm|]. split; [|split; [|split]].
  - rewrite Ht. unfold s0. cbn [trace with_gpio_regs with_gpio_port].
    rewrite tick_trace. cbn [trace with_trace]. now rewrite <- app_assoc.
  - change (EvMmap :: es) with ([EvMmap] ++ es).
    now rewrite heap_events_app, Hh.
  - apply (frame_ready _ _ Hf Hr0).
  - destruct Hf as (_ & _ & _ & _ & Hbd & _). rewrite Hbd.
    unfold s0. cbn [binary_data with_gpio_regs with_gpio_port].
    destruct (tick_frame W (with_trace (trace st ++ [EvMmap]) st))
      as (_ & _ & _ & _ & Hbd' & _).
    now rewrite Hbd'.
Qed.

Lemma quiet_print_board_rev_info : quiet W (_print_board_rev_info W).
Proof.
  intros st (_ & _ & _ & Hrd & Hlen).
  destruct (lookup_lt_is_Some_2 (page st) (Z.to_nat GPLEV)) as (lev & Hlev).
  { rewrite Hlen. apply Nat.ltb_lt. reflexivity. }
  set (v1 := Z.b2z (Z.testbit lev BOARD_REV_GPIO_PIN_1)).
  set (v2 := Z.b2z (Z.testbit lev BOARD_REV_GPIO_PIN_2)).
  set (m2 := match rev_label (rev_code v1 v2) with
             | Some r => MSG W (MsgBoardRev r)
             | None => ret tt
             end).
  set (m1 := (pin2 <- RD_GPIO_PIN W BOARD_REV_GPIO_PIN_2 ;;
              match rev_label (rev_code v1 pin2) with
              | Some r => MSG W (MsgBoardRev r)
              | None => ret tt
              end)).
  assert (H2 : exists st' es k,
             runs W m2 (tick W (tick W st)) es k st' /\ heap_events es = []).
  { unfold m2. destruct (rev_label (rev_code v1 v2)) as [r|].
    - destruct (runs_emit W (EvMsg (MsgBoardRev r)) (tick W (tick W st)))
        as (st' & H).
      exists st'. do 2 eexists. split; [exact H | reflexivity].
    - exists (tick W (tick W st)), [], 0%nat.
      split; [apply runs_ret | reflexivity]. }
  destruct H2 as (st' & es & k & H2 & Hh).
  exists st', es, (S (S k)). split; [|exact Hh].
  apply (runs_after_tick W _ m1).
  - unfold _print_board_rev_info, m1. unfold bind at 1.
    rewrite (RD_GPIO_PIN_ok W st GPLEV _ lev Hrd) by (try discriminate; exact Hlev).
    reflexivity.
  - apply (runs_after_tick W _ m2); [|exact H2].
    unfold m1. unfold bind at 1.
    rewrite (RD_GPIO_PIN_ok W (tick W st) GPLEV _ lev)
      by (try discriminate; try (rewrite tick_page; exact Hlev);
          rewrite tick_gpio_rd_reg; exact Hrd).
    reflexivity.
Qed.

Lemma free_binary_data_runs st :
  exists st' k,
    runs W (free_binary_data W) st
      (match binary_data st with Some _ => [EvDelete] | None => [] end) k st'.
Proof.
  unfold free_binary_data, runs, bind, gets.
  destruct (binary_data st) as [d|].
  - destruct (runs_emit W EvDelete st) as (st' & H). exists st', 1%nat. exact H.
  - exists st, 0%nat. apply runs_ret.
Qed.

(** [_close_gpio] on a mapped page: both lines are driven low, the page is
    unmapped and the closing line is printed. *)
Lemma close_gpio_ok st :
  gpio_ready st ->
  exists st',
    _close_gpio W st = Ok tt st' /\
    trace st' = trace st ++
      [EvStore GPCLR (shl32 1 DCLK_GPIO_PIN);
       EvStore GPCLR (shl32 1 DATA0_GPIO_PIN);
       EvMunmap; EvMsg MsgGpioClosed].
Proof.
  intros Hr.
  destruct (runs_CLR W DCLK_GPIO_PIN st Hr) as (s1 & H1).
  pose proof (runs_ready _ _ _ _ _ _ H1 Hr) as Hr1.
  destruct (runs_CLR W DATA0_GPIO_PIN s1 Hr1) as (s2 & H2).
  destruct (runs_emit W EvMunmap s2) as (s3 & H3).
  destruct H1 as (Hm1 & Ht1 & _), H2 as (Hm2 & Ht2 & _), H3 as (Hm3 & Ht3 & _).
  destruct Hr as (Hport & _).
  eexists. unfold _close_gpio. unfold bind at 1. unfold gets at 1. rewrite Hport.
  unfold bind at 1. rewrite Hm1.
  unfold bind at 1. rewrite Hm2.
  unfold bind at 1. rewrite Hm3.
  unfold bind at 1. unfold modify at 1. unfold MSG, emit.
  split; [reflexivity|].
  rewrite tick_trace. cbn [trace with_trace with_gpio_port].
  rewrite Ht3, Ht2, Ht1. rewrite <- !app_assoc. reflexivity.
Qed.

(** The run on the two-FPGA board when the second image cannot be opened. *)
Lemma main_second_file_missing :
  mem_dev_ok W = true -> mmap_ok W = true ->
  length (gpio_regs W) = Z.to_nat PAGE_WORDS ->
  (forall c, fpga1_file W = Some c -> new_ok W (Z.of_nat (length c)) = true) ->
  fpga2_file W = None ->
  exists pre,
    main W HAT0 = Exited 0 (pre ++ EvMsg (MsgNoFile 2) :: closing_events) /\
    heap_events pre = match fpga1_file W with
                      | Some c => [EvNew (Z.of_nat (length c)); EvDelete]
                      | None => []
                      end.
Proof.
  intros Hdev Hmap Hlen Hnew Hfile2.
  unfold main, main_body.
  unfold bind at 1. unfold _print_app_info, MSG at 1, emit at 1.
  set (s1 := tick W (with_trace (trace (boot W) ++ [EvMsg MsgAppInfo]) (boot W))).
  assert (Hd1 : binary_data s1 = None)
    by (unfold s1; rewrite tick_binary_data; reflexivity).
  assert (Ht1 : trace s1 = [EvMsg MsgAppInfo])
    by (unfold s1; rewrite tick_trace; reflexivity).
  destruct (open_and_setup_gpio_ok HAT0 s1 Hdev Hmap)
    as (s2 & es2 & Hm2 & Ht2 & Hh2 & Hr2 & Hd2).
  { unfold s1. rewrite tick_page. exact Hlen. }
  unfold bind at 1. rewrite Hm2.
  destruct (quiet_print_board_rev_info s2 Hr2)
    as (s3 & es3 & k3 & (Hm3 & Ht3 & _ & Hf3 & _) & Hh3).
  pose proof (frame_ready _ _ Hf3 Hr2) as Hr3.
  assert (Hd3 : binary_data s3 = None).
  { destruct Hf3 as (_ & _ & _ & _ & Hbd & _). congruence. }
  unfold bind at 1. rewrite Hm3.
  unfold bind at 1. unfold gets at 1.
  destruct Hr3 as (Hport3 & Hrest3). rewrite Hport3.
  pose proof (conj Hport3 Hrest3 : gpio_ready s3) as Hr3.
  destruct (config_fpga1_returns W s3 Hr3 Hnew)
    as (s4 & es4 & Hm4 & Ht4 & Hh4 & Hr4 & Hd4).
  unfold bind at 1. unfold bind at 1. rewrite Hm4.
  destruct (free_binary_data_runs s4) as (s5 & k5 & Hm5 & Ht5 & _ & Hf5 & _).
  pose proof (frame_ready _ _ Hf5 Hr4) as Hr5.
  unfold bind at 1. rewrite Hm5.
  unfold bind at 1. unfold modify at 1.
  unfold _config_fpga2. rewrite Hfile2. unfold MSG at 1, emit at 1.
  set (s6 := with_binary_data None s5).
  set (s7 := tick W (with_trace (trace s6 ++ [EvMsg (MsgNoFile 2)]) s6)).
  assert (Hd7 : binary_data s7 = None)
    by (unfold s7; rewrite tick_binary_data; reflexivity).
  assert (Ht7 : trace s7 = trace s5 ++ [EvMsg (MsgNoFile 2)])
    by (unfold s7; rewrite tick_trace; reflexivity).
  assert (Hr7 : gpio_ready s7).
  { apply (frame_ready _ _ (tick_frame W _)).
    destruct Hr5 as (? & ? & ? & ? & ?). repeat split; assumption. }
  unfold bind at 1. unfold free_binary_data at 1.
  unfold bind at 1. unfold gets at 1. rewrite Hd7. unfold ret at 1.
  destruct (close_gpio_ok s7 Hr7) as (s8 & Hm8 & Ht8).
  unfold bind at 1. rewrite Hm8.
  unfold bind at 1. unfold MSG at 1, emit at 1. unfold ret.
  rewrite tick_trace. cbn [trace with_trace].
  exists ([EvMsg MsgAppInfo] ++ es2 ++ es3 ++ es4 ++
          match binary_data s4 with Some _ => [EvDelete] | None => [] end).
  split.
  - f_equal. rewrite Ht8, Ht7, Ht5, Ht4, Ht3, Ht2, Ht1.
    unfold closing_events. rewrite <- !app_assoc. reflexivity.
  - rewrite !heap_events_app, Hh2, Hh3, Hh4, Hd4.
    destruct (fpga1_file W); [reflexivity|]. rewrite Hd3. reflexivity.
Qed.

End Main.

(** C9.  Whenever [main] returns, it returns 0.  On the two-FPGA board, with
    the register window mapped, if the second image file cannot be opened
    the run still drives the lines low, unmaps the window and returns 0; the
    only buffer released is the first target's, once, after it was
    allocated, and nothing is released after the failed open. *)
Theorem main_exits_zero_and_unmaps (W : world) :
  mem_dev_ok W = true -> mmap_ok W = true ->
  length (gpio_regs W) = Z.to_nat PAGE_WORDS ->
  (forall c, fpga1_file W = Some c -> new_ok W (Z.of_nat (length c)) = true) ->
  fpga2_file W = None ->
  (forall hat code tr, main W hat = Exited code tr -> code = 0) /\
  exists pre,
    main W HAT0 = Exited 0 (pre ++ EvMsg (MsgNoFile 2) :: closing_events) /\
    heap_events pre = match fpga1_file W with
                      | Some c => [EvNew (Z.of_nat (length c)); EvDelete]
                      | None => []
                      end /\
    heap_events (EvMsg (MsgNoFile 2) :: closing_events) = [] /\
    In EvMunmap closing_events.
Proof.
  intros Hdev Hmap Hlen Hnew Hfile2. split.
  - intros hat code tr H. unfold main in H.
    destruct (main_body W hat (boot W)) as [c st|f st] eqn:E; [|discriminate].
    injection H as <- _. exact (main_body_yields_zero W hat _ _ _ E).
  - destruct (main_second_file_missing W Hdev Hmap Hlen Hnew Hfile2)
      as (pre & Hmain & Hheap).
    exists pre. split; [exact Hmain|]. split; [exact Hheap|].
    split; [reflexivity|]. cbn. tauto.
Qed.

(** The first image is one byte, the second file is missing, and the signal
    arrives at step 40. *)
Lemma main_exits_zero_and_unmaps_witness :
  (forall hat code tr,
     main (demo_world (Some [xb2]) None (Some 40%nat)) hat = Exited code tr ->
     code = 0) /\
  exists pre,
    main (demo_world (Some [xb2]) None (Some 40%nat)) HAT0
      = Exited 0 (pre ++ EvMsg (MsgNoFile 2) :: closing_events) /\
    heap_events pre = [EvNew 1; EvDelete] /\
    heap_events (EvMsg (MsgNoFile 2) :: closing_events) = [] /\
    In EvMunmap closing_events.
Proof.
  apply (main_exits_zero_and_unmaps (demo_world (Some [xb2]) None (Some 40%nat))).
  - reflexivity.
  - reflexivity.
  - reflexivity.
  - intros c _. reflexivity.
  - reflexivity.
Defined.

(** * Further properties of the code *)

(** ** The cancellation flag is only ever set *)

Section Flag.

Variable W : world.

(** A property [I] of states that depends only on the flag and the step
    counter and that a step keeps I is kept by every function of the
    program. *)
Variable I : state -> Prop.
Hypothesis I_tick : forall st, I st -> I (tick W st).
Hypothesis I_ext : forall st st',
  exit_flag st' = exit_flag st -> clock st' = clock st -> I st -> I st'.

Lemma keeps_ret {A} (a : A) : keeps I (ret a).
Proof. intros st b st' H E. unfold ret in E. now injection E as _ <-. Qed.

Lemma keeps_raise {A} f : keeps I (@raise A f).
Proof. intros st b st' H E. discriminate. Qed.

Lemma keeps_gets {A} (proj : state -> A) : keeps I (gets proj).
Proof. intros st b st' H E. unfold gets in E. now injection E as _ <-. Qed.

Lemma keeps_bind {A B} (m : M A) (k : A -> M B) :
  keeps I m -> (forall a, keeps I (k a)) -> keeps I (bind m k).
Proof.
  intros Hm Hk st b st' H E. unfold bind in E.
  destruct (m st) as [a st1|f st1] eqn:Em; [|discriminate].
  exact (Hk a st1 b st' (Hm st a st1 H Em) E).
Qed.

Lemma keeps_modify (f : state -> state) :
  (forall st, exit_flag (f st) = exit_flag st) ->
  (forall st, clock (f st) = clock st) ->
  keeps I (modify f).
Proof.
  intros Hf Hc st b st' H E. unfold modify in E. injection E as _ <-.
  exact (I_ext st (f st) (Hf st) (Hc st) H).
Qed.

Lemma keeps_emit e : keeps I (emit W e).
Proof.
  intros st b st' H E. unfold emit in E. injection E as _ <-.
  apply I_tick. revert H. apply I_ext; reflexivity.
Qed.

Lemma keeps_poll : keeps I (poll_exit_flag W).
Proof.
  intros st b st' H E. unfold poll_exit_flag in E. injection E as _ <-.
  now apply I_tick.
Qed.

Lemma keeps_load p : keeps I (load W p).
Proof.
  intros st b st' H E. unfold load in E.
  destruct p as [i|]; [|discriminate].
  destruct (0 <=? i); [|discriminate].
  destruct (page st !! Z.to_nat i); [|discriminate].
  injection E as _ <-. now apply I_tick.
Qed.

Lemma keeps_store p v : keeps I (store W p v).
Proof.
  intros st b st' H E. unfold store in E.
  destruct p as [i|]; [|discriminate].
  destruct ((0 <=? i) && (Z.to_nat i <? length (page st))%nat); [|discriminate].
  injection E as _ <-. apply I_tick. revert H. apply I_ext; reflexivity.
Qed.

Lemma keeps_for_loop n : forall lo (body : Z -> M unit),
  (forall i, keeps I (body i)) -> keeps I (for_loop n lo body).
Proof.
  induction n as [|n IH]; intros lo body Hb; cbn [for_loop].
  - apply keeps_ret.
  - apply keeps_bind; [apply Hb|]. intros _. now apply IH.
Qed.

Lemma keeps_SET pin : keeps I (SET_GPIO_PIN W pin).
Proof. apply keeps_bind; [apply keeps_gets|]. intros p. apply keeps_store. Qed.

Lemma keeps_CLR pin : keeps I (CLR_GPIO_PIN W pin).
Proof. apply keeps_bind; [apply keeps_gets|]. intros p. apply keeps_store. Qed.

Lemma keeps_SET_DCLK : keeps I (SET_DCLK_PIN W).
Proof. apply keeps_for_loop. intros _. apply keeps_SET. Qed.

Lemma keeps_CLR_DCLK : keeps I (CLR_DCLK_PIN W).
Proof. apply keeps_for_loop. intros _. apply keeps_CLR. Qed.

Lemma keeps_or_assign p m : keeps I (or_assign W p m).
Proof. apply keeps_bind; [apply keeps_load|]. intros v. apply keeps_store. Qed.

Lemma keeps_and_assign p m : keeps I (and_assign W p m).
Proof. apply keeps_bind; [apply keeps_load|]. intros v. apply keeps_store. Qed.

Lemma keeps_init_gpio_pin pin output : keeps I (_init_gpio_pin W pin output).
Proof.
  unfold _init_gpio_pin. destruct (pin <? 0); [apply keeps_raise|].
  apply keeps_bind; [apply keeps_gets|]. intros port.
  destruct output.
  - apply keeps_or_assign.
  - repeat (apply keeps_bind; [|intros _]);
      try apply keeps_and_assign; apply keeps_or_assign.
Qed.

Lemma keeps_send_bit b i : keeps I (send_bit W b i).
Proof.
  unfold send_bit.
  apply keeps_bind; [destruct (_ =? 0); [apply keeps_CLR | apply keeps_SET]|].
  intros _. apply keeps_bind; [apply keeps_SET_DCLK|].
  intros _. apply keeps_CLR_DCLK.
Qed.

Lemma keeps_read_byte idx : keeps I (read_byte idx).
Proof.
  intros st b st' H E. unfold read_byte in E.
  destruct (binary_data st) as [buf|]; [|discriminate].
  destruct (buf !! idx); [|discriminate]. now injection E as _ <-.
Qed.

Lemma keeps_stream_loop n : forall idx, keeps I (stream_loop W n idx).
Proof.
  induction n as [|n IH]; intros idx; cbn [stream_loop];
    (apply keeps_bind; [apply keeps_poll|]); intros [|]; try apply keeps_ret.
  apply keeps_bind; [apply keeps_read_byte|]. intros b.
  apply keeps_bind; [apply keeps_for_loop; intros i; apply keeps_send_bit|].
  intros _. apply IH.
Qed.

Lemma keeps_tail_loop n : keeps I (tail_loop W n).
Proof.
  induction n as [|n IH]; cbn [tail_loop];
    (apply keeps_bind; [apply keeps_poll|]); intros [|]; try apply keeps_ret.
  apply keeps_bind; [apply keeps_SET_DCLK|]. intros _.
  apply keeps_bind; [apply keeps_CLR_DCLK|]. intros _. exact IH.
Qed.

Lemma keeps_transfer_data : keeps I (_transfer_data W).
Proof.
  apply keeps_bind; [apply keeps_gets|]. intros size.
  apply keeps_bind; [apply keeps_stream_loop|]. intros _. apply keeps_tail_loop.
Qed.

Lemma keeps_new_array n : keeps I (new_array W n).
Proof.
  intros st b st' H E. unfold new_array in E.
  destruct (new_ok W n); [|discriminate]. injection E as _ <-.
  apply I_tick. revert H. apply I_ext; reflexivity.
Qed.

Ltac keeps_step :=
  first [ apply keeps_ret | apply keeps_gets | apply keeps_emit
        | apply keeps_SET | apply keeps_CLR | apply keeps_transfer_data
        | apply keeps_new_array | apply keeps_init_gpio_pin
        | apply keeps_modify; intros; reflexivity ].

Lemma keeps_config_fpga1 : keeps I (_config_fpga1 W).
Proof.
  unfold _config_fpga1, MSG. destruct (fpga1_file W) as [c|]; [|apply keeps_emit].
  apply keeps_bind; [keeps_step|]. intros [buf|];
    repeat (apply keeps_bind; [keeps_step|intros ?]); keeps_step.
Qed.

Lemma keeps_config_fpga2 : keeps I (_config_fpga2 W).
Proof.
  unfold _config_fpga2, MSG. destruct (fpga2_file W) as [c|]; [|apply keeps_emit].
  apply keeps_bind; [keeps_step|]. intros [buf|];
    repeat (apply keeps_bind; [keeps_step|intros ?]); keeps_step.
Qed.

Lemma keeps_open_and_setup_gpio hat : keeps I (_open_and_setup_gpio W hat).
Proof.
  unfold _open_and_setup_gpio, _mmap_bcm_register_base, MSG.
  apply keeps_bind.
  - destruct (mem_dev_ok W); [|apply keeps_ret].
    destruct (mmap_ok W); [|apply keeps_ret].
    apply keeps_bind; [apply keeps_emit|]. intros _. apply keeps_ret.
  - intros p. apply keeps_bind; [keeps_step|]. intros _.
    destruct p as [i|]; [|apply keeps_emit].
    destruct hat;
      repeat (apply keeps_bind; [keeps_step|intros ?]); keeps_step.
Qed.

Lemma keeps_print_board_rev_info : keeps I (_print_board_rev_info W).
Proof.
  unfold _print_board_rev_info, RD_GPIO_PIN, MSG.
  apply keeps_bind.
  { apply keeps_bind; [apply keeps_gets|]. intros p.
    apply keeps_bind; [apply keeps_load|]. intros v. apply keeps_ret. }
  intros pin1. apply keeps_bind.
  { apply keeps_bind; [apply keeps_gets|]. intros p.
    apply keeps_bind; [apply keeps_load|]. intros v. apply keeps_ret. }
  intros pin2. destruct (rev_label _); keeps_step.
Qed.

Lemma keeps_free_binary_data : keeps I (free_binary_data W).
Proof.
  apply keeps_bind; [apply keeps_gets|]. intros [d|]; keeps_step.
Qed.

Lemma keeps_close_gpio : keeps I (_close_gpio W).
Proof.
  unfold _close_gpio, MSG. apply keeps_bind; [apply keeps_gets|].
  intros [i|]; [|apply keeps_ret].
  repeat (apply keeps_bind; [keeps_step|intros ?]); keeps_step.
Qed.

Lemma keeps_main_body hat : keeps I (main_body W hat).
Proof.
  unfold main_body, _print_app_info, MSG.
  apply keeps_bind; [keeps_step|]. intros _.
  apply keeps_bind; [apply keeps_open_and_setup_gpio|]. intros _.
  apply keeps_bind; [apply keeps_print_board_rev_info|]. intros _.
  apply keeps_bind; [keeps_step|]. intros port.
  apply keeps_bind.
  - destruct port as [i|]; [|apply keeps_ret].
    apply keeps_bind; [apply keeps_config_fpga1|]. intros _.
    destruct hat; [|apply keeps_ret].
    apply keeps_bind; [apply keeps_free_binary_data|]. intros _.
    apply keeps_bind; [keeps_step|]. intros _. apply keeps_config_fpga2.
  - intros _. apply keeps_bind; [apply keeps_free_binary_data|]. intros _.
    apply keeps_bind; [apply keeps_close_gpio|]. intros _.
    apply keeps_bind; [keeps_step|]. intros _. apply keeps_ret.
Qed.

End Flag.

Lemma flag_set_ext (st st' : state) :
  exit_flag st' = exit_flag st -> clock st' = clock st ->
  exit_flag st = true -> exit_flag st' = true.
Proof. congruence. Qed.

Lemma sync_ext (W : world) (st st' : state) :
  exit_flag st' = exit_flag st -> clock st' = clock st ->
  sync W st -> sync W st'.
Proof. unfold sync. congruence. Qed.

(** X1.  No function of the program clears [exit_flag]: whenever
    [_transfer_data], [_config_fpga1], [_config_fpga2] or the body of [main]
    is entered with the flag set and returns, the flag is still set. *)
Theorem exit_flag_stays_set (W : world) (hat : pi_hat) (st : state) :
  exit_flag st = true ->
  (forall st', _transfer_data W st = Ok tt st' -> exit_flag st' = true) /\
  (forall st', _config_fpga1 W st = Ok tt st' -> exit_flag st' = true) /\
  (forall st', _config_fpga2 W st = Ok tt st' -> exit_flag st' = true) /\
  (forall code st', main_body W hat st = Ok code st' -> exit_flag st' = true).
Proof.
  intros Hflag.
  pose proof (tick_flag_true W) as Ht.
  pose proof flag_set_ext as He.
  repeat split; intros.
  - eapply (keeps_transfer_data W _ Ht He); eassumption.
  - eapply (keeps_config_fpga1 W _ Ht He); eassumption.
  - eapply (keeps_config_fpga2 W _ Ht He); eassumption.
  - eapply (keeps_main_body W _ Ht He); eassumption.
Qed.

(** The whole run on the two-FPGA board with the signal handled before the
    first statement. *)
Lemma exit_flag_stays_set_witness :
  exit_flag
    (match main_body (demo_world (Some [xb2]) (Some [x01]) (Some 0%nat)) HAT0
             (boot (demo_world (Some [xb2]) (Some [x01]) (Some 0%nat))) with
     | Ok _ st' => st'
     | Fault _ st' => st'
     end) = true.
Proof.
  destruct (exit_flag_stays_set
              (demo_world (Some [xb2]) (Some [x01]) (Some 0%nat)) HAT0
              (boot (demo_world (Some [xb2]) (Some [x01]) (Some 0%nat))))
    as (_ & _ & _ & H).
  - reflexivity.
  - apply (H 0). vm_compute. reflexivity.
Defined.

(** ** The transfer under any timing of the signal *)

Section Tail.

Variable W : world.

Lemma tail_pulses_S n : tail_pulses (S n) = clock_high ++ clock_low ++ tail_pulses n.
Proof.
  unfold tail_pulses, clock_pulse. cbn [repeat concat]. now rewrite <- app_assoc.
Qed.

(** One turn of the tail loop on a clear flag: one pulse goes out. *)
Lemma tail_loop_turn n st :
  gpio_ready st -> exit_flag st = false ->
  exists st1,
    runs W (SET_DCLK_PIN W ;;; CLR_DCLK_PIN W) (tick W st) clock_pulse 10 st1 /\
    tail_loop W (S n) st =
      ((SET_DCLK_PIN W ;;; CLR_DCLK_PIN W) ;;; tail_loop W n) (tick W st).
Proof.
  intros Hr Hflag.
  destruct (runs_pulse W (tick W st) (frame_ready _ _ (tick_frame W st) Hr))
    as (st1 & H1).
  exists st1. split; [exact H1|].
  cbn [tail_loop]. unfold bind at 1. unfold poll_exit_flag. rewrite Hflag.
  unfold bind. destruct (SET_DCLK_PIN W (tick W st)); reflexivity.
Qed.

(** Under any timing of the signal the streaming loop sends whole bytes,
    the first [j] of them, and stops early only with the flag set. *)
Lemma stream_loop_whole_bytes n : forall rest pre st,
  gpio_ready st ->
  binary_data st = Some (pre ++ rest) ->
  (n <= length rest)%nat ->
  exists st' j k,
    (j <= n)%nat /\
    runs W (stream_loop W n (length pre)) st
      (cells (image_bits (firstn j rest))) k st' /\
    ((j < n)%nat -> exit_flag st' = true).
Proof.
  induction n as [|n IH]; intros rest pre st Hr Hd Hn.
  - exists (tick W st), 0%nat, 1%nat. split; [lia|]. split; [|lia].
    apply runs_tick. cbn [stream_loop]. unfold bind, poll_exit_flag.
    destruct (exit_flag st); reflexivity.
  - destruct (exit_flag st) eqn:Hflag.
    + exists (tick W st), 0%nat, 1%nat. split; [lia|]. split.
      * apply runs_tick, stream_loop_flagged, Hflag.
      * intros _. now apply tick_flag_true.
    + destruct rest as [|b r]; [cbn in Hn; lia|].
      destruct (stream_loop_turn_gen W n b r pre st Hr Hflag Hd) as (st1 & H1 & E).
      destruct (IH r (pre ++ [b]) st1) as (st2 & j & k & Hj & H2 & Hf2).
      * apply (runs_ready _ _ _ _ _ _ H1), (frame_ready _ _ (tick_frame W st) Hr).
      * destruct H1 as (_ & _ & _ & (_ & _ & _ & _ & Hbd & _) & _).
        destruct (tick_frame W st) as (_ & _ & _ & _ & Hbd' & _).
        rewrite Hbd, Hbd', Hd, <- app_assoc. reflexivity.
      * cbn in Hn. lia.
      * exists st2, (S j), (S (88 + k)). split; [lia|]. split.
        -- cbn [firstn]. rewrite cells_image_cons.
           apply (runs_after_tick W _ _ _ _ _ _ E).
           eapply runs_bind; eassumption.
        -- intros Hlt. apply Hf2. lia.
Qed.

(** Under any timing the tail loop sends whole pulses, and none when the
    flag is set on entry. *)
Lemma tail_loop_whole_pulses n : forall st,
  gpio_ready st ->
  exists st' t k,
    (t <= n)%nat /\
    runs W (tail_loop W n) st (tail_pulses t) k st' /\
    (exit_flag st = true -> t = 0%nat).
Proof.
  induction n as [|n IH]; intros st Hr.
  - exists (tick W st), 0%nat, 1%nat. split; [lia|]. split; [|reflexivity].
    apply runs_tick. cbn [tail_loop]. unfold bind, poll_exit_flag.
    destruct (exit_flag st); reflexivity.
  - destruct (exit_flag st) eqn:Hflag.
    + exists (tick W st), 0%nat, 1%nat. split; [lia|]. split; [|reflexivity].
      apply runs_tick, tail_loop_flagged, Hflag.
    + destruct (tail_loop_turn n st Hr Hflag) as (st1 & H1 & E).
      destruct (IH st1) as (st2 & t & k & Ht & H2 & _).
      { apply (runs_ready _ _ _ _ _ _ H1), (frame_ready _ _ (tick_frame W st) Hr). }
      exists st2, (S t), (S (10 + k)). split; [lia|]. split; [|discriminate].
      replace (tail_pulses (S t)) with (clock_pulse ++ tail_pulses t)
        by (unfold tail_pulses; reflexivity).
      apply (runs_after_tick W _ _ _ _ _ _ E).
      eapply runs_bind; eassumption.
Qed.

End Tail.

(** X3.  Whenever the signal arrives, or if it never does, [_transfer_data]
    returns, and what it has emitted is the cells of the first [j] bytes of
    the image, each byte complete, followed by [t] complete tail pulses,
    with [t <= 10] and no tail pulse at all unless every byte went out. *)
Theorem transfer_data_whole_bytes
    (W : world) (st : state) (image : list byte) :
  gpio_ready st ->
  binary_data st = Some image ->
  binary_data_size st = Z.of_nat (length image) ->
  exists st' j t,
    _transfer_data W st = Ok tt st' /\
    (j <= length image)%nat /\ (t <= 10)%nat /\
    trace st' = trace st ++ cells (image_bits (firstn j image)) ++ tail_pulses t /\
    ((j < length image)%nat -> t = 0%nat).
Proof.
  intros Hr Hd Hsz.
  destruct (stream_loop_whole_bytes W (length image) image [] st Hr Hd (le_n _))
    as (st1 & j & k1 & Hj & H1 & Hf1).
  destruct (tail_loop_whole_pulses W 10 st1 (runs_ready _ _ _ _ _ _ H1 Hr))
    as (st2 & t & k2 & Ht & H2 & Hz).
  exists st2, j, t.
  pose proof (runs_bind W _ _ _ _ _ _ _ _ _ H1 H2) as (Hm & Htr & _).
  split; [|repeat split; try assumption].
  - unfold _transfer_data, bind at 1, gets. rewrite Hsz, Nat2Z.id. exact Hm.
  - intros Hlt. apply Hz, Hf1, Hlt.
Qed.

Lemma transfer_data_whole_bytes_witness :
  exists st' j t,
    _transfer_data (demo_world None None (Some 100%nat))
      (ready_state [x01; x00; xff]) = Ok tt st' /\
    (j <= length [x01; x00; xff])%nat /\ (t <= 10)%nat /\
    trace st' = trace (ready_state [x01; x00; xff])
                  ++ cells (image_bits (firstn j [x01; x00; xff]))
                  ++ tail_pulses t /\
    ((j < length [x01; x00; xff])%nat -> t = 0%nat).
Proof.
  apply (transfer_data_whole_bytes (demo_world None None (Some 100%nat))
           (ready_state [x01; x00; xff]) [x01; x00; xff]).
  - repeat split; reflexivity.
  - reflexivity.
  - reflexivity.
Defined.

(** ** Pin writes *)

Lemma shl32_one pin : 0 <= pin < 32 -> shl32 1 pin = 2 ^ pin.
Proof.
  intros H. unfold shl32, u32. rewrite Z.shiftl_1_l.
  apply Z.mod_small. split; [apply Z.pow_nonneg; lia|].
  apply Z.pow_lt_mono_r; lia.
Qed.

Lemma SET_GPIO_PIN_page (W : world) pin st :
  gpio_ready st ->
  exists st',
    runs W (SET_GPIO_PIN W pin) st [EvStore GPSET (shl32 1 pin)] 1 st' /\
    page st' = <[Z.to_nat GPSET := shl32 1 pin]> (page st).
Proof.
  intros (_ & Hs & _ & _ & Hl).
  destruct (runs_store W GPSET (shl32 1 pin) st) as (st' & H & Hp & _).
  - discriminate.
  - rewrite Hl. apply Nat.ltb_lt. reflexivity.
  - exists st'. split; [|exact Hp].
    unfold SET_GPIO_PIN, runs, bind, gets. rewrite Hs. exact H.
Qed.

Lemma CLR_GPIO_PIN_page (W : world) pin st :
  gpio_ready st ->
  exists st',
    runs W (CLR_GPIO_PIN W pin) st [EvStore GPCLR (shl32 1 pin)] 1 st' /\
    page st' = <[Z.to_nat GPCLR := shl32 1 pin]> (page st).
Proof.
  intros (_ & _ & Hc & _ & Hl).
  destruct (runs_store W GPCLR (shl32 1 pin) st) as (st' & H & Hp & _).
  - discriminate.
  - rewrite Hl. apply Nat.ltb_lt. reflexivity.
  - exists st'. split; [|exact Hp].
    unfold CLR_GPIO_PIN, runs, bind, gets. rewrite Hc. exact H.
Qed.

(** X4.  For a pin number below 32, [SET_GPIO_PIN] is one store to the
    pin-set register and [CLR_GPIO_PIN] one store to the pin-clear register;
    the word stored has bit [pin] set and no other, and no other register of
    the page changes. *)
Theorem set_clr_gpio_pin_one_bit (W : world) (st : state) (pin : Z) :
  gpio_ready st -> 0 <= pin < 32 ->
  (exists st',
     SET_GPIO_PIN W pin st = Ok tt st' /\
     trace st' = trace st ++ [EvStore GPSET (2 ^ pin)] /\
     forall j, j <> Z.to_nat GPSET -> page st' !! j = page st !! j) /\
  (exists st',
     CLR_GPIO_PIN W pin st = Ok tt st' /\
     trace st' = trace st ++ [EvStore GPCLR (2 ^ pin)] /\
     forall j, j <> Z.to_nat GPCLR -> page st' !! j = page st !! j) /\
  (forall i, 0 <= i -> Z.testbit (2 ^ pin) i = (pin =? i)).
Proof.
  intros Hr Hpin. split; [|split].
  - destruct (SET_GPIO_PIN_page W pin st Hr) as (st' & (Hm & Ht & _) & Hp).
    exists st'. rewrite <- (shl32_one pin Hpin).
    split; [exact Hm|]. split; [exact Ht|].
    intros j Hj. rewrite Hp. now apply list_lookup_insert_ne.
  - destruct (CLR_GPIO_PIN_page W pin st Hr) as (st' & (Hm & Ht & _) & Hp).
    exists st'. rewrite <- (shl32_one pin Hpin).
    split; [exact Hm|]. split; [exact Ht|].
    intros j Hj. rewrite Hp. now apply list_lookup_insert_ne.
  - intros i Hi. apply Z.pow2_bits_eqb. lia.
Qed.

Lemma set_clr_gpio_pin_one_bit_witness :
  exists st',
    SET_GPIO_PIN (demo_world None None None) NCONFIG_GPIO_PIN (ready_state [])
      = Ok tt st' /\
    trace st' = trace (ready_state []) ++ [EvStore GPSET (2 ^ NCONFIG_GPIO_PIN)] /\
    forall j, j <> Z.to_nat GPSET -> page st' !! j = page (ready_state []) !! j.
Proof.
  destruct (set_clr_gpio_pin_one_bit (demo_world None None None)
              (ready_state []) NCONFIG_GPIO_PIN) as (H & _).
  - repeat split; reflexivity.
  - unfold NCONFIG_GPIO_PIN. lia.
  - exact H.
Defined.

(** ** Closing the register window *)

(** X5.  [_close_gpio] on a mapped window leaves [gpio_port] null, and a
    second call then does nothing at all: it returns with the state, trace
    included, exactly as it was. *)
Theorem close_gpio_twice (W : world) (st : state) :
  gpio_ready st ->
  exists st',
    _close_gpio W st = Ok tt st' /\
    gpio_port st' = None /\
    In EvMunmap (trace st') /\
    _close_gpio W st' = Ok tt st'.
Proof.
  intros Hr.
  destruct (runs_CLR W DCLK_GPIO_PIN st Hr) as (s1 & H1).
  pose proof (runs_ready _ _ _ _ _ _ H1 Hr) as Hr1.
  destruct (runs_CLR W DATA0_GPIO_PIN s1 Hr1) as (s2 & H2).
  destruct (runs_emit W EvMunmap s2) as (s3 & H3).
  destruct H1 as (Hm1 & _), H2 as (Hm2 & _), H3 as (Hm3 & Ht3 & _).
  destruct Hr as (Hport & _).
  exists (tick W (with_trace (trace (with_gpio_port None s3)
                               ++ [EvMsg MsgGpioClosed])
                    (with_gpio_port None s3))).
  split; [|split; [|split]].
  - unfold _close_gpio. unfold bind at 1. unfold gets at 1. rewrite Hport.
    unfold bind at 1. rewrite Hm1.
    unfold bind at 1. rewrite Hm2.
    unfold bind at 1. rewrite Hm3. reflexivity.
  - now rewrite tick_gpio_port.
  - rewrite tick_trace. cbn [trace with_trace with_gpio_port]. rewrite Ht3.
    apply in_or_app. left. apply in_or_app. right. left. reflexivity.
  - unfold _close_gpio, bind, gets. rewrite tick_gpio_port. reflexivity.
Qed.

Lemma close_gpio_twice_witness :
  exists st',
    _close_gpio (demo_world None None None) (ready_state []) = Ok tt st' /\
    gpio_port st' = None /\
    In EvMunmap (trace st') /\
    _close_gpio (demo_world None None None) st' = Ok tt st'.
Proof.
  apply (close_gpio_twice (demo_world None None None) (ready_state [])).
  repeat split; reflexivity.
Defined.

(** ** Configuring a target *)

Section Configure.

Variable W : world.

Ltac state_simpl :=
  repeat (progress
    (rewrite ?tick_trace, ?tick_clock, ?tick_page, ?tick_gpio_port,
       ?tick_gpio_set_reg, ?tick_gpio_clr_reg, ?tick_gpio_rd_reg,
       ?tick_binary_data, ?tick_binary_data_size;
     cbn [exit_flag gpio_port gpio_set_reg gpio_clr_reg gpio_rd_reg
          binary_data binary_data_size page clock trace
          with_exit_flag with_gpio_port with_gpio_regs with_binary_data
          with_binary_data_size with_page with_clock with_trace])).

(** [_config_fpga2] up to the call of [_transfer_data], when the image
    file opens and the buffer is allocated. *)
Lemma config_fpga2_loaded st contents :
  fpga2_file W = Some contents ->
  new_ok W (Z.of_nat (length contents)) = true ->
  gpio_ready st ->
  exists st0,
    _config_fpga2 W st = (_transfer_data W ;;; MSG W (MsgConfigured 2)) st0 /\
    gpio_ready st0 /\
    (sync W st -> sync W st0) /\
    binary_data st0 = Some contents /\
    binary_data_size st0 = u32 (Z.of_nat (length contents)) /\
    trace st0 = trace st ++
      [EvNew (Z.of_nat (length contents));
       EvMsg (MsgFileSize 2 (u32 (Z.of_nat (length contents))));
       EvStore GPCLR (shl32 1 FPGA2_NCE_GPIO_PIN); EvSleep] /\
    clock st0 = (clock st + 4)%nat.
Proof.
  intros Hfile Hnew Hr.
  unfold _config_fpga2. rewrite Hfile.
  unfold bind at 1. unfold new_array. rewrite Hnew.
  unfold bind at 1. unfold modify at 1.
  unfold bind at 1. unfold modify at 1.
  unfold bind at 1. unfold gets at 1.
  unfold bind at 1. unfold MSG at 1, emit at 1.
  unfold bind at 1. unfold modify at 1.
  match goal with
  | |- context [bind (CLR_GPIO_PIN W _) _ ?s] => set (se := s)
  end.
  assert (Hre : gpio_ready se).
  { destruct Hr as (H1 & H2 & H3 & H4 & H5).
    unfold gpio_ready, se. state_simpl. repeat split; assumption. }
  destruct (runs_CLR W FPGA2_NCE_GPIO_PIN se Hre) as (sf & Hm & Ht & Hc & Hf & Hs).
  unfold bind at 1. rewrite Hm.
  unfold bind at 1. unfold emit at 1.
  eexists. split; [reflexivity|].
  pose proof (frame_ready _ _ Hf Hre) as Hrf.
  destruct Hf as (_ & _ & _ & _ & Hbd & Hsz & _).
  split; [|split; [|split; [|split; [|split]]]].
  - destruct Hrf as (H1 & H2 & H3 & H4 & H5).
    unfold gpio_ready. state_simpl. repeat split; assumption.
  - intros Hsync. apply tick_sync. change (sync W sf). apply Hs.
    unfold se.
    match goal with
    | |- sync W (with_binary_data _ (tick W ?x)) =>
        change (sync W (tick W x))
    end.
    apply tick_sync.
    match goal with
    | |- sync W (with_trace _ (with_binary_data_size _
                   (with_binary_data _ (tick W ?x)))) =>
        change (sync W (tick W x))
    end.
    apply tick_sync. exact Hsync.
  - state_simpl. rewrite Hbd. reflexivity.
  - state_simpl. rewrite Hsz. unfold se. state_simpl. reflexivity.
  - state_simpl. rewrite Ht. unfold se. state_simpl.
    rewrite <- !app_assoc. reflexivity.
  - state_simpl. rewrite Hc. unfold se. state_simpl. lia.
Qed.

Lemma u32_small n : Z.of_nat n < 2 ^ 32 -> u32 (Z.of_nat n) = Z.of_nat n.
Proof. intros H. unfold u32. apply Z.mod_small. lia. Qed.

(** A complete run of the transfer and the report from a loaded state. *)
Lemma transfer_and_report fpga st0 image :
  gpio_ready st0 -> sync W st0 ->
  binary_data st0 = Some image ->
  binary_data_size st0 = Z.of_nat (length image) ->
  flag_at W (clock st0 + 89 * length image + 100) = false ->
  exists st',
    (_transfer_data W ;;; MSG W (MsgConfigured fpga)) st0 = Ok tt st' /\
    trace st' = trace st0 ++ cells (image_bits image) ++ tail_pulses 10
                  ++ [EvMsg (MsgConfigured fpga)] /\
    clock st' = (clock st0 + 89 * length image + 113)%nat /\
    gpio_ready st' /\ sync W st' /\ binary_data st' = Some image.
Proof.
  intros Hr Hs Hd Hsz Hclear.
  destruct (transfer_data_clear W st0 image Hr Hs Hd Hsz Hclear) as (st1 & H1).
  destruct (runs_emit W (EvMsg (MsgConfigured fpga)) st1) as (st2 & H2).
  pose proof (runs_bind W _ _ _ _ _ _ _ _ _ H1 H2) as (Hm & Ht & Hc & Hf & Hs2).
  exists st2. split; [exact Hm|]. split; [|split; [|split; [|split]]].
  - rewrite Ht, <- !app_assoc. reflexivity.
  - rewrite Hc. lia.
  - apply (frame_ready _ _ Hf Hr).
  - auto.
  - destruct Hf as (_ & _ & _ & _ & Hbd & _). now rewrite Hbd.
Qed.

Lemma config_fpga1_run st image :
  fpga1_file W = Some image ->
  new_ok W (Z.of_nat (length image)) = true ->
  Z.of_nat (length image) < 2 ^ 32 ->
  gpio_ready st -> sync W st ->
  flag_at W (clock st + 89 * length image + 104) = false ->
  exists st',
    _config_fpga1 W st = Ok tt st' /\
    trace st' = trace st ++
      config_events 1 (EvStore GPSET (shl32 1 NCONFIG_GPIO_PIN)) image /\
    clock st' = (clock st + 89 * length image + 117)%nat /\
    gpio_ready st' /\ sync W st' /\ binary_data st' = Some image.
Proof.
  intros Hfile Hnew Hlen Hr Hs Hclear.
  destruct (config_fpga1_loaded W st image Hfile Hnew Hr)
    as (st0 & E & Hr0 & Hs0 & Hd0 & Hsz0 & Ht0 & Hc0).
  rewrite (u32_small _ Hlen) in Hsz0, Ht0.
  destruct (transfer_and_report 1 st0 image Hr0 (Hs0 Hs) Hd0 Hsz0)
    as (st' & Hm & Ht & Hc & Hrest).
  { rewrite Hc0. eapply flag_at_mono; [|exact Hclear]. lia. }
  exists st'. split; [rewrite E; exact Hm|]. split; [|split; [|exact Hrest]].
  - rewrite Ht, Ht0. unfold config_events. rewrite <- !app_assoc. reflexivity.
  - rewrite Hc, Hc0. lia.
Qed.

Lemma config_fpga2_run st image :
  fpga2_file W = Some image ->
  new_ok W (Z.of_nat (length image)) = true ->
  Z.of_nat (length image) < 2 ^ 32 ->
  gpio_ready st -> sync W st ->
  flag_at W (clock st + 89 * length image + 104) = false ->
  exists st',
    _config_fpga2 W st = Ok tt st' /\
    trace st' = trace st ++
      config_events 2 (EvStore GPCLR (shl32 1 FPGA2_NCE_GPIO_PIN)) image /\
    clock st' = (clock st + 89 * length image + 117)%nat /\
    gpio_ready st' /\ sync W st' /\ binary_data st' = Some image.
Proof.
  intros Hfile Hnew Hlen Hr Hs Hclear.
  destruct (config_fpga2_loaded st image Hfile Hnew Hr)
    as (st0 & E & Hr0 & Hs0 & Hd0 & Hsz0 & Ht0 & Hc0).
  rewrite (u32_small _ Hlen) in Hsz0, Ht0.
  destruct (transfer_and_report 2 st0 image Hr0 (Hs0 Hs) Hd0 Hsz0)
    as (st' & Hm & Ht & Hc & Hrest).
  { rewrite Hc0. eapply flag_at_mono; [|exact Hclear]. lia. }
  exists st'. split; [rewrite E; exact Hm|]. split; [|split; [|exact Hrest]].
  - rewrite Ht, Ht0. unfold config_events. rewrite <- !app_assoc. reflexivity.
  - rewrite Hc, Hc0. lia.
Qed.

End Configure.

(** X6.  When the first image file opens and holds fewer than 2^32 bytes,
    its buffer is allocated and no signal arrives during the call,
    [_config_fpga1] allocates, prints the size, drives nCONFIG high once,
    waits, sends the whole image and the ten tail pulses and prints the
    "configured" line, in this order; the buffer is left allocated for the
    caller to release. *)
Theorem config_fpga1_complete_run (W : world) (st : state) (image : list byte) :
  fpga1_file W = Some image ->
  new_ok W (Z.of_nat (length image)) = true ->
  Z.of_nat (length image) < 2 ^ 32 ->
  gpio_ready st -> sync W st ->
  flag_at W (clock st + 89 * length image + 117) = false ->
  exists st',
    _config_fpga1 W st = Ok tt st' /\
    trace st' = trace st ++
      [EvNew (Z.of_nat (length image));
       EvMsg (MsgFileSize 1 (Z.of_nat (length image)));
       EvStore GPSET (shl32 1 NCONFIG_GPIO_PIN); EvSleep]
      ++ cells (image_bits image) ++ tail_pulses 10
      ++ [EvMsg (MsgConfigured 1)] /\
    binary_data st' = Some image.
Proof.
  intros Hfile Hnew Hlen Hr Hs Hclear.
  destruct (config_fpga1_run W st image Hfile Hnew Hlen Hr Hs)
    as (st' & Hm & Ht & _ & _ & _ & Hd).
  { eapply flag_at_mono; [|exact Hclear]. lia. }
  exists st'. repeat split; assumption.
Qed.

Lemma config_fpga1_complete_run_witness :
  exists st',
    _config_fpga1 (demo_world (Some [x01; xff]) None None) (ready_state [])
      = Ok tt st' /\
    trace st' = trace (ready_state []) ++
      [EvNew (Z.of_nat (length [x01; xff]));
       EvMsg (MsgFileSize 1 (Z.of_nat (length [x01; xff])));
       EvStore GPSET (shl32 1 NCONFIG_GPIO_PIN); EvSleep]
      ++ cells (image_bits [x01; xff]) ++ tail_pulses 10
      ++ [EvMsg (MsgConfigured 1)] /\
    binary_data st' = Some [x01; xff].
Proof.
  apply (config_fpga1_complete_run (demo_world (Some [x01; xff]) None None)
           (ready_state []) [x01; xff]).
  - reflexivity.
  - reflexivity.
  - reflexivity.
  - repeat split; reflexivity.
  - reflexivity.
  - reflexivity.
Defined.

(** X7.  The second target is selected by clearing its nCE pin, not by
    nCONFIG: under the same conditions [_config_fpga2] allocates, prints the
    size, stores the nCE bit to the pin-clear register once, waits, sends the
    whole image and the ten tail pulses and prints its "configured" line.  It
    never drives nCE high again. *)
Theorem config_fpga2_complete_run (W : world) (st : state) (image : list byte) :
  fpga2_file W = Some image ->
  new_ok W (Z.of_nat (length image)) = true ->
  Z.of_nat (length image) < 2 ^ 32 ->
  gpio_ready st -> sync W st ->
  flag_at W (clock st + 89 * length image + 117) = false ->
  exists st',
    _config_fpga2 W st = Ok tt st' /\
    trace st' = trace st ++
      [EvNew (Z.of_nat (length image));
       EvMsg (MsgFileSize 2 (Z.of_nat (length image)));
       EvStore GPCLR (shl32 1 FPGA2_NCE_GPIO_PIN); EvSleep]
      ++ cells (image_bits image) ++ tail_pulses 10
      ++ [EvMsg (MsgConfigured 2)] /\
    ~ In (EvStore GPSET (shl32 1 FPGA2_NCE_GPIO_PIN))
         (cells (image_bits image) ++ tail_pulses 10) /\
    binary_data st' = Some image.
Proof.
  intros Hfile Hnew Hlen Hr Hs Hclear.
  destruct (config_fpga2_run W st image Hfile Hnew Hlen Hr Hs)
    as (st' & Hm & Ht & _ & _ & _ & Hd).
  { eapply flag_at_mono; [|exact Hclear]. lia. }
  exists st'. split; [exact Hm|]. split; [exact Ht|]. split; [|exact Hd].
  intros Hin. apply in_app_or in Hin. destruct Hin as [Hin|Hin].
  - unfold cells in Hin. apply in_flat_map in Hin.
    destruct Hin as (b & _ & Hb).
    destruct b; cbn in Hb; repeat (destruct Hb as [Hb|Hb]; [discriminate|]);
      exact Hb.
  - unfold tail_pulses in Hin. apply in_concat in Hin.
    destruct Hin as (p & Hp & Hin). apply repeat_spec in Hp. subst p.
    cbn in Hin. repeat (destruct Hin as [Hin|Hin]; [discriminate|]). exact Hin.
Qed.

Lemma config_fpga2_complete_run_witness :
  exists st',
    _config_fpga2 (demo_world None (Some [x01; xff]) None) (ready_state [])
      = Ok tt st' /\
    trace st' = trace (ready_state []) ++
      [EvNew (Z.of_nat (length [x01; xff]));
       EvMsg (MsgFileSize 2 (Z.of_nat (length [x01; xff])));
       EvStore GPCLR (shl32 1 FPGA2_NCE_GPIO_PIN); EvSleep]
      ++ cells (image_bits [x01; xff]) ++ tail_pulses 10
      ++ [EvMsg (MsgConfigured 2)] /\
    ~ In (EvStore GPSET (shl32 1 FPGA2_NCE_GPIO_PIN))
         (cells (image_bits [x01; xff]) ++ tail_pulses 10) /\
    binary_data st' = Some [x01; xff].
Proof.
  apply (config_fpga2_complete_run (demo_world None (Some [x01; xff]) None)
           (ready_state []) [x01; xff]).
  - reflexivity.
  - reflexivity.
  - reflexivity.
  - repeat split; reflexivity.
  - reflexivity.
  - reflexivity.
Defined.

(** X8.  Cancellation does not stop a target from being selected: when
    [_config_fpga2] is entered with the flag already set and the file opens,
    it still allocates the buffer, clears nCE and waits, then sends no bit
    and no tail pulse, and prints the "configured" line. *)
Theorem config_fpga2_after_cancellation
    (W : world) (st : state) (image : list byte) :
  fpga2_file W = Some image ->
  new_ok W (Z.of_nat (length image)) = true ->
  gpio_ready st -> sync W st ->
  exit_flag st = true ->
  exists st',
    _config_fpga2 W st = Ok tt st' /\
    trace st' = trace st ++
      [EvNew (Z.of_nat (length image));
       EvMsg (MsgFileSize 2 (u32 (Z.of_nat (length image))));
       EvStore GPCLR (shl32 1 FPGA2_NCE_GPIO_PIN); EvSleep;
       EvMsg (MsgConfigured 2)].
Proof.
  intros Hfile Hnew Hr Hs Hflag.
  destruct (config_fpga2_loaded W st image Hfile Hnew Hr)
    as (st0 & E & Hr0 & Hs0 & Hd0 & Hsz0 & Ht0 & Hc0).
  assert (Hf0 : exit_flag st0 = true).
  { rewrite (Hs0 Hs), Hc0. eapply flag_at_mono_true; [|rewrite <- Hs; exact Hflag].
    lia. }
  eexists. rewrite E. unfold bind at 1. unfold _transfer_data, bind at 1, gets.
  unfold bind at 1.
  rewrite (stream_loop_flagged W _ 0 st0 Hf0).
  rewrite (tail_loop_flagged W 10 (tick W st0) (tick_flag_true W st0 Hf0)).
  unfold MSG, emit. split; [reflexivity|].
  rewrite tick_trace. cbn [trace with_trace]. rewrite !tick_trace, Ht0.
  rewrite <- app_assoc. reflexivity.
Qed.

Lemma config_fpga2_after_cancellation_witness :
  exists st',
    _config_fpga2 (demo_world None (Some [x01; xff]) (Some 0%nat))
      (flagged_state []) = Ok tt st' /\
    trace st' = trace (flagged_state []) ++
      [EvNew (Z.of_nat (length [x01; xff]));
       EvMsg (MsgFileSize 2 (u32 (Z.of_nat (length [x01; xff]))));
       EvStore GPCLR (shl32 1 FPGA2_NCE_GPIO_PIN); EvSleep;
       EvMsg (MsgConfigured 2)].
Proof.
  apply (config_fpga2_after_cancellation
           (demo_world None (Some [x01; xff]) (Some 0%nat))
           (flagged_state []) [x01; xff]).
  - reflexivity.
  - reflexivity.
  - repeat split; reflexivity.
  - reflexivity.
  - reflexivity.
Defined.

(** ** Pin setup *)

Lemma level_stores_app xs ys :
  level_stores (xs ++ ys) = level_stores xs ++ level_stores ys.
Proof. unfold level_stores. apply List.filter_app. Qed.

Section Setup.

Variable W : world.

Lemma runs_emit_page e st :
  exists st', runs W (emit W e) st [e] 1 st' /\ page st' = page st.
Proof.
  eexists. unfold runs, emit. split; [split; [reflexivity|]|].
  - rewrite tick_trace, tick_clock. cbn. split; [reflexivity|].
    split; [lia|]. split.
    + eapply frame_trans; [|apply tick_frame]. unfold frame; cbn. repeat split.
    + intros H. apply tick_sync. exact H.
  - now rewrite tick_page.
Qed.

Lemma init_gpio_pin_input_page pin v p st :
  0 <= pin -> gpio_port st = Some 0 ->
  fsel_reg_offset pin <> pull_reg_offset pin ->
  page st !! Z.to_nat (fsel_reg_offset pin) = Some v ->
  page st !! Z.to_nat (pull_reg_offset pin) = Some p ->
  let v1 := Z.land v (not32 (shl32 7 (fsel_bits_offset pin))) in
  let p1 := Z.land p (not32 (shl32 3 (pull_bits_offset pin))) in
  let p2 := Z.lor p1 (shl32 1 (pull_bits_offset pin)) in
  exists st',
    runs W (_init_gpio_pin W pin false) st
      [EvStore (fsel_reg_offset pin) v1;
       EvStore (pull_reg_offset pin) p1;
       EvStore (pull_reg_offset pin) p2] 6 st' /\
    page st' = <[Z.to_nat (pull_reg_offset pin) := p2]>
                 (<[Z.to_nat (pull_reg_offset pin) := p1]>
                    (<[Z.to_nat (fsel_reg_offset pin) := v1]> (page st))).
Proof.
  intros Hpin Hport Hne Hv Hp v1 p1 p2.
  assert (Hq : 0 <= fsel_reg_offset pin)
    by (unfold fsel_reg_offset; apply Z.quot_pos; lia).
  assert (Hu : 0 <= pull_reg_offset pin)
    by (unfold pull_reg_offset, u32; apply Z.mod_pos_bound; lia).
  assert (Hnat : Z.to_nat (fsel_reg_offset pin) <> Z.to_nat (pull_reg_offset pin))
    by lia.
  destruct (runs_and_assign W (fsel_reg_offset pin)
              (not32 (shl32 7 (fsel_bits_offset pin))) v st Hq Hv)
    as (st1 & H1 & Hp1).
  assert (Hl1 : page st1 !! Z.to_nat (pull_reg_offset pin) = Some p).
  { rewrite Hp1, list_lookup_insert_ne by exact Hnat. exact Hp. }
  destruct (runs_and_assign W (pull_reg_offset pin)
              (not32 (shl32 3 (pull_bits_offset pin))) p st1 Hu Hl1)
    as (st2 & H2 & Hp2).
  assert (Hl2 : page st2 !! Z.to_nat (pull_reg_offset pin) = Some p1).
  { rewrite Hp2. apply list_lookup_insert_eq. eapply lookup_lt_Some, Hl1. }
  destruct (runs_or_assign W (pull_reg_offset pin)
              (shl32 1 (pull_bits_offset pin)) p1 st2 Hu Hl2)
    as (st3 & H3 & Hp3).
  exists st3. split.
  - pose proof (runs_bind W _ _ _ _ _ _ _ _ _ H2 H3) as H23.
    pose proof (runs_bind W _ _ _ _ _ _ _ _ _ H1 H23) as (Hm & Hrest).
    split; [|exact Hrest].
    unfold _init_gpio_pin. destruct (Z.ltb_spec pin 0); [lia|].
    unfold bind at 1. unfold gets. rewrite Hport. exact Hm.
  - rewrite Hp3, Hp2, Hp1. reflexivity.
Qed.

Ltac word_kept Hp L :=
  rewrite Hp;
  repeat (rewrite list_lookup_insert_ne by (vm_compute; discriminate));
  exact L.

Ltac word_set Hp L :=
  rewrite Hp;
  repeat (rewrite list_lookup_insert_ne by (vm_compute; discriminate));
  apply list_lookup_insert_eq; rewrite ?length_insert;
  eapply lookup_lt_Some; exact L.

(** The register words [_open_and_setup_gpio] leaves behind, from the words
    it found. *)
Lemma open_and_setup_gpio_page hat st w0 w1 w2 wp :
  mem_dev_ok W = true -> mmap_ok W = true ->
  length (page st) = Z.to_nat PAGE_WORDS ->
  page st !! 0%nat = Some w0 -> page st !! 1%nat = Some w1 ->
  page st !! 2%nat = Some w2 -> page st !! 61%nat = Some wp ->
  exists st' es,
    _open_and_setup_gpio W hat st = Ok tt st' /\
    trace st' = trace st ++ EvMmap :: es ++ initial_levels hat /\
    heap_events es = [] /\
    gpio_ready st' /\
    (sync W st -> sync W st') /\
    binary_data st' = binary_data st /\
    page st' !! 0%nat =
      Some (Z.lor (match hat with
                   | HAT0 => Z.lor w0 (shl32 1 (fsel_bits_offset FPGA2_NCE_GPIO_PIN))
                   | HAT1 => w0
                   end)
                  (shl32 1 (fsel_bits_offset DCLK_GPIO_PIN))) /\
    page st' !! 1%nat =
      Some (Z.lor w1 (shl32 1 (fsel_bits_offset NCONFIG_GPIO_PIN))) /\
    page st' !! 2%nat =
      Some (Z.land (Z.land w2 (not32 (shl32 7 (fsel_bits_offset BOARD_REV_GPIO_PIN_1))))
                   (not32 (shl32 7 (fsel_bits_offset BOARD_REV_GPIO_PIN_2)))) /\
    page st' !! 61%nat =
      Some (Z.lor
              (Z.land
                 (Z.lor (Z.land wp (not32 (shl32 3 (pull_bits_offset BOARD_REV_GPIO_PIN_1))))
                        (shl32 1 (pull_bits_offset BOARD_REV_GPIO_PIN_1)))
                 (not32 (shl32 3 (pull_bits_offset BOARD_REV_GPIO_PIN_2))))
              (shl32 1 (pull_bits_offset BOARD_REV_GPIO_PIN_2))) /\
    level_stores es = [].
Proof.
  intros Hdev Hmap Hlen Hw0 Hw1 Hw2 Hwp.
  unfold _open_and_setup_gpio, _mmap_bcm_register_base. rewrite Hdev, Hmap.
  unfold bind at 1. unfold bind at 1. unfold emit at 1. unfold ret at 1.
  unfold bind at 1. unfold modify at 1.
  unfold bind at 1. unfold modify at 1.
  match goal with
  | |- context [bind (_init_gpio_pin W _ _) _ ?s] => set (s0 := s)
  end.
  assert (Hp0 : page s0 = page st).
  { unfold s0. cbn [page with_gpio_regs with_gpio_port]. now rewrite tick_page. }
  assert (Hr0 : gpio_ready s0).
  { unfold gpio_ready. rewrite Hp0. unfold s0.
    cbn [gpio_port gpio_set_reg gpio_clr_reg gpio_rd_reg
         with_gpio_regs with_gpio_port ptr_add].
    repeat split. exact Hlen. }
  assert (Hport : forall s, gpio_ready s -> gpio_port s = Some 0)
    by (intros s (H & _); exact H).
  rewrite <- Hp0 in Hw0, Hw1, Hw2, Hwp.
  (* nCONFIG as output *)
  destruct (init_gpio_pin_output W NCONFIG_GPIO_PIN w1 s0) as (s1 & H1 & P1);
    [discriminate | exact (Hport s0 Hr0) | exact Hw1 |].
  pose proof (runs_ready _ _ _ _ _ _ H1 Hr0) as Hr1.
  assert (A0 : page s1 !! 0%nat = Some w0) by word_kept P1 Hw0.
  assert (A1 : page s1 !! 1%nat = Some (Z.lor w1 (shl32 1 (fsel_bits_offset NCONFIG_GPIO_PIN))))
    by word_set P1 Hw1.
  assert (A2 : page s1 !! 2%nat = Some w2) by word_kept P1 Hw2.
  assert (Ap : page s1 !! 61%nat = Some wp) by word_kept P1 Hwp.
  (* FPGA2 nCE as output, on the two-FPGA board *)
  assert (Hhat : exists s2 es2 k2,
    runs W (match hat with
            | HAT0 => _init_gpio_pin W FPGA2_NCE_GPIO_PIN true
            | HAT1 => ret tt
            end) s1 es2 k2 s2 /\ heap_events es2 = [] /\
    level_stores es2 = [] /\
    page s2 !! 0%nat =
      Some (match hat with
            | HAT0 => Z.lor w0 (shl32 1 (fsel_bits_offset FPGA2_NCE_GPIO_PIN))
            | HAT1 => w0
            end) /\
    page s2 !! 1%nat = page s1 !! 1%nat /\
    page s2 !! 2%nat = page s1 !! 2%nat /\
    page s2 !! 61%nat = page s1 !! 61%nat).
  { destruct hat.
    - destruct (init_gpio_pin_output W FPGA2_NCE_GPIO_PIN w0 s1) as (s2 & H2 & P2);
        [discriminate | exact (Hport s1 Hr1) | exact A0 |].
      exists s2. do 2 eexists. split; [exact H2|]. split; [reflexivity|].
      split; [reflexivity|].
      split; [word_set P2 A0|].
      repeat split; rewrite P2;
        now rewrite list_lookup_insert_ne by (vm_compute; discriminate).
    - exists s1, [], 0%nat. split; [apply runs_ret|]. repeat split. exact A0. }
  destruct Hhat as (s2 & es2 & k2 & H2 & Hh2 & Hl2 & B0 & B1 & B2 & Bp).
  rewrite A1 in B1. rewrite A2 in B2. rewrite Ap in Bp.
  pose proof (runs_ready _ _ _ _ _ _ H2 Hr1) as Hr2.
  (* DCLK as output *)
  destruct (init_gpio_pin_output W DCLK_GPIO_PIN
              (match hat with
               | HAT0 => Z.lor w0 (shl32 1 (fsel_bits_offset FPGA2_NCE_GPIO_PIN))
               | HAT1 => w0
               end) s2) as (s3 & H3 & P3);
    [discriminate | exact (Hport s2 Hr2) | exact B0 |].
  pose proof (runs_ready _ _ _ _ _ _ H3 Hr2) as Hr3.
  assert (C0 : page s3 !! 0%nat = Some (Z.lor
            (match hat with
             | HAT0 => Z.lor w0 (shl32 1 (fsel_bits_offset FPGA2_NCE_GPIO_PIN))
             | HAT1 => w0
             end) (shl32 1 (fsel_bits_offset DCLK_GPIO_PIN))))
    by word_set P3 B0.
  assert (C1 : page s3 !! 1%nat = Some (Z.lor w1 (shl32 1 (fsel_bits_offset NCONFIG_GPIO_PIN))))
    by word_kept P3 B1.
  assert (C2 : page s3 !! 2%nat = Some w2) by word_kept P3 B2.
  assert (Cp : page s3 !! 61%nat = Some wp) by word_kept P3 Bp.
  (* the two strap pins as inputs with pull-up *)
  destruct (init_gpio_pin_input_page BOARD_REV_GPIO_PIN_1 w2 wp s3)
    as (s4 & H4 & P4);
    [discriminate | exact (Hport s3 Hr3) | vm_compute; discriminate
    | exact C2 | exact Cp |].
  pose proof (runs_ready _ _ _ _ _ _ H4 Hr3) as Hr4.
  assert (D0 : page s4 !! 0%nat = page s3 !! 0%nat)
    by (rewrite P4; now rewrite !list_lookup_insert_ne by (vm_compute; discriminate)).
  assert (D1 : page s4 !! 1%nat = page s3 !! 1%nat)
    by (rewrite P4; now rewrite !list_lookup_insert_ne by (vm_compute; discriminate)).
  assert (D2 : page s4 !! 2%nat =
               Some (Z.land w2 (not32 (shl32 7 (fsel_bits_offset BOARD_REV_GPIO_PIN_1)))))
    by word_set P4 C2.
  assert (Dp : page s4 !! 61%nat =
               Some (Z.lor (Z.land wp (not32 (shl32 3 (pull_bits_offset BOARD_REV_GPIO_PIN_1))))
                           (shl32 1 (pull_bits_offset BOARD_REV_GPIO_PIN_1))))
    by word_set P4 Cp.
  rewrite C0 in D0. rewrite C1 in D1.
  destruct (init_gpio_pin_input_page BOARD_REV_GPIO_PIN_2
              (Z.land w2 (not32 (shl32 7 (fsel_bits_offset BOARD_REV_GPIO_PIN_1))))
              (Z.lor (Z.land wp (not32 (shl32 3 (pull_bits_offset BOARD_REV_GPIO_PIN_1))))
                     (shl32 1 (pull_bits_offset BOARD_REV_GPIO_PIN_1))) s4)
    as (s5 & H5 & P5);
    [discriminate | exact (Hport s4 Hr4) | vm_compute; discriminate
    | exact D2 | exact Dp |].
  pose proof (runs_ready _ _ _ _ _ _ H5 Hr4) as Hr5.
  assert (E0 : page s5 !! 0%nat = page s4 !! 0%nat)
    by (rewrite P5; now rewrite !list_lookup_insert_ne by (vm_compute; discriminate)).
  assert (E1 : page s5 !! 1%nat = page s4 !! 1%nat)
    by (rewrite P5; now rewrite !list_lookup_insert_ne by (vm_compute; discriminate)).
  assert (E2 : page s5 !! 2%nat =
     Some (Z.land (Z.land w2 (not32 (shl32 7 (fsel_bits_offset BOARD_REV_GPIO_PIN_1))))
                  (not32 (shl32 7 (fsel_bits_offset BOARD_REV_GPIO_PIN_2)))))
    by word_set P5 D2.
  assert (Ep : page s5 !! 61%nat =
     Some (Z.lor
             (Z.land
                (Z.lor (Z.land wp (not32 (shl32 3 (pull_bits_offset BOARD_REV_GPIO_PIN_1))))
                       (shl32 1 (pull_bits_offset BOARD_REV_GPIO_PIN_1)))
                (not32 (shl32 3 (pull_bits_offset BOARD_REV_GPIO_PIN_2))))
             (shl32 1 (pull_bits_offset BOARD_REV_GPIO_PIN_2))))
    by word_set P5 Dp.
  rewrite D0 in E0. rewrite D1 in E1.
  (* the initial levels *)
  assert (Hset : exists s6 k6,
    runs W (match hat with
            | HAT0 => SET_GPIO_PIN W FPGA2_NCE_GPIO_PIN
            | HAT1 => ret tt
            end) s5
         (match hat with
          | HAT0 => [EvStore GPSET (shl32 1 FPGA2_NCE_GPIO_PIN)]
          | HAT1 => []
          end) k6 s6 /\
    forall j, (j < 7)%nat \/ j = 61%nat -> page s6 !! j = page s5 !! j).
  { destruct hat.
    - destruct (SET_GPIO_PIN_page W FPGA2_NCE_GPIO_PIN s5 Hr5) as (s6 & H6 & P6).
      exists s6, 1%nat. split; [exact H6|]. intros j Hj. rewrite P6.
      apply list_lookup_insert_ne. change (Z.to_nat GPSET) with 7%nat. lia.
    - exists s5, 0%nat. split; [apply runs_ret|]. reflexivity. }
  destruct Hset as (s6 & k6 & H6 & K6).
  pose proof (runs_ready _ _ _ _ _ _ H6 Hr5) as Hr6.
  destruct (CLR_GPIO_PIN_page W DCLK_GPIO_PIN s6 Hr6) as (s7 & H7 & P7).
  pose proof (runs_ready _ _ _ _ _ _ H7 Hr6) as Hr7.
  destruct (CLR_GPIO_PIN_page W DATA0_GPIO_PIN s7 Hr7) as (s8 & H8 & P8).
  pose proof (runs_ready _ _ _ _ _ _ H8 Hr7) as Hr8.
  destruct (CLR_GPIO_PIN_page W NCONFIG_GPIO_PIN s8 Hr8) as (s9 & H9 & P9).
  destruct (runs_emit_page EvSleep s9) as (s10 & H10 & P10).
  destruct (runs_emit_page (EvMsg MsgGpioSetup) s10) as (s11 & H11 & P11).
  assert (K : forall j, (j < 7)%nat \/ j = 61%nat -> page s11 !! j = page s5 !! j).
  { intros j Hj. rewrite P11, P10, P9, P8, P7.
    rewrite !list_lookup_insert_ne
      by (change (Z.to_nat GPCLR) with 10%nat; lia).
    apply K6, Hj. }
  pose proof (runs_bind W _ _ _ _ _ _ _ _ _ H10 H11) as R10.
  pose proof (runs_bind W _ _ _ _ _ _ _ _ _ H9 R10) as R9.
  pose proof (runs_bind W _ _ _ _ _ _ _ _ _ H8 R9) as R8.
  pose proof (runs_bind W _ _ _ _ _ _ _ _ _ H7 R8) as R7.
  pose proof (runs_bind W _ _ _ _ _ _ _ _ _ H6 R7) as R6.
  pose proof (runs_bind W _ _ _ _ _ _ _ _ _ H5 R6) as R5.
  pose proof (runs_bind W _ _ _ _ _ _ _ _ _ H4 R5) as R4.
  pose proof (runs_bind W _ _ _ _ _ _ _ _ _ H3 R4) as R3.
  pose proof (runs_bind W _ _ _ _ _ _ _ _ _ H2 R3) as R2.
  pose proof (runs_bind W _ _ _ _ _ _ _ _ _ H1 R2) as (Hm & Ht & _ & Hf & Hs).
  assert (Ht0 : trace s0 = trace st ++ [EvMmap]).
  { unfold s0. cbn [trace with_gpio_regs with_gpio_port].
    rewrite tick_trace. reflexivity. }
  exists s11,
    ([EvStore (fsel_reg_offset NCONFIG_GPIO_PIN)
        (Z.lor w1 (shl32 1 (fsel_bits_offset NCONFIG_GPIO_PIN)))]
     ++ es2
     ++ [EvStore (fsel_reg_offset DCLK_GPIO_PIN)
           (Z.lor
              (match hat with
               | HAT0 => Z.lor w0 (shl32 1 (fsel_bits_offset FPGA2_NCE_GPIO_PIN))
               | HAT1 => w0
               end) (shl32 1 (fsel_bits_offset DCLK_GPIO_PIN)))]
     ++ [EvStore (fsel_reg_offset BOARD_REV_GPIO_PIN_1)
           (Z.land w2 (not32 (shl32 7 (fsel_bits_offset BOARD_REV_GPIO_PIN_1))));
         EvStore (pull_reg_offset BOARD_REV_GPIO_PIN_1)
           (Z.land wp (not32 (shl32 3 (pull_bits_offset BOARD_REV_GPIO_PIN_1))));
         EvStore (pull_reg_offset BOARD_REV_GPIO_PIN_1)
           (Z.lor (Z.land wp (not32 (shl32 3 (pull_bits_offset BOARD_REV_GPIO_PIN_1))))
                  (shl32 1 (pull_bits_offset BOARD_REV_GPIO_PIN_1)))]
     ++ [EvStore (fsel_reg_offset BOARD_REV_GPIO_PIN_2)
           (Z.land (Z.land w2 (not32 (shl32 7 (fsel_bits_offset BOARD_REV_GPIO_PIN_1))))
                   (not32 (shl32 7 (fsel_bits_offset BOARD_REV_GPIO_PIN_2))));
         EvStore (pull_reg_offset BOARD_REV_GPIO_PIN_2)
           (Z.land
              (Z.lor (Z.land wp (not32 (shl32 3 (pull_bits_offset BOARD_REV_GPIO_PIN_1))))
                     (shl32 1 (pull_bits_offset BOARD_REV_GPIO_PIN_1)))
              (not32 (shl32 3 (pull_bits_offset BOARD_REV_GPIO_PIN_2))));
         EvStore (pull_reg_offset BOARD_REV_GPIO_PIN_2)
           (Z.lor
              (Z.land
                 (Z.lor (Z.land wp (not32 (shl32 3 (pull_bits_offset BOARD_REV_GPIO_PIN_1))))
                        (shl32 1 (pull_bits_offset BOARD_REV_GPIO_PIN_1)))
                 (not32 (shl32 3 (pull_bits_offset BOARD_REV_GPIO_PIN_2))))
              (shl32 1 (pull_bits_offset BOARD_REV_GPIO_PIN_2)))]).
  split; [exact Hm|].
  split; [|split; [|split; [|split; [|split; [|split; [|split; [|split; [|split]]]]]]]].
  - rewrite Ht, Ht0. unfold initial_levels.
    rewrite <- !app_assoc. reflexivity.
  - rewrite !heap_events_app, Hh2. reflexivity.
  - apply (frame_ready _ _ Hf Hr0).
  - intros Hsync. apply Hs.
    apply (sync_ext W (tick W (with_trace (trace st ++ [EvMmap]) st)));
      [reflexivity | reflexivity |].
    apply tick_sync. exact Hsync.
  - destruct Hf as (_ & _ & _ & _ & Hbd & _). rewrite Hbd.
    unfold s0. cbn [binary_data with_gpio_regs with_gpio_port].
    now rewrite tick_binary_data.
  - rewrite K by lia. exact E0.
  - rewrite K by lia. exact E1.
  - rewrite K by lia. exact E2.
  - rewrite K by lia. exact Ep.
  - rewrite !level_stores_app, Hl2. reflexivity.
Qed.

End Setup.

(** X9.  [_open_and_setup_gpio] never configures the DATA0 pin: after a
    successful setup the function-select field of pin 16 is what it was
    before, whatever that was, while the fields of nCONFIG and DCLK have
    their low bit set.  The data line is an output during the transfer only
    if it already was one. *)
Theorem setup_leaves_data0_function (W : world) (hat : pi_hat) (st : state)
    (w0 w1 w2 wp : Z) :
  mem_dev_ok W = true -> mmap_ok W = true ->
  length (page st) = Z.to_nat PAGE_WORDS ->
  page st !! 0%nat = Some w0 -> page st !! 1%nat = Some w1 ->
  page st !! 2%nat = Some w2 -> page st !! 61%nat = Some wp ->
  exists st' w0' w1',
    _open_and_setup_gpio W hat st = Ok tt st' /\
    page st' !! Z.to_nat (fsel_reg_offset DCLK_GPIO_PIN) = Some w0' /\
    page st' !! Z.to_nat (fsel_reg_offset DATA0_GPIO_PIN) = Some w1' /\
    fsel_reg_offset NCONFIG_GPIO_PIN = fsel_reg_offset DATA0_GPIO_PIN /\
    fsel_field w1' DATA0_GPIO_PIN = fsel_field w1 DATA0_GPIO_PIN /\
    fsel_field w1' NCONFIG_GPIO_PIN = Z.lor (fsel_field w1 NCONFIG_GPIO_PIN) 1 /\
    fsel_field w0' DCLK_GPIO_PIN = Z.lor (fsel_field w0 DCLK_GPIO_PIN) 1.
Proof.
  intros Hdev Hmap Hlen Hw0 Hw1 Hw2 Hwp.
  destruct (open_and_setup_gpio_page W hat st w0 w1 w2 wp
              Hdev Hmap Hlen Hw0 Hw1 Hw2 Hwp)
    as (st' & es & Hm & _ & _ & _ & _ & _ & P0 & P1 & _).
  do 3 eexists. split; [exact Hm|]. split; [exact P0|]. split; [exact P1|].
  split; [reflexivity|]. unfold fsel_field. split; [|split].
  - apply (set_bit_other_field w1 _ 3); vm_compute; intuition discriminate.
  - apply (set_bit_field w1 3); vm_compute; intuition discriminate.
  - destruct hat.
    + rewrite (set_bit_field _ 3) by (vm_compute; intuition discriminate).
      f_equal.
      apply (set_bit_other_field w0 _ 3); vm_compute; intuition discriminate.
    + apply (set_bit_field w0 3); vm_compute; intuition discriminate.
Qed.

(** DATA0 left as an input (field 000) on a page of zeros. *)
Lemma setup_leaves_data0_function_witness :
  exists st' w0' w1',
    _open_and_setup_gpio (demo_world None None None) HAT0
      (boot (demo_world None None None)) = Ok tt st' /\
    page st' !! Z.to_nat (fsel_reg_offset DCLK_GPIO_PIN) = Some w0' /\
    page st' !! Z.to_nat (fsel_reg_offset DATA0_GPIO_PIN) = Some w1' /\
    fsel_reg_offset NCONFIG_GPIO_PIN = fsel_reg_offset DATA0_GPIO_PIN /\
    fsel_field w1' DATA0_GPIO_PIN = fsel_field 0 DATA0_GPIO_PIN /\
    fsel_field w1' NCONFIG_GPIO_PIN = Z.lor (fsel_field 0 NCONFIG_GPIO_PIN) 1 /\
    fsel_field w0' DCLK_GPIO_PIN = Z.lor (fsel_field 0 DCLK_GPIO_PIN) 1.
Proof.
  apply (setup_leaves_data0_function (demo_world None None None) HAT0
           (boot (demo_world None None None)) 0 0 0 0); reflexivity.
Defined.

(** X10.  After a successful [_open_and_setup_gpio], whatever the
    function-select register held, both strap pins 20 and 21, which share
    it, are inputs: setting up pin 21 does not undo the setup of pin 20.
    The stores the setup makes to the pin-set and pin-clear registers are,
    in this order, FPGA2 nCE high (two-FPGA board only), then DCLK, DATA0
    and nCONFIG low. *)
Theorem setup_straps_and_levels (W : world) (hat : pi_hat) (st : state) :
  mem_dev_ok W = true -> mmap_ok W = true ->
  length (page st) = Z.to_nat PAGE_WORDS ->
  exists st' es w2',
    _open_and_setup_gpio W hat st = Ok tt st' /\
    trace st' = trace st ++ es /\
    gpio_ready st' /\
    page st' !! Z.to_nat (fsel_reg_offset BOARD_REV_GPIO_PIN_1) = Some w2' /\
    fsel_reg_offset BOARD_REV_GPIO_PIN_2 = fsel_reg_offset BOARD_REV_GPIO_PIN_1 /\
    fsel_field w2' BOARD_REV_GPIO_PIN_1 = FSEL_INPUT /\
    fsel_field w2' BOARD_REV_GPIO_PIN_2 = FSEL_INPUT /\
    level_stores es =
      match hat with
      | HAT0 => [EvStore GPSET (shl32 1 FPGA2_NCE_GPIO_PIN)]
      | HAT1 => []
      end ++
      [EvStore GPCLR (shl32 1 DCLK_GPIO_PIN);
       EvStore GPCLR (shl32 1 DATA0_GPIO_PIN);
       EvStore GPCLR (shl32 1 NCONFIG_GPIO_PIN)].
Proof.
  intros Hdev Hmap Hlen.
  destruct (lookup_lt_is_Some_2 (page st) 0%nat) as (w0 & Hw0);
    [rewrite Hlen; apply Nat.ltb_lt; reflexivity|].
  destruct (lookup_lt_is_Some_2 (page st) 1%nat) as (w1 & Hw1);
    [rewrite Hlen; apply Nat.ltb_lt; reflexivity|].
  destruct (lookup_lt_is_Some_2 (page st) 2%nat) as (w2 & Hw2);
    [rewrite Hlen; apply Nat.ltb_lt; reflexivity|].
  destruct (lookup_lt_is_Some_2 (page st) 61%nat) as (wp & Hwp);
    [rewrite Hlen; apply Nat.ltb_lt; reflexivity|].
  destruct (open_and_setup_gpio_page W hat st w0 w1 w2 wp
              Hdev Hmap Hlen Hw0 Hw1 Hw2 Hwp)
    as (st' & es & Hm & Ht & _ & Hr & _ & _ & _ & _ & P2 & _ & Hlv).
  exists st', (EvMmap :: es ++ initial_levels hat). eexists.
  split; [exact Hm|]. split; [exact Ht|]. split; [exact Hr|].
  split; [exact P2|]. split; [reflexivity|].
  unfold fsel_field, FSEL_INPUT. split; [|split].
  - rewrite (cleared_other_field _ 3 _ 3) by (vm_compute; intuition discriminate).
    apply (cleared_field w2 3); vm_compute; intuition discriminate.
  - apply (cleared_field _ 3); vm_compute; intuition discriminate.
  - change (EvMmap :: es ++ initial_levels hat)
      with ([EvMmap] ++ es ++ initial_levels hat).
    rewrite !level_stores_app, Hlv. destruct hat; reflexivity.
Qed.

Lemma setup_straps_and_levels_witness :
  exists st' es w2',
    _open_and_setup_gpio (demo_world None None None) HAT0
      (boot (demo_world None None None)) = Ok tt st' /\
    trace st' = trace (boot (demo_world None None None)) ++ es /\
    gpio_ready st' /\
    page st' !! Z.to_nat (fsel_reg_offset BOARD_REV_GPIO_PIN_1) = Some w2' /\
    fsel_reg_offset BOARD_REV_GPIO_PIN_2 = fsel_reg_offset BOARD_REV_GPIO_PIN_1 /\
    fsel_field w2' BOARD_REV_GPIO_PIN_1 = FSEL_INPUT /\
    fsel_field w2' BOARD_REV_GPIO_PIN_2 = FSEL_INPUT /\
    level_stores es =
      [EvStore GPSET (shl32 1 FPGA2_NCE_GPIO_PIN)] ++
      [EvStore GPCLR (shl32 1 DCLK_GPIO_PIN);
       EvStore GPCLR (shl32 1 DATA0_GPIO_PIN);
       EvStore GPCLR (shl32 1 NCONFIG_GPIO_PIN)].
Proof.
  apply (setup_straps_and_levels (demo_world None None None) HAT0
           (boot (demo_world None None None))); reflexivity.
Defined.

(** ** The complete run *)

Lemma flag_at_never (W : world) c : sigint_at W = None -> flag_at W c = false.
Proof. intros H. unfold flag_at. now rewrite H. Qed.

(** X11.  On the two-FPGA board, when the window maps, both image files
    open (each under 2^32 bytes), both buffers are allocated and no signal
    arrives, [main] sets the pins up and reports the board revision without
    touching the heap, configures target 1, releases its buffer, configures
    target 2, releases its buffer, drives the lines low, unmaps and returns
    0: each buffer is released exactly once, after its own transfer and
    before the next allocation. *)
Theorem main_configures_both_targets (W : world) (image1 image2 : list byte) :
  mem_dev_ok W = true -> mmap_ok W = true ->
  length (gpio_regs W) = Z.to_nat PAGE_WORDS ->
  fpga1_file W = Some image1 -> fpga2_file W = Some image2 ->
  new_ok W (Z.of_nat (length image1)) = true ->
  new_ok W (Z.of_nat (length image2)) = true ->
  Z.of_nat (length image1) < 2 ^ 32 ->
  Z.of_nat (length image2) < 2 ^ 32 ->
  sigint_at W = None ->
  exists pre,
    main W HAT0 = Exited 0
      (pre
       ++ config_events 1 (EvStore GPSET (shl32 1 NCONFIG_GPIO_PIN)) image1
       ++ [EvDelete]
       ++ config_events 2 (EvStore GPCLR (shl32 1 FPGA2_NCE_GPIO_PIN)) image2
       ++ [EvDelete]
       ++ closing_events) /\
    heap_events pre = [].
Proof.
  intros Hdev Hmap Hlen Hf1 Hf2 Hn1 Hn2 Hl1 Hl2 Hsig.
  unfold main, main_body.
  unfold bind at 1. unfold _print_app_info, MSG at 1, emit at 1.
  set (s1 := tick W (with_trace (trace (boot W) ++ [EvMsg MsgAppInfo]) (boot W))).
  assert (Ht1 : trace s1 = [EvMsg MsgAppInfo])
    by (unfold s1; rewrite tick_trace; reflexivity).
  assert (Hs1 : sync W s1).
  { unfold s1. apply tick_sync.
    apply (sync_ext W (boot W)); [reflexivity | reflexivity |].
    unfold sync, flag_at, boot. rewrite Hsig. reflexivity. }
  destruct (open_and_setup_gpio_ok W HAT0 s1 Hdev Hmap)
    as (s2 & es2 & Hm2 & Ht2 & Hh2 & Hr2 & _).
  { unfold s1. rewrite tick_page. exact Hlen. }
  pose proof (keeps_open_and_setup_gpio W (sync W) (tick_sync W) (sync_ext W)
                HAT0 s1 tt s2 Hs1 Hm2) as Hs2.
  unfold bind at 1. rewrite Hm2.
  destruct (quiet_print_board_rev_info W s2 Hr2)
    as (s3 & es3 & k3 & (Hm3 & Ht3 & _ & Hf3 & Hsy3) & Hh3).
  pose proof (frame_ready _ _ Hf3 Hr2) as Hr3.
  unfold bind at 1. rewrite Hm3.
  unfold bind at 1. unfold gets at 1.
  destruct Hr3 as (Hport3 & Hrest3). rewrite Hport3.
  pose proof (conj Hport3 Hrest3 : gpio_ready s3) as Hr3.
  destruct (config_fpga1_run W s3 image1 Hf1 Hn1 Hl1 Hr3 (Hsy3 Hs2)
              (flag_at_never W _ Hsig))
    as (s4 & Hm4 & Ht4 & _ & Hr4 & Hs4 & Hd4).
  unfold bind at 1. unfold bind at 1. rewrite Hm4.
  destruct (free_binary_data_runs W s4) as (s5 & k5 & Hm5 & Ht5 & _ & Hf5 & Hsy5).
  rewrite Hd4 in Ht5.
  pose proof (frame_ready _ _ Hf5 Hr4) as Hr5.
  unfold bind at 1. rewrite Hm5.
  unfold bind at 1. unfold modify at 1.
  set (s6 := with_binary_data None s5).
  assert (Hr6 : gpio_ready s6).
  { destruct Hr5 as (? & ? & ? & ? & ?). repeat split; assumption. }
  assert (Hs6 : sync W s6)
    by (apply (sync_ext W s5); [reflexivity | reflexivity | exact (Hsy5 Hs4)]).
  destruct (config_fpga2_run W s6 image2 Hf2 Hn2 Hl2 Hr6 Hs6
              (flag_at_never W _ Hsig))
    as (s7 & Hm7 & Ht7 & _ & Hr7 & _ & Hd7).
  rewrite Hm7.
  destruct (free_binary_data_runs W s7) as (s8 & k8 & Hm8 & Ht8 & _ & Hf8 & _).
  rewrite Hd7 in Ht8.
  pose proof (frame_ready _ _ Hf8 Hr7) as Hr8.
  unfold bind at 1. rewrite Hm8.
  destruct (close_gpio_ok W s8 Hr8) as (s9 & Hm9 & Ht9).
  unfold bind at 1. rewrite Hm9.
  unfold bind at 1. unfold MSG at 1, emit at 1. unfold ret.
  rewrite tick_trace. cbn [trace with_trace].
  exists ([EvMsg MsgAppInfo] ++ es2 ++ es3). split.
  - f_equal. rewrite Ht9, Ht8, Ht7.
    change (trace s6) with (trace s5).
    rewrite Ht5, Ht4, Ht3, Ht2, Ht1.
    unfold closing_events. rewrite <- !app_assoc. reflexivity.
  - now rewrite !heap_events_app, Hh2, Hh3.
Qed.

Lemma main_configures_both_targets_witness :
  exists pre,
    main (demo_world (Some [xb2]) (Some [x01; xff]) None) HAT0 = Exited 0
      (pre
       ++ config_events 1 (EvStore GPSET (shl32 1 NCONFIG_GPIO_PIN)) [xb2]
       ++ [EvDelete]
       ++ config_events 2 (EvStore GPCLR (shl32 1 FPGA2_NCE_GPIO_PIN)) [x01; xff]
       ++ [EvDelete]
       ++ closing_events) /\
    heap_events pre = [].
Proof.
  apply (main_configures_both_targets
           (demo_world (Some [xb2]) (Some [x01; xff]) None) [xb2] [x01; xff]);
    reflexivity.
Defined.


(** The strap read on a mapped window prints exactly one revision line. *)
Lemma print_board_rev_info_runs (W : world) (st : state) :
  gpio_ready st ->
  exists st' r,
    _print_board_rev_info W st = Ok tt st' /\
    trace st' = trace st ++ [EvMsg (MsgBoardRev r)] /\
    frame st st' /\
    (sync W st -> sync W st').
Proof.
  intros (Hport & Hset & Hclr & Hrd & Hlen).
  destruct (lookup_lt_is_Some_2 (page st) (Z.to_nat GPLEV)) as (lev & Hlev).
  { rewrite Hlen. apply Nat.ltb_lt. reflexivity. }
  set (r := strap_rev (Z.testbit lev BOARD_REV_GPIO_PIN_1)
                      (Z.testbit lev BOARD_REV_GPIO_PIN_2)).
  destruct (runs_emit W (EvMsg (MsgBoardRev r)) (tick W (tick W st)))
    as (st' & H2).
  exists st', r.
  assert (R : runs W (_print_board_rev_info W) st [EvMsg (MsgBoardRev r)] 3 st').
  { apply (runs_after_tick W _
             (pin2 <- RD_GPIO_PIN W BOARD_REV_GPIO_PIN_2 ;;
              match rev_label
                      (rev_code (Z.b2z (Z.testbit lev BOARD_REV_GPIO_PIN_1)) pin2) with
              | Some r => MSG W (MsgBoardRev r)
              | None => ret tt
              end)).
    - unfold _print_board_rev_info. unfold bind at 1.
      rewrite (RD_GPIO_PIN_ok W st GPLEV _ lev Hrd) by (try discriminate; exact Hlev).
      reflexivity.
    - apply (runs_after_tick W _ (MSG W (MsgBoardRev r))); [|exact H2].
      unfold bind at 1.
      rewrite (RD_GPIO_PIN_ok W (tick W st) GPLEV _ lev)
        by (try discriminate; try (rewrite tick_page; exact Hlev);
            rewrite tick_gpio_rd_reg; exact Hrd).
      unfold r.
      destruct (Z.testbit lev BOARD_REV_GPIO_PIN_1),
               (Z.testbit lev BOARD_REV_GPIO_PIN_2); reflexivity. }
  destruct R as (Hm & Ht & _ & Hf & Hs). repeat split; try assumption;
    destruct Hf as (? & ? & ? & ? & ? & ? & ?); assumption.
Qed.

(** X12.  On the single-FPGA board, under the same conditions, [main]
    returns 0 after a setup that touches no heap and whose only stores to
    the pin-set and pin-clear registers drive DCLK, DATA0 and nCONFIG low
    (FPGA2 nCE is never written), the complete configuration of the one
    target, one release of its buffer, by the release at the end of [main],
    and the closing sequence. *)
Theorem main_single_target (W : world) (image : list byte) :
  mem_dev_ok W = true -> mmap_ok W = true ->
  length (gpio_regs W) = Z.to_nat PAGE_WORDS ->
  fpga1_file W = Some image ->
  new_ok W (Z.of_nat (length image)) = true ->
  Z.of_nat (length image) < 2 ^ 32 ->
  sigint_at W = None ->
  exists pre,
    main W HAT1 = Exited 0
      (pre
       ++ config_events 1 (EvStore GPSET (shl32 1 NCONFIG_GPIO_PIN)) image
       ++ [EvDelete]
       ++ closing_events) /\
    heap_events pre = [] /\
    level_stores pre =
      [EvStore GPCLR (shl32 1 DCLK_GPIO_PIN);
       EvStore GPCLR (shl32 1 DATA0_GPIO_PIN);
       EvStore GPCLR (shl32 1 NCONFIG_GPIO_PIN)].
Proof.
  intros Hdev Hmap Hlen Hf1 Hn1 Hl1 Hsig.
  unfold main, main_body.
  unfold bind at 1. unfold _print_app_info, MSG at 1, emit at 1.
  set (s1 := tick W (with_trace (trace (boot W) ++ [EvMsg MsgAppInfo]) (boot W))).
  assert (Ht1 : trace s1 = [EvMsg MsgAppInfo])
    by (unfold s1; rewrite tick_trace; reflexivity).
  assert (Hs1 : sync W s1).
  { unfold s1. apply tick_sync.
    apply (sync_ext W (boot W)); [reflexivity | reflexivity |].
    unfold sync, flag_at, boot. rewrite Hsig. reflexivity. }
  assert (Hlen1 : length (page s1) = Z.to_nat PAGE_WORDS)
    by (unfold s1; rewrite tick_page; exact Hlen).
  destruct (lookup_lt_is_Some_2 (page s1) 0%nat) as (w0 & Hw0);
    [rewrite Hlen1; apply Nat.ltb_lt; reflexivity|].
  destruct (lookup_lt_is_Some_2 (page s1) 1%nat) as (w1 & Hw1);
    [rewrite Hlen1; apply Nat.ltb_lt; reflexivity|].
  destruct (lookup_lt_is_Some_2 (page s1) 2%nat) as (w2 & Hw2);
    [rewrite Hlen1; apply Nat.ltb_lt; reflexivity|].
  destruct (lookup_lt_is_Some_2 (page s1) 61%nat) as (wp & Hwp);
    [rewrite Hlen1; apply Nat.ltb_lt; reflexivity|].
  destruct (open_and_setup_gpio_page W HAT1 s1 w0 w1 w2 wp
              Hdev Hmap Hlen1 Hw0 Hw1 Hw2 Hwp)
    as (s2 & es2 & Hm2 & Ht2 & Hh2 & Hr2 & Hsy2 & _ & _ & _ & _ & _ & Hlv2).
  unfold bind at 1. rewrite Hm2.
  destruct (print_board_rev_info_runs W s2 Hr2) as (s3 & r & Hm3 & Ht3 & Hf3 & Hsy3).
  pose proof (frame_ready _ _ Hf3 Hr2) as Hr3.
  unfold bind at 1. rewrite Hm3.
  unfold bind at 1. unfold gets at 1.
  destruct Hr3 as (Hport3 & Hrest3). rewrite Hport3.
  pose proof (conj Hport3 Hrest3 : gpio_ready s3) as Hr3.
  destruct (config_fpga1_run W s3 image Hf1 Hn1 Hl1 Hr3 (Hsy3 (Hsy2 Hs1))
              (flag_at_never W _ Hsig))
    as (s4 & Hm4 & Ht4 & _ & Hr4 & _ & Hd4).
  unfold bind at 1. unfold bind at 1. rewrite Hm4. unfold ret at 1.
  destruct (free_binary_data_runs W s4) as (s5 & k5 & Hm5 & Ht5 & _ & Hf5 & _).
  rewrite Hd4 in Ht5.
  pose proof (frame_ready _ _ Hf5 Hr4) as Hr5.
  unfold bind at 1. rewrite Hm5.
  destruct (close_gpio_ok W s5 Hr5) as (s6 & Hm6 & Ht6).
  unfold bind at 1. rewrite Hm6.
  unfold bind at 1. unfold MSG at 1, emit at 1. unfold ret.
  rewrite tick_trace. cbn [trace with_trace].
  exists ([EvMsg MsgAppInfo] ++ [EvMmap] ++ es2 ++ initial_levels HAT1
          ++ [EvMsg (MsgBoardRev r)]).
  split; [|split].
  - f_equal. rewrite Ht6, Ht5, Ht4, Ht3, Ht2, Ht1.
    unfold closing_events. cbn [app]. rewrite <- !app_assoc. reflexivity.
  - rewrite !heap_events_app, Hh2. reflexivity.
  - rewrite !level_stores_app, Hlv2. reflexivity.
Qed.

Lemma main_single_target_witness :
  exists pre,
    main (demo_world (Some [xb2]) None None) HAT1 = Exited 0
      (pre
       ++ config_events 1 (EvStore GPSET (shl32 1 NCONFIG_GPIO_PIN)) [xb2]
       ++ [EvDelete]
       ++ closing_events) /\
    heap_events pre = [] /\
    level_stores pre =
      [EvStore GPCLR (shl32 1 DCLK_GPIO_PIN);
       EvStore GPCLR (shl32 1 DATA0_GPIO_PIN);
       EvStore GPCLR (shl32 1 NCONFIG_GPIO_PIN)].
Proof.
  apply (main_single_target (demo_world (Some [xb2]) None None) [xb2]);
    reflexivity.
Defined.

(** X13.  A first image file that cannot be opened does not keep the second
    target from being configured: on the two-FPGA board [main] prints the
    error for target 1, touches neither nCONFIG nor the heap for it, then
    configures target 2 in full, releases that buffer once, closes and
    returns 0. *)
Theorem main_first_file_missing (W : world) (image2 : list byte) :
  mem_dev_ok W = true -> mmap_ok W = true ->
  length (gpio_regs W) = Z.to_nat PAGE_WORDS ->
  fpga1_file W = None -> fpga2_file W = Some image2 ->
  new_ok W (Z.of_nat (length image2)) = true ->
  Z.of_nat (length image2) < 2 ^ 32 ->
  sigint_at W = None ->
  exists pre,
    main W HAT0 = Exited 0
      (pre
       ++ [EvMsg (MsgNoFile 1)]
       ++ config_events 2 (EvStore GPCLR (shl32 1 FPGA2_NCE_GPIO_PIN)) image2
       ++ [EvDelete]
       ++ closing_events) /\
    heap_events pre = [].
Proof.
  intros Hdev Hmap Hlen Hf1 Hf2 Hn2 Hl2 Hsig.
  unfold main, main_body.
  unfold bind at 1. unfold _print_app_info, MSG at 1, emit at 1.
  set (s1 := tick W (with_trace (trace (boot W) ++ [EvMsg MsgAppInfo]) (boot W))).
  assert (Ht1 : trace s1 = [EvMsg MsgAppInfo])
    by (unfold s1; rewrite tick_trace; reflexivity).
  assert (Hd1 : binary_data s1 = None)
    by (unfold s1; rewrite tick_binary_data; reflexivity).
  assert (Hs1 : sync W s1).
  { unfold s1. apply tick_sync.
    apply (sync_ext W (boot W)); [reflexivity | reflexivity |].
    unfold sync, flag_at, boot. rewrite Hsig. reflexivity. }
  destruct (open_and_setup_gpio_ok W HAT0 s1 Hdev Hmap)
    as (s2 & es2 & Hm2 & Ht2 & Hh2 & Hr2 & Hd2).
  { unfold s1. rewrite tick_page. exact Hlen. }
  pose proof (keeps_open_and_setup_gpio W (sync W) (tick_sync W) (sync_ext W)
                HAT0 s1 tt s2 Hs1 Hm2) as Hs2.
  unfold bind at 1. rewrite Hm2.
  destruct (quiet_print_board_rev_info W s2 Hr2)
    as (s3 & es3 & k3 & (Hm3 & Ht3 & _ & Hf3 & Hsy3) & Hh3).
  pose proof (frame_ready _ _ Hf3 Hr2) as Hr3.
  assert (Hd3 : binary_data s3 = None).
  { destruct Hf3 as (_ & _ & _ & _ & Hbd & _). congruence. }
  unfold bind at 1. rewrite Hm3.
  unfold bind at 1. unfold gets at 1.
  destruct Hr3 as (Hport3 & Hrest3). rewrite Hport3.
  pose proof (conj Hport3 Hrest3 : gpio_ready s3) as Hr3.
  assert (E4 : _config_fpga1 W s3 = emit W (EvMsg (MsgNoFile 1)) s3)
    by (unfold _config_fpga1; rewrite Hf1; reflexivity).
  destruct (runs_emit W (EvMsg (MsgNoFile 1)) s3)
    as (s4 & Hm4 & Ht4 & _ & Hf4 & Hsy4).
  pose proof (frame_ready _ _ Hf4 Hr3) as Hr4.
  assert (Hd4 : binary_data s4 = None).
  { destruct Hf4 as (_ & _ & _ & _ & Hbd & _). congruence. }
  unfold bind at 1. unfold bind at 1. rewrite E4, Hm4.
  destruct (free_binary_data_runs W s4) as (s5 & k5 & Hm5 & Ht5 & _ & Hf5 & Hsy5).
  rewrite Hd4, app_nil_r in Ht5.
  pose proof (frame_ready _ _ Hf5 Hr4) as Hr5.
  unfold bind at 1. rewrite Hm5.
  unfold bind at 1. unfold modify at 1.
  set (s6 := with_binary_data None s5).
  assert (Hr6 : gpio_ready s6).
  { destruct Hr5 as (? & ? & ? & ? & ?). repeat split; assumption. }
  assert (Hs6 : sync W s6).
  { apply (sync_ext W s5); [reflexivity | reflexivity |].
    apply Hsy5, Hsy4, Hsy3, Hs2. }
  destruct (config_fpga2_run W s6 image2 Hf2 Hn2 Hl2 Hr6 Hs6
              (flag_at_never W _ Hsig))
    as (s7 & Hm7 & Ht7 & _ & Hr7 & _ & Hd7).
  rewrite Hm7.
  destruct (free_binary_data_runs W s7) as (s8 & k8 & Hm8 & Ht8 & _ & Hf8 & _).
  rewrite Hd7 in Ht8.
  pose proof (frame_ready _ _ Hf8 Hr7) as Hr8.
  unfold bind at 1. rewrite Hm8.
  destruct (close_gpio_ok W s8 Hr8) as (s9 & Hm9 & Ht9).
  unfold bind at 1. rewrite Hm9.
  unfold bind at 1. unfold MSG at 1, emit at 1. unfold ret.
  rewrite tick_trace. cbn [trace with_trace].
  exists ([EvMsg MsgAppInfo] ++ es2 ++ es3). split.
  - f_equal. rewrite Ht9, Ht8, Ht7.
    change (trace s6) with (trace s5).
    rewrite Ht5, Ht4, Ht3, Ht2, Ht1.
    unfold closing_events. rewrite <- !app_assoc. reflexivity.
  - now rewrite !heap_events_app, Hh2, Hh3.
Qed.

Lemma main_first_file_missing_witness :
  exists pre,
    main (demo_world None (Some [x01; xff]) None) HAT0 = Exited 0
      (pre
       ++ [EvMsg (MsgNoFile 1)]
       ++ config_events 2 (EvStore GPCLR (shl32 1 FPGA2_NCE_GPIO_PIN)) [x01; xff]
       ++ [EvDelete]
       ++ closing_events) /\
    heap_events pre = [].
Proof.
  apply (main_first_file_missing (demo_world None (Some [x01; xff]) None)
           [x01; xff]); reflexivity.
Defined.
